(** * jiant/proj/main/runner.py: a shallow embedding

    The runner drives multi-task training and evaluation of a shared model
    and, in [L2TWWRunner], a bi-level variant with a frozen teacher and the
    What/Where weighting networks.

    Conventions of the embedding.
    - Python integers are [Z]; [range(n)] runs [Z.to_nat n] times.
    - Python floats and tensor entries are idealised as real numbers [R]
      (no rounding); a tensor is a shape together with its row-major data.
    - Dictionaries with string keys are [gmap string _].
    - Mutation and exceptions are threaded through a state-and-error monad:
      a computation maps a state to a result (a value or a raised Python
      exception) and the state left behind, which is kept when an exception
      is raised, as the mutated Python objects would be.
    - Calls on collaborators that live outside this file (optimizer,
      scheduler, sampler, data cursors, forward adapter, evaluation scheme,
      log writer) are recorded, in order, in a trace of events. *)

From Stdlib Require Import Reals Lra.
From stdpp Require Import gmap strings list fin_maps.

Open Scope Z_scope.

(** ** Exceptions and the state-and-error monad *)

Inductive PyError :=
| KeyError (key : string)
| IndexError (what : string)
| AttributeError (obj attr : string)
| RuntimeError (what : string)
| TypeError (what : string)
| UnboundLocalError (name : string)
| ValueError (what : string)
| ZeroDivisionError.

Inductive result (A : Type) :=
| Ok (a : A)
| Raise (e : PyError).
Arguments Ok {A} a.
Arguments Raise {A} e.

Definition M (S A : Type) : Type := S → result A * S.

Definition ret {S A} (a : A) : M S A := λ s, (Ok a, s).

Definition raise {S A} (e : PyError) : M S A := λ s, (Raise e, s).

Definition bind {S A B} (c : M S A) (k : A → M S B) : M S B :=
  λ s, match c s with
       | (Ok a, s') => k a s'
       | (Raise e, s') => (Raise e, s')
       end.

Definition get {S} : M S S := λ s, (Ok s, s).

Definition modify {S} (f : S → S) : M S unit := λ s, (Ok tt, f s).

(** A pure fallible computation used as a statement. *)
Definition lift {S A} (r : result A) : M S A := λ s, (r, s).

(** [d[k]] on a dictionary. *)
Definition getitem {V} (d : gmap string V) (k : string) : result V :=
  match d !! k with
  | Some v => Ok v
  | None => Raise (KeyError k)
  end.

(** [l[i]] on a list, for an index that is never negative. *)
Definition list_getitem {A} (what : string) (l : list A) (i : nat) : result A :=
  match l !! i with
  | Some x => Ok x
  | None => Raise (IndexError what)
  end.

#[global] Instance M_ret {S} : MRet (M S) := λ A, @ret S A.
#[global] Instance M_bind {S} : MBind (M S) := λ A B k c, @bind S A B c k.

(** [for x in xs: body x] *)
Fixpoint for_each {S A} (xs : list A) (body : A → M S unit) : M S unit :=
  match xs with
  | [] => ret tt
  | x :: xs' => body x;; for_each xs' body
  end.

(** [for x in xs: acc = body acc x], the loop-carried variables being [acc]. *)
Fixpoint for_fold {S A B} (xs : list A) (acc : B) (body : B → A → M S B) : M S B :=
  match xs with
  | [] => ret acc
  | x :: xs' => acc' ← body acc x; for_fold xs' acc' body
  end.

(** [range(n)] *)
Definition range (n : Z) : list nat := seq 0 (Z.to_nat n).

(** ** TrainState (lines 31-42) *)

Record TrainState := mkTrainState {
  global_steps : Z;
  task_steps : gmap string Z;
}.

Module TrainState.

(** [{task_name: 0 for task_name in task_name_list}]: the keys are
    inserted in order, a repeated name overwriting its entry. *)
Definition zero_counters (task_name_list : list string) : gmap string Z :=
  foldl (λ d task_name, <[task_name := 0]> d) ∅ task_name_list.

Definition from_task_name_list (task_name_list : list string) : TrainState :=
  {| global_steps := 0; task_steps := zero_counters task_name_list |}.

(** [self.task_steps[task_name] += 1]: read (KeyError when the key is
    missing), then store. *)
Definition incr_task_steps (task_name : string) : M TrainState unit :=
  λ self,
    match task_steps self !! task_name with
    | Some v =>
        (Ok tt, {| global_steps := global_steps self;
                   task_steps := <[task_name := v + 1]> (task_steps self) |})
    | None => (Raise (KeyError task_name), self)
    end.

(** [self.global_steps += 1] *)
Definition incr_global_steps : M TrainState unit :=
  modify (λ self, {| global_steps := global_steps self + 1;
                     task_steps := task_steps self |}).

Definition step (task_name : string) : M TrainState unit :=
  incr_task_steps task_name;;
  incr_global_steps.

(** [sum(self.task_steps.values())] *)
Definition sum_task_steps (self : TrainState) : Z :=
  map_fold (λ _ v acc, v + acc) 0 (task_steps self).

(** A caller issuing [step] once per name of [calls], in order; the first
    exception ends the sequence. *)
Definition steps (calls : list string) : M TrainState unit :=
  for_each calls step.

End TrainState.

(** ** Tensors, as far as the runner uses torch

    A tensor is its shape and its entries in row-major order.  Entries
    missing from a buffer that is too short read as 0, so every operation
    below returns a buffer of exactly the size its shape asks for. *)

Record Tensor := mkTensor {
  shape : list nat;
  data : list R;
}.

#[global] Instance result_ret : MRet result := λ A, @Ok A.
#[global] Instance result_bind : MBind result :=
  λ A B k r, match r with Ok a => k a | Raise e => Raise e end.

Module Torch.

Definition numel_of (sh : list nat) : nat := foldr Nat.mul 1%nat sh.

Definition rsum (l : list R) : R := foldr Rplus 0%R l.

Definition entry (l : list R) (i : nat) : R := nth i l 0%R.

(** Row [r] of a buffer read as rows of [width] entries. *)
Definition row (width : nat) (l : list R) (r : nat) : list R :=
  (λ j, entry l (r * width + j)) <$> seq 0 width.

Definition rows (count width : nat) (l : list R) : list (list R) :=
  row width l <$> seq 0 count.

(** A Python float used where a tensor is expected. *)
Definition scalar (x : R) : Tensor := {| shape := []; data := [x] |}.

(** [t.reshape(a, b)] *)
Definition reshape2 (t : Tensor) (a b : nat) : result Tensor :=
  if decide (numel_of (shape t) = (a * b)%nat)
  then Ok {| shape := [a; b]; data := data t |}
  else Raise (RuntimeError "shape is invalid for input size").

Definition softmax_row (r : list R) : list R :=
  let total := rsum (exp <$> r) in
  (λ x, (exp x / total)%R) <$> r.

(** [F.softmax(t, 1)] on a matrix, the only rank [WhatNetwork.forward]
    passes: each row is normalised on its own.  A tensor of rank below 2
    has no dimension 1. *)
Definition softmax_dim1 (t : Tensor) : result Tensor :=
  match shape t with
  | [a; b] => Ok {| shape := [a; b];
                    data := concat (softmax_row <$> rows a b (data t)) |}
  | _ => Raise (IndexError "Dimension out of range")
  end.

(** Iterating a tensor, as [list.extend(t)] does: its slices along the
    first dimension. *)
Definition iterate (t : Tensor) : result (list Tensor) :=
  match shape t with
  | [] => Raise (TypeError "iteration over a 0-d tensor")
  | a :: rest => Ok (mkTensor rest <$> rows a (numel_of rest) (data t))
  end.

(** [t[i]] for [i] not negative. *)
Definition getitem (t : Tensor) (i : nat) : result Tensor :=
  match shape t with
  | [] => Raise (IndexError "invalid index of a 0-dim tensor")
  | a :: rest =>
      if decide (i < a)%nat
      then Ok (mkTensor rest (row (numel_of rest) (data t) i))
      else Raise (IndexError "index out of range")
  end.

(** [F.relu(t)] *)
Definition relu (t : Tensor) : Tensor :=
  {| shape := shape t; data := Rmax 0 <$> data t |}.

(** [t.squeeze()]: every dimension of size 1 is dropped. *)
Definition squeeze (t : Tensor) : Tensor :=
  {| shape := filter (λ d, d ≠ 1%nat) (shape t); data := data t |}.

(** Broadcasting, on shapes listed from the last dimension: two sizes go
    together when they are equal or one of them is 1, and a dimension that
    one shape lacks is taken from the other. *)
Fixpoint broadcast_rev (ra rb : list nat) : option (list nat) :=
  match ra, rb with
  | [], _ => Some rb
  | _, [] => Some ra
  | x :: ra', y :: rb' =>
      match broadcast_rev ra' rb' with
      | None => None
      | Some rest =>
          if decide (x = y) then Some (x :: rest)
          else if decide (x = 1%nat) then Some (y :: rest)
          else if decide (y = 1%nat) then Some (x :: rest)
          else None
      end
  end.

Definition broadcast_shapes (a b : list nat) : option (list nat) :=
  reverse <$> broadcast_rev (reverse a) (reverse b).

(** The position, in a buffer whose shape from the last dimension is
    [rs], of the entry that position [i] of the broadcast shape [rt] reads:
    along a dimension of size 1 the one entry is repeated. *)
Fixpoint source_index (rs rt : list nat) (i : nat) : nat :=
  match rs, rt with
  | x :: rs', y :: rt' =>
      ((if decide (x = 1%nat) then 0 else i mod y)
       + x * source_index rs' rt' (i / y))%nat
  | _, _ => 0%nat
  end.

(** The entries of [t] broadcast to the shape [sh]. *)
Definition expand (t : Tensor) (sh : list nat) : list R :=
  (λ i, entry (data t) (source_index (reverse (shape t)) (reverse sh) i))
    <$> seq 0 (numel_of sh).

(** An elementwise binary operation with broadcasting; a Python float
    operand is a tensor of rank 0. *)
Definition pointwise (f : R → R → R) (a b : Tensor) : result Tensor :=
  match broadcast_shapes (shape a) (shape b) with
  | Some sh => Ok {| shape := sh; data := zip_with f (expand a sh) (expand b sh) |}
  | None => Raise (RuntimeError "The size of tensor a must match the size of tensor b")
  end.

(** [a += b] on a tensor [a]: the sum is written into [a], so [b] must
    broadcast to the shape [a] has. *)
Definition iadd (a b : Tensor) : result Tensor :=
  match broadcast_shapes (shape a) (shape b) with
  | Some sh =>
      if decide (sh = shape a)
      then Ok {| shape := sh; data := zip_with Rplus (expand a sh) (expand b sh) |}
      else Raise (RuntimeError "output shape doesn't match the broadcast shape")
  | None => Raise (RuntimeError "The size of tensor a must match the size of tensor b")
  end.

(** [t.pow(2)] *)
Definition pow2 (t : Tensor) : Tensor :=
  {| shape := shape t; data := (λ x, (x * x)%R) <$> data t |}.

(** A reduction along dimension [d]: with the shape split as
    [pre ++ [n] ++ post], entry [(p, q)] of the result reduces the [n]
    entries [(p, k, q)]. *)
Definition reduce_dim (f : list R → R) (d : nat) (t : Tensor) : result Tensor :=
  match shape t !! d with
  | None => Raise (IndexError "Dimension out of range")
  | Some n =>
      let pre := numel_of (take d (shape t)) in
      let post := numel_of (drop (S d) (shape t)) in
      Ok {| shape := take d (shape t) ++ drop (S d) (shape t);
            data :=
              p ← seq 0 pre;
              q ← seq 0 post;
              [f ((λ k, entry (data t) ((p * n + k) * post + q)) <$> seq 0 n)] |}
  end.

Definition mean_of (l : list R) : R := (rsum l / INR (length l))%R.

(** [t.mean(d)] and [t.sum(d)] *)
Definition mean (d : nat) (t : Tensor) : result Tensor := reduce_dim mean_of d t.
Definition sum (d : nat) (t : Tensor) : result Tensor := reduce_dim rsum d t.

(** [nn.Linear(in_features, out_features)]: [weight j i] and [bias j]
    are the entries of its two parameters. *)
Record Linear := mkLinear {
  in_features : nat;
  out_features : nat;
  weight : nat → nat → R;
  bias : nat → R;
}.

Definition linear_row (lin : Linear) (x : list R) : list R :=
  (λ j, (rsum ((λ i, (weight lin j i * entry x i)%R) <$> seq 0 (in_features lin))
         + bias lin j)%R) <$> seq 0 (out_features lin).

(** Calling the layer: it acts on the last dimension, which must have
    [in_features] entries, and leaves the leading ones as they are. *)
Definition linear (lin : Linear) (input : Tensor) : result Tensor :=
  match reverse (shape input) with
  | [] => Raise (RuntimeError "both arguments to matmul need to be at least 1D")
  | last_dim :: leading =>
      if decide (last_dim = in_features lin)
      then Ok {| shape := reverse leading ++ [out_features lin];
                 data := concat (linear_row lin <$>
                                   rows (numel_of leading) (in_features lin) (data input)) |}
      else Raise (RuntimeError "mat1 and mat2 shapes cannot be multiplied")
  end.

End Torch.

(** [for x in xs: acc = body acc x] where nothing but exceptions is
    threaded. *)
Fixpoint result_fold {A B} (xs : list A) (acc : B) (body : B → A → result B) : result B :=
  match xs with
  | [] => Ok acc
  | x :: xs' => acc' ← body acc x; result_fold xs' acc' body
  end.

(** ** The What and Where networks and their combined module (lines 255-326) *)

Module WhatNetwork.

Record t := mk {
  hidden_size : nat;
  teacher_num_layers : nat;
  student_num_layers : nat;
  what_network_linear : list Torch.Linear;
}.

(** [__init__]: one [nn.Linear(hidden_size, student_num_layers * hidden_size)]
    per teacher layer; [w i] and [b i] are the values torch draws for the
    parameters of layer [i]. *)
Definition init (hidden_size teacher_num_layers student_num_layers : nat)
    (w : nat → nat → nat → R) (b : nat → nat → R) : t :=
  {| hidden_size := hidden_size;
     teacher_num_layers := teacher_num_layers;
     student_num_layers := student_num_layers;
     what_network_linear :=
       (λ i, Torch.mkLinear hidden_size (student_num_layers * hidden_size) (w i) (b i))
         <$> seq 0 teacher_num_layers |}.

Definition forward (self : t) (teacher_states : list Tensor) : result (list Tensor) :=
  result_fold (seq 0 (length teacher_states)) [] (λ outputs i,
    layer ← list_getitem "ModuleList" (what_network_linear self) i;
    state ← list_getitem "teacher_states" teacher_states i;
    out ← Torch.linear layer state;
    out ← Torch.reshape2 out (student_num_layers self) (hidden_size self);
    out ← Torch.softmax_dim1 out;
    slices ← Torch.iterate out;
    mret (outputs ++ slices)).

End WhatNetwork.

Module WhereNetwork.

Record t := mk {
  hidden_size : nat;
  teacher_num_layers : nat;
  student_num_layers : nat;
  where_network_linear : list Torch.Linear;
}.

(** [__init__]: one [nn.Linear(hidden_size, student_num_layers)] per
    teacher layer. *)
Definition init (hidden_size teacher_num_layers student_num_layers : nat)
    (w : nat → nat → nat → R) (b : nat → nat → R) : t :=
  {| hidden_size := hidden_size;
     teacher_num_layers := teacher_num_layers;
     student_num_layers := student_num_layers;
     where_network_linear :=
       (λ i, Torch.mkLinear hidden_size student_num_layers (w i) (b i))
         <$> seq 0 teacher_num_layers |}.

Definition forward (self : t) (teacher_states : list Tensor) : result (list Tensor) :=
  result_fold (seq 0 (teacher_num_layers self)) [] (λ outputs i,
    layer ← list_getitem "ModuleList" (where_network_linear self) i;
    state ← list_getitem "teacher_states" teacher_states i;
    out ← Torch.linear layer state;
    let out := Torch.squeeze (Torch.relu out) in
    slices ← Torch.iterate out;
    mret (outputs ++ slices)).

End WhereNetwork.

Module MetaWhatAndWhere.

Record t := mk {
  what_network : WhatNetwork.t;
  where_network : WhereNetwork.t;
}.

(** [__init__] (lines 304-307) stores the two networks and nothing else. *)
Definition init (what_network : WhatNetwork.t) (where_network : WhereNetwork.t) : t :=
  {| what_network := what_network; where_network := where_network |}.

(** What [self.<name>] finds on an instance, for a name that the class
    [nn.Module] does not define itself: the submodules registered by
    [__init__]; for any other name [nn.Module.__getattr__] raises. *)
Inductive Member :=
| MemberWhat (net : WhatNetwork.t)
| MemberWhere (net : WhereNetwork.t).

Definition getattr (self : t) (name : string) : result Member :=
  if decide (name = "what_network") then Ok (MemberWhat (what_network self))
  else if decide (name = "where_network") then Ok (MemberWhere (where_network self))
  else Raise (AttributeError "MetaWhatAndWhere" name).

(** Calling a member with four positional arguments: both networks take
    one. *)
Definition call4 (f : Member) (a b c d : list Tensor) : result Tensor :=
  Raise (TypeError "forward() takes 2 positional arguments but 5 were given").

(** Lines 322-324, the contribution of the pair (teacher layer [m],
    student layer [n]). *)
Definition pair_diff (weights loss_weights teacher_states student_states : list Tensor)
    (m n : nat) : result Tensor :=
  teacher ← list_getitem "teacher_states" teacher_states m;
  student ← list_getitem "student_states" student_states n;
  diff ← Torch.pointwise Rminus teacher student;
  let diff := Torch.pow2 diff in
  diff ← Torch.mean 3 diff;
  diff ← Torch.mean 2 diff;
  weights_m ← list_getitem "weights" weights m;
  weight ← Torch.getitem weights_m n;
  diff ← Torch.pointwise Rmult diff weight;
  diff ← Torch.sum 1 diff;
  loss_weights_m ← list_getitem "loss_weights" loss_weights m;
  loss_weight ← Torch.getitem loss_weights_m n;
  diff ← Torch.pointwise Rmult diff loss_weight;
  Torch.mean 0 diff.

(** Lines 318-326.  The local [diff] is unbound until the inner loop has
    assigned it; [matching_loss += diff] (line 325) is a statement of the
    outer loop, after the inner one.  In the first pass [matching_loss] is
    the Python float 0.0 and [+=] rebinds the name to the new tensor
    [0.0 + diff]; from the second pass on it is a tensor that is added to
    in place. *)
Definition matching_loop (weights loss_weights teacher_states student_states : list Tensor)
    : result Tensor :=
  final ← result_fold (seq 0 (length teacher_states)) (Torch.scalar 0, None)
    (λ '(matching_loss, diff) m,
      diff ← result_fold (seq 0 (length student_states)) diff (λ _ n,
        d ← pair_diff weights loss_weights teacher_states student_states m n;
        mret (Some d));
      match diff with
      | None => Raise (UnboundLocalError "diff")
      | Some d =>
          matching_loss ← (if decide (m = 0%nat)
                           then Torch.pointwise Rplus matching_loss d
                           else Torch.iadd matching_loss d);
          mret (matching_loss, Some d)
      end);
  mret (fst final).

Definition forward (self : t) (teacher_states student_states : list Tensor)
    : result Tensor :=
  weights ← WhatNetwork.forward (what_network self) teacher_states;
  loss_weights ← WhereNetwork.forward (where_network self) teacher_states;
  what_where_net ← getattr self "what_where_net";
  matching_loss ← call4 what_where_net teacher_states student_states weights loss_weights;
  matching_loop weights loss_weights teacher_states student_states.

End MetaWhatAndWhere.

(** ** Data passed between the runner and its collaborators *)

Record Task := mkTask { name : string }.

Record Batch := mkBatch {
  examples : list nat;
  on_device : string;
}.

(** [batch.to(device)] and [len(batch)] *)
Definition batch_to (batch : Batch) (device : string) : Batch :=
  {| examples := examples batch; on_device := device |}.
Definition batch_len (batch : Batch) : Z := Z.of_nat (length (examples batch)).

Definition BatchMetadata := nat.
Definition Label := nat.
Definition Metrics := R.
Definition Preds := list nat.

(** A cache of examples or of labels, read whole by [get_all]. *)
Definition Cache := list nat.

(** The bundle [wrap_jiant_forward] returns. *)
Record ModelOutput := mkModelOutput {
  loss : R;
  logits : Tensor;
  other : list (list Tensor);
}.

Record RunnerParameters := mkRunnerParameters {
  local_rank : Z;
  n_gpu : Z;
  fp16 : bool;
  max_grad_norm : option R;
}.

Record TaskSpecificConfig := mkTaskSpecificConfig {
  train_batch_size : Z;
  eval_batch_size : Z;
  eval_subset_num : Z;
  gradient_accumulation_steps : Z;
}.

Record TaskRunConfig := mkTaskRunConfig {
  train_task_list : list string;
  val_task_list : list string;
  test_task_list : list string;
}.

Record GlobalTrainConfig := mkGlobalTrainConfig { max_steps : Z }.

Record JiantTaskContainer := mkJiantTaskContainer {
  task_dict : gmap string Task;
  task_cache_dict : gmap string (gmap string Cache);
  task_specific_configs : gmap string TaskSpecificConfig;
  task_run_config : TaskRunConfig;
  global_train_config : GlobalTrainConfig;
}.

(** The dictionary written by [log_writer.write_entry("loss_train", ...)]. *)
Record LossTrainEntry := mkLossTrainEntry {
  entry_task : string;
  entry_task_step : Z;
  entry_global_step : Z;
  entry_loss_val : R;
}.

(** One call of [eval_accumulator.update]. *)
Record AccumulatorUpdate := mkAccumulatorUpdate {
  batch_logits : Tensor;
  batch_loss : R;
  update_batch : Batch;
  update_batch_metadata : BatchMetadata;
}.

(** The dictionary the standalone [run_val] and [run_test] return; a key
    that is not set is [None]. *)
Record EvalOutput := mkEvalOutput {
  out_accumulator : list AccumulatorUpdate;
  out_loss : option R;
  out_metrics : option Metrics;
  out_preds : option Preds;
}.

(** A parameter of the teacher model. *)
Record Param := mkParam {
  value : R;
  grad : option R;
  requires_grad : bool;
}.

Inductive ModelRef := Student | Teacher.

Inductive BackwardOf := TaskLoss | TotalInnerLoss | OuterLoss.

(** ** Effects on collaborators, in the order the runner causes them *)

Inductive Event :=
| EvTrain (model : ModelRef)                       (* model.train() *)
| EvEval (model : ModelRef)                        (* model.eval() *)
| EvSamplerPop                                     (* task_sampler.pop() *)
| EvCursorPop (cursor : string)                    (* InfiniteYield.pop() *)
| EvForward (model : ModelRef) (batch : Batch) (compute_loss no_grad : bool)
| EvBackward (which : BackwardOf) (loss : R)        (* loss.backward() *)
| EvClipGradNorm
| EvOptimizerSchedulerStep                         (* optimizer_scheduler.step() *)
| EvOptimizerStep                                  (* optimizer.step(None) *)
| EvOptimizerZeroGrad                              (* optimizer.zero_grad() *)
| EvMetaOptimizerInit
| EvMetaOptimizerZeroGrad
| EvMetaBackward                                   (* optimizer.meta_backward() *)
| EvMetaOptimizerStep
| EvWriteEntry (key : string) (entry : LossTrainEntry)
| EvGetEvalDataloader (task_name phase : string)   (* get_eval_dataloader_from_cache *)
| EvCacheGetAll (task_name : string)               (* val_labels_cache.get_all() *)
| EvGetEvaluationScheme (task : Task)
| EvGetAccumulator
| EvAccumulatorUpdate
| EvComputeMetrics
| EvGetPreds.

(** What the collaborators answer.  Their state is theirs (the student's
    parameters move with every optimizer step, a cursor advances with
    every pop), so an answer may depend on everything done so far: each
    one is a function of the trace at the time of the call. *)
Record Collaborators := mkCollaborators {
  task_sampler_pop : list Event → string * Task;
  cursor_pop : list Event → string → Batch * BatchMetadata;
  forward_output : list Event → ModelRef → Batch → Task → bool → ModelOutput;
  meta_optimizer_update : list Event → MetaWhatAndWhere.t → MetaWhatAndWhere.t;
  eval_dataloader : Cache → Task → Z → option Z → list (Batch * BatchMetadata);
  metrics_from_accumulator : Task → list AccumulatorUpdate → list Label → Metrics;
  preds_from_accumulator : Task → list AccumulatorUpdate → Preds;
  PHASE_TEST : string;                             (* jiant.shared.constants.PHASE.TEST *)
}.

(** ** The objects the runner's own code mutates *)

Record World := mkWorld {
  trace : list Event;
  train_state : TrainState;
  teacher_parameters : list Param;
  what_where_net : MetaWhatAndWhere.t;
}.

Definition with_trace (f : list Event → list Event) (w : World) : World :=
  {| trace := f (trace w); train_state := train_state w;
     teacher_parameters := teacher_parameters w; what_where_net := what_where_net w |}.

Definition with_train_state (st : TrainState) (w : World) : World :=
  {| trace := trace w; train_state := st;
     teacher_parameters := teacher_parameters w; what_where_net := what_where_net w |}.

Definition with_teacher_parameters (ps : list Param) (w : World) : World :=
  {| trace := trace w; train_state := train_state w;
     teacher_parameters := ps; what_where_net := what_where_net w |}.

Definition with_what_where_net (net : MetaWhatAndWhere.t) (w : World) : World :=
  {| trace := trace w; train_state := train_state w;
     teacher_parameters := teacher_parameters w; what_where_net := net |}.

Definition event (e : Event) : M World unit :=
  modify (with_trace (λ t, t ++ [e])).

(** A call that is answered from the trace so far and then recorded. *)
Definition ask {A} (answer : list Event → A) (e : Event) : M World A :=
  w ← get;
  event e;;
  mret (answer (trace w)).

(** A method of the [TrainState] object the runner was handed. *)
Definition on_train_state {A} (c : M TrainState A) : M World A :=
  λ w, let '(r, st) := c (train_state w) in (r, with_train_state st w).

(** [x / n] for a Python float or int [x] and an int [n]. *)
Definition py_div (x : R) (n : Z) : result R :=
  if decide (n = 0) then Raise ZeroDivisionError else Ok (x / IZR n)%R.

(** [l[:k]] *)
Definition slice_to {A} (l : list A) (k : Z) : list A :=
  if decide (0 ≤ k) then take (Z.to_nat k) l
  else take (length l - Z.to_nat (- k)) l.

(** [wrap_jiant_forward(jiant_model=..., batch=..., task=..., compute_loss=...)],
    inside [with torch.no_grad()] when [no_grad]. *)
Definition wrap_jiant_forward (C : Collaborators) (model : ModelRef) (batch : Batch)
    (task : Task) (compute_loss no_grad : bool) : M World ModelOutput :=
  ask (λ t, forward_output C t model batch task compute_loss)
      (EvForward model batch compute_loss no_grad).

(** Modelled from the spec: [complex_backpropagate] of [jiant.shared.runner],
    which this file imports.  It scales the loss by the number of
    accumulation steps, backpropagates, clips the gradient norm when a
    maximum is configured, never steps the optimizer, and returns the
    scaled loss.  (Averaging over replicas leaves a scalar loss as it is.) *)
Definition complex_backpropagate (rparams : RunnerParameters) (loss : R)
    (gradient_accumulation_steps : Z) : M World R :=
  let loss := (loss / IZR gradient_accumulation_steps)%R in
  event (EvBackward TaskLoss loss);;
  match max_grad_norm rparams with
  | Some _ => event EvClipGradNorm
  | None => mret tt
  end;;
  mret loss.

(** ** The standalone evaluation functions (lines 419-516) *)

Definition run_val (C : Collaborators)
    (val_dataloader : list (Batch * BatchMetadata)) (val_labels : list Label)
    (task : Task) (device : string) (local_rank : Z) (return_preds : bool)
    : M World (option EvalOutput) :=
  if negb (bool_decide (local_rank = -1)) then mret None
  else
    event (EvEval Student);;
    event (EvGetEvaluationScheme task);;
    event EvGetAccumulator;;
    '(total_eval_loss, nb_eval_steps, nb_eval_examples, eval_accumulator) ←
      for_fold val_dataloader (0%R, 0, 0, [])
        (λ '(total_eval_loss, nb_eval_steps, nb_eval_examples, eval_accumulator)
           '(batch, batch_metadata),
          let batch := batch_to batch device in
          model_output ← wrap_jiant_forward C Student batch task true true;
          let batch_logits := logits model_output in
          let batch_loss := loss model_output in
          let total_eval_loss := (total_eval_loss + batch_loss)%R in
          event EvAccumulatorUpdate;;
          let eval_accumulator :=
            eval_accumulator ++ [mkAccumulatorUpdate batch_logits batch_loss batch batch_metadata] in
          mret (total_eval_loss, nb_eval_steps + 1, nb_eval_examples + batch_len batch,
                eval_accumulator));
    eval_loss ← lift (py_div total_eval_loss nb_eval_steps);
    event EvComputeMetrics;;
    let metrics := metrics_from_accumulator C task eval_accumulator val_labels in
    preds ← (if return_preds
             then event EvGetPreds;;
                  mret (Some (preds_from_accumulator C task eval_accumulator))
             else mret None);
    mret (Some {| out_accumulator := eval_accumulator; out_loss := Some eval_loss;
                  out_metrics := Some metrics; out_preds := preds |}).

Definition run_test (C : Collaborators)
    (test_dataloader : list (Batch * BatchMetadata))
    (task : Task) (device : string) (local_rank : Z) (return_preds : bool)
    : M World (option EvalOutput) :=
  if negb (bool_decide (local_rank = -1)) then mret None
  else
    event (EvEval Student);;
    event (EvGetEvaluationScheme task);;
    event EvGetAccumulator;;
    eval_accumulator ←
      for_fold test_dataloader []
        (λ eval_accumulator '(batch, batch_metadata),
          let batch := batch_to batch device in
          model_output ← wrap_jiant_forward C Student batch task false true;
          let batch_logits := logits model_output in
          event EvAccumulatorUpdate;;
          mret (eval_accumulator ++ [mkAccumulatorUpdate batch_logits 0 batch batch_metadata]));
    preds ← (if return_preds
             then event EvGetPreds;;
                  mret (Some (preds_from_accumulator C task eval_accumulator))
             else mret None);
    mret (Some {| out_accumulator := eval_accumulator; out_loss := None;
                  out_metrics := None; out_preds := preds |}).

(** ** JiantRunner (lines 45-240) *)

Module JiantRunner.

(** The fields of [self] that are plain data; [jiant_model],
    [optimizer_scheduler] and [log_writer] are collaborators. *)
Record t := mk {
  jiant_task_container : JiantTaskContainer;
  device : string;
  rparams : RunnerParameters;
}.

Definition complex_backpropagate (self : t) (loss : R) (gradient_accumulation_steps : Z)
    : M World R :=
  complex_backpropagate (rparams self) loss gradient_accumulation_steps.

(** Lines 105-113, which lines 375-385 repeat: one micro-batch of the
    accumulation loop, up to the loss that [complex_backpropagate]
    returns.  [train_dataloader_dict] maps a task name to its cursor, an
    [InfiniteYield] known here by an identifier. *)
Definition micro_batch (C : Collaborators) (self : t)
    (train_dataloader_dict : gmap string string) (task_name : string) (task : Task)
    (gradient_accumulation_steps : Z) : M World (Batch * R) :=
  cursor ← lift (getitem train_dataloader_dict task_name);
  '(batch, batch_metadata) ← ask (λ t, cursor_pop C t cursor) (EvCursorPop cursor);
  let batch := batch_to batch (device self) in
  model_output ← wrap_jiant_forward C Student batch task true false;
  loss ← complex_backpropagate self (loss model_output) gradient_accumulation_steps;
  mret (batch, loss).

(** Lines 119-128, which lines 393-402 repeat: the counters advance and
    the log record is written from the advanced [train_state]. *)
Definition step_and_log (task_name : string) (task_specific_config : TaskSpecificConfig)
    (loss_val : R) : M World unit :=
  on_train_state (TrainState.step task_name);;
  w ← get;
  task_step ← lift (getitem (task_steps (train_state w)) task_name);
  mean_loss ← lift (py_div loss_val (gradient_accumulation_steps task_specific_config));
  event (EvWriteEntry "loss_train"
           {| entry_task := task_name;
              entry_task_step := task_step;
              entry_global_step := global_steps (train_state w);
              entry_loss_val := mean_loss |}).

Definition run_train_step (C : Collaborators) (self : t)
    (train_dataloader_dict : gmap string string) : M World unit :=
  event (EvTrain Student);;
  '(task_name, task) ← ask (task_sampler_pop C) EvSamplerPop;
  task_specific_config ←
    lift (getitem (task_specific_configs (jiant_task_container self)) task_name);
  loss_val ←
    for_fold (range (gradient_accumulation_steps task_specific_config)) 0%R
      (λ loss_val i,
        '(batch, loss) ← micro_batch C self train_dataloader_dict task_name task
                           (gradient_accumulation_steps task_specific_config);
        mret (loss_val + loss)%R);
  event EvOptimizerSchedulerStep;;
  event EvOptimizerZeroGrad;;
  step_and_log task_name task_specific_config loss_val.

Definition _get_eval_dataloader_dict (C : Collaborators) (self : t)
    (phase : string) (task_name_list : list string) (use_subset : bool)
    : M World (gmap string (list (Batch * BatchMetadata))) :=
  for_fold task_name_list ∅ (λ val_dataloader_dict task_name,
    task ← lift (getitem (task_dict (jiant_task_container self)) task_name);
    caches ← lift (getitem (task_cache_dict (jiant_task_container self)) task_name);
    eval_cache ← lift (getitem caches phase);
    task_specific_config ←
      lift (getitem (task_specific_configs (jiant_task_container self)) task_name);
    event (EvGetEvalDataloader task_name phase);;
    mret (<[task_name :=
             eval_dataloader C eval_cache task (eval_batch_size task_specific_config)
               (if use_subset then Some (eval_subset_num task_specific_config) else None)]>
          val_dataloader_dict)).

Definition get_val_dataloader_dict (C : Collaborators) (self : t)
    (task_name_list : list string) (use_subset : bool) :=
  _get_eval_dataloader_dict C self "val" task_name_list use_subset.

Definition get_val_labels_dict (self : t) (task_name_list : list string)
    (use_subset : bool) : M World (gmap string (list Label)) :=
  for_fold task_name_list ∅ (λ val_labels_dict task_name,
    task_specific_config ←
      lift (getitem (task_specific_configs (jiant_task_container self)) task_name);
    caches ← lift (getitem (task_cache_dict (jiant_task_container self)) task_name);
    val_labels_cache ← lift (getitem caches "val_labels");
    event (EvCacheGetAll task_name);;
    let val_labels := val_labels_cache in
    let val_labels :=
      if use_subset then slice_to val_labels (eval_subset_num task_specific_config)
      else val_labels in
    mret (<[task_name := val_labels]> val_labels_dict)).

Definition get_test_dataloader_dict (C : Collaborators) (self : t) :=
  _get_eval_dataloader_dict C self (PHASE_TEST C)
    (test_task_list (task_run_config (jiant_task_container self))) false.

Definition run_val (C : Collaborators) (self : t) (task_name_list : list string)
    (use_subset return_preds : bool) : M World (gmap string (option EvalOutput)) :=
  val_dataloader_dict ← get_val_dataloader_dict C self task_name_list use_subset;
  val_labels_dict ← get_val_labels_dict self task_name_list use_subset;
  for_fold task_name_list ∅ (λ evaluate_dict task_name,
    task ← lift (getitem (task_dict (jiant_task_container self)) task_name);
    val_dataloader ← lift (getitem val_dataloader_dict task_name);
    val_labels ← lift (getitem val_labels_dict task_name);
    output ← run_val C val_dataloader val_labels task (device self)
               (local_rank (rparams self)) return_preds;
    mret (<[task_name := output]> evaluate_dict)).

Definition run_test (C : Collaborators) (self : t) (task_name_list : list string)
    : M World (gmap string (option EvalOutput)) :=
  test_dataloader_dict ← get_test_dataloader_dict C self;
  for_fold task_name_list ∅ (λ evaluate_dict task_name,
    task ← lift (getitem (task_dict (jiant_task_container self)) task_name);
    test_dataloader ← lift (getitem test_dataloader_dict task_name);
    output ← run_test C test_dataloader task (device self)
               (local_rank (rparams self)) true;
    mret (<[task_name := output]> evaluate_dict)).

(** [get_train_dataloader_dict] (lines 167-181): for every task of the
    configured [train_task_list], the task, its "train" cache and its
    configuration are looked up and an [InfiniteYield] over the task's
    train dataloader is stored under the task's name.  Building the loader
    and its cursor reads nothing from the cache (a cursor is first read by
    [pop]), so it is no event of the trace; the cursor of a task is known
    by the task's name followed by "/train". *)
Definition train_cursor (task_name : string) : string := task_name +:+ "/train".

Definition get_train_dataloader_dict (self : t) : M World (gmap string string) :=
  for_fold (train_task_list (task_run_config (jiant_task_container self))) ∅
    (λ train_dataloader_dict task_name,
      task ← lift (getitem (task_dict (jiant_task_container self)) task_name);
      caches ← lift (getitem (task_cache_dict (jiant_task_container self)) task_name);
      train_cache ← lift (getitem caches "train");
      task_specific_config ←
        lift (getitem (task_specific_configs (jiant_task_container self)) task_name);
      mret (<[task_name := train_cursor task_name]> train_dataloader_dict)).

(** [run_train_context] (lines 68-81) is a generator: nothing of its body
    runs before it is advanced.  [run_train_context C self items] is what a
    consumer causes by asking it for [items] items: on the first request
    the dataloaders are built and a new [TrainState] is made, and every
    request runs one training step and yields the (one, mutated)
    [TrainState]; a request after [max_steps] steps finds the generator
    exhausted and runs nothing. *)
Definition run_train_context (C : Collaborators) (self : t) (items : nat) : M World unit :=
  match items with
  | O => mret tt
  | S _ =>
      train_dataloader_dict ← get_train_dataloader_dict self;
      modify (with_train_state
                (TrainState.from_task_name_list
                   (train_task_list (task_run_config (jiant_task_container self)))));;
      for_each (take items (range (max_steps (global_train_config (jiant_task_container self)))))
        (λ _, run_train_step C self train_dataloader_dict)
  end.

(** [run_train] (lines 64-66) drains the generator: the [for] loop asks
    for an item until the generator is exhausted, that is once more than
    there are steps. *)
Definition run_train (C : Collaborators) (self : t) : M World unit :=
  run_train_context C self
    (S (Z.to_nat (max_steps (global_train_config (jiant_task_container self))))).

(** [range(start, stop)] *)
Definition range_from (start stop : Z) : list Z :=
  (λ i, start + Z.of_nat i) <$> seq 0 (Z.to_nat (stop - start)).

(** [resume_train_context] (lines 83-96), advanced [items] times: the
    [TrainState] it is handed is kept, and the steps run from its
    [global_steps], read on the first request, up to [max_steps]. *)
Definition resume_train_context (C : Collaborators) (self : t) (items : nat)
    : M World unit :=
  match items with
  | O => mret tt
  | S _ =>
      train_dataloader_dict ← get_train_dataloader_dict self;
      w ← get;
      let start_position := global_steps (train_state w) in
      for_each (take items
                  (range_from start_position
                     (max_steps (global_train_config (jiant_task_container self)))))
        (λ _, run_train_step C self train_dataloader_dict)
  end.

End JiantRunner.

(** ** L2TWWRunner (lines 243-402) *)

Module L2TWWRunner.

(** [self]: the fields inherited from [JiantRunner]; the teacher model
    and [what_where_net] are objects of the world, the meta-optimizer is
    a collaborator. *)
Record t := mk { base : JiantRunner.t }.

(** [p.requires_grad = False] *)
Definition freeze (p : Param) : Param :=
  {| value := value p; grad := grad p; requires_grad := false |}.

(** [__init__] (lines 244-253).  [what_w], [what_b], [where_w] and
    [where_b] are the initial values of the new layers' parameters.
    [torch.optim.Adam] refuses a negative learning rate and then an empty
    list of parameters, which is what the two networks have when they are
    built for no teacher layer. *)
Definition init (base : JiantRunner.t) (teacher_jiant_model : list Param)
    (hidden_size teacher_num_layers student_num_layers : nat)
    (meta_optim_params : gmap string R)
    (what_w where_w : nat → nat → nat → R) (what_b where_b : nat → nat → R)
    : M World t :=
  modify (with_teacher_parameters teacher_jiant_model);;
  modify (λ w, with_teacher_parameters (freeze <$> teacher_parameters w) w);;
  let what_net :=
    WhatNetwork.init hidden_size teacher_num_layers student_num_layers what_w what_b in
  let where_network :=
    WhereNetwork.init hidden_size teacher_num_layers student_num_layers where_w where_b in
  modify (with_what_where_net (MetaWhatAndWhere.init what_net where_network));;
  lr ← lift (getitem meta_optim_params "lr");
  (if Rle_dec 0 lr then mret tt
   else raise (ValueError "Invalid learning rate"));;
  (if decide (teacher_num_layers = 0%nat)
   then raise (ValueError "optimizer got an empty parameter list")
   else mret tt);;
  event EvMetaOptimizerInit;;
  mret {| base := base |}.

(** Lines 328-333: the loss is computed and the function ends without a
    [return], so the caller receives [None]. *)
Definition outer_objective (C : Collaborators) (self : t) (batch : Batch) (task : Task)
    : M World (option R) :=
  outer_model_output ← wrap_jiant_forward C Student batch task true false;
  let outer_loss := loss outer_model_output in
  mret None.

(** [x.backward()] on what [outer_objective] returned. *)
Definition backward_on (x : option R) : M World unit :=
  match x with
  | None => raise (AttributeError "NoneType" "backward")
  | Some outer_loss => event (EvBackward OuterLoss outer_loss)
  end.

(** Lines 341-356, one inner step on [batch]. *)
Definition inner_step (C : Collaborators) (self : t) (batch : Batch) (task : Task)
    : M World unit :=
  event EvOptimizerZeroGrad;;
  model_output ← wrap_jiant_forward C Student batch task true false;
  teacher_model_output ← wrap_jiant_forward C Teacher batch task true true;
  let beta := (1 / 2)%R in
  teacher_states ← lift (list_getitem "other" (other teacher_model_output) 0);
  student_states ← lift (list_getitem "other" (other model_output) 0);
  w ← get;
  matching_loss ←
    lift (MetaWhatAndWhere.forward (what_where_net w) teacher_states student_states);
  scaled ← lift (Torch.pointwise Rmult matching_loss (Torch.scalar beta));
  total_inner_loss ←
    lift (Torch.pointwise Rplus (Torch.scalar (loss model_output)) scaled);
  event (EvBackward TotalInnerLoss (Torch.entry (data total_inner_loss) 0));;
  event EvOptimizerStep.

(** Lines 358-362, the outer step on [batch]. *)
Definition outer_step (C : Collaborators) (self : t) (batch : Batch) (task : Task)
    : M World unit :=
  event EvMetaOptimizerZeroGrad;;
  event EvOptimizerZeroGrad;;
  outer ← outer_objective C self batch task;
  backward_on outer;;
  event EvMetaBackward;;
  w ← get;
  event EvMetaOptimizerStep;;
  modify (with_what_where_net (meta_optimizer_update C (trace w) (what_where_net w))).

Definition run_inner_loop (C : Collaborators) (self : t) (meta_batches : list Batch)
    (task : Task) (inner_steps : Z) : M World unit :=
  event (EvEval Teacher);;
  for_each meta_batches (λ batch,
    for_each (range inner_steps) (λ inner_idx, inner_step C self batch task);;
    outer_step C self batch task).

(** Lines 367-389: the accumulation loop of the base class, in which
    every batch is also appended to [meta_batches] (line 377), followed
    by the optimizer step and the zeroing. *)
Definition accumulate_and_step (C : Collaborators) (self : t)
    (train_dataloader_dict : gmap string string)
    : M World (string * Task * TaskSpecificConfig * R * list Batch) :=
  event (EvTrain Student);;
  '(task_name, task) ← ask (task_sampler_pop C) EvSamplerPop;
  task_specific_config ←
    lift (getitem (task_specific_configs (JiantRunner.jiant_task_container (base self)))
            task_name);
  '(loss_val, meta_batches) ←
    for_fold (range (gradient_accumulation_steps task_specific_config)) (0%R, [])
      (λ '(loss_val, meta_batches) i,
        '(batch, loss) ← JiantRunner.micro_batch C (base self) train_dataloader_dict
                           task_name task
                           (gradient_accumulation_steps task_specific_config);
        mret ((loss_val + loss)%R, meta_batches ++ [batch]));
  event EvOptimizerSchedulerStep;;
  event EvOptimizerZeroGrad;;
  mret (task_name, task, task_specific_config, loss_val, meta_batches).

Definition run_train_step (C : Collaborators) (self : t)
    (train_dataloader_dict : gmap string string) : M World unit :=
  '(task_name, task, task_specific_config, loss_val, meta_batches) ←
    accumulate_and_step C self train_dataloader_dict;
  run_inner_loop C self meta_batches task 1;;
  JiantRunner.step_and_log task_name task_specific_config loss_val.

End L2TWWRunner.

(** ** Vocabulary of the statements below *)

(** A tensor that holds one feature vector of [hidden] entries: its last
    dimension is [hidden] and every dimension before it has size 1. *)
Definition single_vector (hidden : nat) (t : Tensor) : Prop :=
  ∃ leading, Forall (λ d, d = 1%nat) leading ∧ shape t = leading ++ [hidden].

(** One student-layer slot of the What network's output: a vector over the
    hidden dimension whose entries sum to 1. *)
Definition normalised_slot (hidden : nat) (slot : Tensor) : Prop :=
  shape slot = [hidden] ∧ Torch.rsum (data slot) = 1%R.

(** How many events of a trace satisfy [p]. *)
Definition count_events (p : Event → bool) (t : list Event) : nat :=
  length (filter (λ e, p e = true) t).

Definition is_optimizer_scheduler_step (e : Event) : bool :=
  match e with EvOptimizerSchedulerStep => true | _ => false end.

Definition is_optimizer_step (e : Event) : bool :=
  match e with EvOptimizerSchedulerStep | EvOptimizerStep => true | _ => false end.

Definition is_zero_grad (e : Event) : bool :=
  match e with EvOptimizerZeroGrad => true | _ => false end.

(** The losses on which [complex_backpropagate] ran backward, in order. *)
Definition scaled_losses (t : list Event) : list R :=
  omap (λ e, match e with EvBackward TaskLoss l => Some l | _ => None end) t.

(** A forward pass of the teacher that tracks gradients. *)
Definition tracks_teacher_gradients (e : Event) : bool :=
  match e with EvForward Teacher _ _ false => true | _ => false end.

(** Neither a step of the primary optimizer nor a zeroing of its
    gradients. *)
Definition leaves_optimizer_alone (e : Event) : Prop :=
  is_optimizer_step e = false ∧ is_zero_grad e = false.

(** [w'] is [w] after the events [delta], nothing else having changed. *)
Definition after_events (w : World) (delta : list Event) (w' : World) : Prop :=
  trace w' = trace w ++ delta
  ∧ train_state w' = train_state w
  ∧ teacher_parameters w' = teacher_parameters w
  ∧ what_where_net w' = what_where_net w.

(** [w'] is [w] after events that all satisfy [P], the teacher's
    parameters being what they were. *)
Definition extends (P : Event → Prop) (w w' : World) : Prop :=
  ∃ delta, trace w' = trace w ++ delta
         ∧ Forall P delta
         ∧ teacher_parameters w' = teacher_parameters w.

(** A computation that, from every world and whether it returns or
    raises, only causes events satisfying [P] and leaves the teacher's
    parameters alone. *)
Definition only_emits (P : Event → Prop) {A} (c : M World A) : Prop :=
  ∀ w, extends P w (c w).2.

(** ** A small concrete setting

    One task, "rte", with one accumulation step; collaborators that always
    give the same answers; hidden states that are single feature vectors
    of size 2, for one teacher layer and two student layers. *)

Definition rte : Task := mkTask "rte".

Definition example_batch : Batch := mkBatch [1; 2]%nat "cpu".

Definition example_output : ModelOutput :=
  {| loss := 1%R;
     logits := Torch.scalar 0;
     other := [[mkTensor [1; 1; 1; 2]%nat [0; 0]%R]] |}.

Definition example_collaborators : Collaborators :=
  {| task_sampler_pop := λ _, ("rte", rte);
     cursor_pop := λ _ _, (example_batch, 0%nat);
     forward_output := λ _ _ _ _ _, example_output;
     meta_optimizer_update := λ _ net, net;
     eval_dataloader := λ _ _ _ _, [(example_batch, 0%nat)];
     metrics_from_accumulator := λ _ _ _, 0%R;
     preds_from_accumulator := λ _ _, [];
     PHASE_TEST := "test" |}.

Definition example_container (tests : list string) : JiantTaskContainer :=
  {| task_dict := {[ "rte" := rte ]};
     task_cache_dict :=
       {[ "rte" := {[ "val" := [1; 2]%nat; "val_labels" := [0; 1]%nat;
                      "test" := [3; 4]%nat ]} ]};
     task_specific_configs := {[ "rte" := mkTaskSpecificConfig 8 8 500 1 ]};
     task_run_config := mkTaskRunConfig ["rte"] ["rte"] tests;
     global_train_config := mkGlobalTrainConfig 3 |}.

Definition example_rparams (local_rank : Z) : RunnerParameters :=
  {| local_rank := local_rank; n_gpu := 1; fp16 := false; max_grad_norm := Some 1%R |}.

(** A runner on the primary rank whose configured test tasks are [tests]. *)
Definition example_runner (tests : list string) : JiantRunner.t :=
  {| JiantRunner.jiant_task_container := example_container tests;
     JiantRunner.device := "cuda";
     JiantRunner.rparams := example_rparams (-1) |}.

Definition example_world : World :=
  {| trace := [];
     train_state := TrainState.from_task_name_list ["rte"];
     teacher_parameters := [mkParam 1 None false];
     what_where_net :=
       MetaWhatAndWhere.init
         (WhatNetwork.init 2 1 2 (λ _ _ _, 1%R) (λ _ _, 0%R))
         (WhereNetwork.init 2 1 2 (λ _ _ _, 1%R) (λ _ _, 0%R)) |}.

Definition example_dataloader_dict : gmap string string := {[ "rte" := "rte/train" ]}.

(** ** Vocabulary of the further properties *)

(** A forward pass, and one made for evaluation: of the student, without
    gradient tracking. *)
Definition is_forward_pass (e : Event) : bool :=
  match e with EvForward _ _ _ _ => true | _ => false end.

(** What evaluation may cause: the student put in evaluation mode and run
    forward without gradient tracking, dataloaders built, label caches
    read, and calls on the evaluation scheme and its accumulator. *)
Definition is_evaluation_event (e : Event) : bool :=
  match e with
  | EvEval Student
  | EvForward Student _ _ true
  | EvGetEvalDataloader _ _
  | EvCacheGetAll _
  | EvGetEvaluationScheme _
  | EvGetAccumulator
  | EvAccumulatorUpdate
  | EvComputeMetrics
  | EvGetPreds => true
  | _ => false
  end.

(** A computation that, from every world and whether it returns or
    raises, only causes events satisfying [P] and changes nothing else:
    the training state, the teacher's parameters and the weighting
    networks are what they were. *)
Definition only_causes (P : Event → Prop) {A} (c : M World A) : Prop :=
  ∀ w, ∃ delta, after_events w delta (c w).2 ∧ Forall P delta.

(** What one micro-batch of the accumulation loop causes. *)
Definition is_micro_batch_event (e : Event) : bool :=
  match e with
  | EvCursorPop _
  | EvForward Student _ true false
  | EvBackward TaskLoss _
  | EvClipGradNorm => true
  | _ => false
  end.

Definition is_log_record (e : Event) : bool :=
  match e with EvWriteEntry _ _ => true | _ => false end.

(** What the training steps of a run need of the container and the
    sampler: the sampler only names tasks of [train_task_list], and every
    task of that list has a task, a "train" cache and a configuration with
    at least one accumulation step. *)
Definition trainable (C : Collaborators) (container : JiantTaskContainer) : Prop :=
  (∀ t, (task_sampler_pop C t).1 ∈ train_task_list (task_run_config container))
  ∧ Forall (λ n,
      is_Some (task_dict container !! n)
      ∧ (∃ caches, task_cache_dict container !! n = Some caches
                 ∧ is_Some (caches !! "train"))
      ∧ (∃ config, task_specific_configs container !! n = Some config
                 ∧ 1 ≤ gradient_accumulation_steps config))
    (train_task_list (task_run_config container)).

(** The records written to the log, in order. *)
Definition logged_entries (t : list Event) : list LossTrainEntry :=
  omap (λ e, match e with EvWriteEntry _ entry => Some entry | _ => None end) t.

(** The dataloader [_get_eval_dataloader_dict] builds for a task, when the
    container has the task, its cache for the phase and its configuration. *)
Definition eval_dataloader_for (C : Collaborators) (container : JiantTaskContainer)
    (phase : string) (use_subset : bool) (task_name : string)
    : option (list (Batch * BatchMetadata)) :=
  task ← task_dict container !! task_name;
  caches ← task_cache_dict container !! task_name;
  eval_cache ← caches !! phase;
  config ← task_specific_configs container !! task_name;
  Some (eval_dataloader C eval_cache task (eval_batch_size config)
          (if use_subset then Some (eval_subset_num config) else None)).

(** The labels [get_val_labels_dict] reads for a task, when the container
    has its configuration and its cache of validation labels. *)
Definition val_labels_for (container : JiantTaskContainer) (use_subset : bool)
    (task_name : string) : option (list Label) :=
  config ← task_specific_configs container !! task_name;
  caches ← task_cache_dict container !! task_name;
  val_labels ← caches !! "val_labels";
  Some (if use_subset then slice_to val_labels (eval_subset_num config) else val_labels).

(** A container that can be trained on: "rte" and "mnli", with two and one
    accumulation steps, for five steps. *)
Definition training_container : JiantTaskContainer :=
  {| task_dict := {[ "rte" := rte; "mnli" := mkTask "mnli" ]};
     task_cache_dict :=
       {[ "rte" := {[ "train" := [1; 2; 3]%nat ]};
          "mnli" := {[ "train" := [4; 5]%nat ]} ]};
     task_specific_configs :=
       {[ "rte" := mkTaskSpecificConfig 8 8 500 2;
          "mnli" := mkTaskSpecificConfig 4 4 500 1 ]};
     task_run_config := mkTaskRunConfig ["rte"; "mnli"] [] [];
     global_train_config := mkGlobalTrainConfig 5 |}.

Definition training_runner : JiantRunner.t :=
  {| JiantRunner.jiant_task_container := training_container;
     JiantRunner.device := "cuda";
     JiantRunner.rparams := example_rparams (-1) |}.

(** The [TrainState] of the world has a counter for every name of the
    list. *)
Definition has_counters (task_names : list string) (w : World) : Prop :=
  ∀ n, n ∈ task_names → is_Some (task_steps (train_state w) !! n).

(** An update of the weighting networks: the backward pass of the
    meta-objective or a step of the meta-optimizer. *)
Definition is_meta_update (e : Event) : bool :=
  match e with EvMetaBackward | EvMetaOptimizerStep => true | _ => false end.

(** A runner whose one task is configured with no accumulation step. *)
Definition unaccumulating_runner : JiantRunner.t :=
  {| JiantRunner.jiant_task_container :=
       {| task_dict := {[ "rte" := rte ]};
          task_cache_dict := {[ "rte" := {[ "train" := [1; 2; 3]%nat ]} ]};
          task_specific_configs := {[ "rte" := mkTaskSpecificConfig 8 8 500 0 ]};
          task_run_config := mkTaskRunConfig ["rte"] [] [];
          global_train_config := mkGlobalTrainConfig 5 |};
     JiantRunner.device := "cuda";
     JiantRunner.rparams := example_rparams (-1) |}.

(** Collaborators whose sampler answers by what has happened so far: "rte"
    after an even number of events, "mnli" after an odd number. *)
Definition alternating_collaborators : Collaborators :=
  {| task_sampler_pop :=
       λ t, if Nat.even (length t) then ("rte", rte) else ("mnli", mkTask "mnli");
     cursor_pop := λ _ _, (example_batch, 0%nat);
     forward_output := λ _ _ _ _ _, example_output;
     meta_optimizer_update := λ _ net, net;
     eval_dataloader := λ _ _ _ _, [(example_batch, 0%nat)];
     metrics_from_accumulator := λ _ _ _, 0%R;
     preds_from_accumulator := λ _ _, [];
     PHASE_TEST := "test" |}.

(* ================================================================== *)
(* THEOREMS                                                            *)
(* ================================================================== *)

Set Warnings "-clear-no-such-hyp".

(** ** TrainState *)

Section TrainStateFacts.

Implicit Types (st : TrainState) (names calls : list string).

Lemma step_known st task_name v :
  task_steps st !! task_name = Some v →
  TrainState.step task_name st =
    (Ok tt, {| global_steps := global_steps st + 1;
               task_steps := <[task_name := v + 1]> (task_steps st) |}).
Proof.
  intros Hv. unfold TrainState.step, TrainState.incr_task_steps, mbind, M_bind, bind.
  by rewrite Hv.
Qed.

Lemma step_unknown st task_name :
  task_steps st !! task_name = None →
  TrainState.step task_name st = (Raise (KeyError task_name), st).
Proof.
  intros Hv. unfold TrainState.step, TrainState.incr_task_steps, mbind, M_bind, bind.
  by rewrite Hv.
Qed.

Lemma dom_zero_counters names :
  dom (TrainState.zero_counters names) = list_to_set names.
Proof.
  unfold TrainState.zero_counters.
  assert (∀ d : gmap string Z,
    dom (foldl (λ d task_name, <[task_name := 0]> d) d names)
    = list_to_set names ∪ dom d) as Hgen.
  { induction names as [|n names IH]; intros d; simpl.
    - set_solver.
    - rewrite IH, dom_insert_L. set_solver. }
  rewrite Hgen, dom_empty_L. set_solver.
Qed.

Lemma zero_counters_values names task_name v :
  TrainState.zero_counters names !! task_name = Some v → v = 0.
Proof.
  unfold TrainState.zero_counters.
  assert (∀ d : gmap string Z,
    (∀ u, d !! task_name = Some u → u = 0) →
    foldl (λ d task_name, <[task_name := 0]> d) d names !! task_name = Some v →
    v = 0) as Hgen.
  { induction names as [|n names IH]; intros d Hd; simpl.
    - apply Hd.
    - apply IH. intros u. rewrite lookup_insert. case_decide; [congruence | apply Hd]. }
  apply Hgen. intros u. by rewrite lookup_empty.
Qed.

Lemma sum_zero_counters names :
  TrainState.sum_task_steps (TrainState.from_task_name_list names) = 0.
Proof.
  unfold TrainState.sum_task_steps, TrainState.from_task_name_list; simpl.
  pose proof (zero_counters_values names) as Hz.
  revert Hz. generalize (TrainState.zero_counters names). intros m.
  induction m as [|k v m Hk Hfold IH] using map_first_key_ind; intros Hz.
  - by rewrite map_fold_empty.
  - rewrite map_fold_insert_first_key by done.
    rewrite IH.
    + rewrite (Hz k v); [done | by rewrite lookup_insert_eq].
    + intros k' u Hu. apply (Hz k'). rewrite lookup_insert_ne; [done|].
      intros ->. congruence.
Qed.

Lemma sum_task_steps_incr st task_name v :
  task_steps st !! task_name = Some v →
  TrainState.sum_task_steps
    {| global_steps := global_steps st + 1;
       task_steps := <[task_name := v + 1]> (task_steps st) |}
  = TrainState.sum_task_steps st + 1.
Proof.
  intros Hv. unfold TrainState.sum_task_steps; simpl.
  rewrite (map_fold_delete_L _ _ task_name v (task_steps st)); [| intros; lia | done].
  rewrite <- insert_delete_eq.
  rewrite map_fold_insert_L; [lia | intros; lia | apply lookup_delete_eq].
Qed.

(** What a run of [steps] over known names leaves behind. *)
Lemma steps_known calls : ∀ st,
  Forall (λ c, c ∈ dom (task_steps st)) calls →
  ∃ st', TrainState.steps calls st = (Ok tt, st')
       ∧ dom (task_steps st') = dom (task_steps st)
       ∧ global_steps st' - TrainState.sum_task_steps st'
         = global_steps st - TrainState.sum_task_steps st.
Proof.
  induction calls as [|c calls IH]; intros st Hall.
  - exists st. done.
  - apply Forall_cons in Hall as [Hc Hall].
    apply elem_of_dom in Hc as [v Hv].
    set (st1 := {| global_steps := global_steps st + 1;
                   task_steps := <[c := v + 1]> (task_steps st) |}).
    assert (dom (task_steps st1) = dom (task_steps st)) as Hdom.
    { simpl. rewrite dom_insert_L. apply elem_of_dom_2 in Hv. set_solver. }
    destruct (IH st1) as (st' & Hrun & Hdom' & Hinv).
    { by rewrite Hdom. }
    exists st'. split; [| split].
    + unfold TrainState.steps in *. simpl.
      unfold mbind at 1, M_bind at 1, bind at 1.
      by rewrite (step_known st c v Hv).
    + by rewrite Hdom'.
    + rewrite Hinv. unfold st1 at 2. rewrite (sum_task_steps_incr st c v Hv).
      simpl. lia.
Qed.

End TrainStateFacts.

(** C4. Starting from [from_task_name_list names], every sequence of
    [step] calls on names of the list succeeds, and after each of its
    prefixes (each point at which the state can be observed)
    [global_steps] is the sum of the values of [task_steps]. *)
Theorem global_steps_is_sum_of_task_steps (names calls observed : list string) :
  Forall (λ c, c ∈ names) calls →
  observed `prefix_of` calls →
  ∃ st, TrainState.steps observed (TrainState.from_task_name_list names) = (Ok tt, st)
      ∧ global_steps st = TrainState.sum_task_steps st.
Proof.
  intros Hall [rest ->].
  apply Forall_app in Hall as [Hobs _].
  destruct (steps_known observed (TrainState.from_task_name_list names))
    as (st & Hrun & _ & Hinv).
  { eapply Forall_impl; [exact Hobs|]. intros c Hc. simpl.
    rewrite dom_zero_counters. by apply elem_of_list_to_set. }
  exists st. split; [done|].
  rewrite sum_zero_counters in Hinv. simpl in Hinv. lia.
Qed.

Lemma global_steps_is_sum_of_task_steps_witness :
  ∃ st, TrainState.steps ["mnli"; "rte"]
          (TrainState.from_task_name_list ["mnli"; "rte"; "sst"]) = (Ok tt, st)
      ∧ global_steps st = TrainState.sum_task_steps st.
Proof.
  apply (global_steps_is_sum_of_task_steps
           ["mnli"; "rte"; "sst"] ["mnli"; "rte"; "mnli"] ["mnli"; "rte"]).
  - repeat constructor; set_solver.
  - by exists ["mnli"].
Defined.

Lemma steps_dom (calls : list string) : ∀ st st',
  TrainState.steps calls st = (Ok tt, st') →
  dom (task_steps st') = dom (task_steps st).
Proof.
  induction calls as [|c calls IH]; intros st st' Hrun.
  - unfold TrainState.steps in Hrun. simpl in Hrun. by inversion Hrun.
  - unfold TrainState.steps in *. simpl in Hrun.
    unfold mbind at 1, M_bind at 1, bind at 1 in Hrun.
    destruct (task_steps st !! c) as [v|] eqn:Hv.
    + rewrite (step_known st c v Hv) in Hrun.
      apply IH in Hrun. rewrite Hrun. simpl. rewrite dom_insert_L.
      apply elem_of_dom_2 in Hv. set_solver.
    + rewrite (step_unknown st c Hv) in Hrun. discriminate.
Qed.

(** C8. On a state made by [from_task_name_list names] (and advanced by
    any calls that succeeded), [step task_name] for a name of the list
    adds exactly 1 to that task's counter and to [global_steps] and leaves
    every other counter as it was; for a name that is not in the list it
    raises [KeyError] and the state is unchanged. *)
Theorem step_increments_known_and_rejects_unknown
    (names calls : list string) (st : TrainState) (task_name : string) :
  TrainState.steps calls (TrainState.from_task_name_list names) = (Ok tt, st) →
  (task_name ∈ names →
     ∃ v st', task_steps st !! task_name = Some v
            ∧ TrainState.step task_name st = (Ok tt, st')
            ∧ task_steps st' !! task_name = Some (v + 1)
            ∧ global_steps st' = global_steps st + 1
            ∧ ∀ other, other ≠ task_name →
                task_steps st' !! other = task_steps st !! other)
  ∧ (task_name ∉ names →
     TrainState.step task_name st = (Raise (KeyError task_name), st)).
Proof.
  intros Hrun. apply steps_dom in Hrun. simpl in Hrun.
  rewrite dom_zero_counters in Hrun.
  split; intros Hin.
  - assert (task_name ∈ dom (task_steps st)) as Hd.
    { rewrite Hrun. by apply elem_of_list_to_set. }
    apply elem_of_dom in Hd as [v Hv].
    eexists v, _. split; [done|]. split; [by apply step_known|]. simpl.
    split; [by rewrite lookup_insert_eq|]. split; [done|].
    intros other Hne. by rewrite lookup_insert_ne.
  - apply step_unknown. apply not_elem_of_dom. rewrite Hrun.
    by rewrite elem_of_list_to_set.
Qed.

Lemma step_increments_known_and_rejects_unknown_witness :
  (∃ v st',
      task_steps (TrainState.from_task_name_list ["mnli"; "rte"]) !! "rte" = Some v
    ∧ TrainState.step "rte" (TrainState.from_task_name_list ["mnli"; "rte"]) = (Ok tt, st')
    ∧ task_steps st' !! "rte" = Some (v + 1)
    ∧ global_steps st' = global_steps (TrainState.from_task_name_list ["mnli"; "rte"]) + 1
    ∧ ∀ other, other ≠ "rte" →
        task_steps st' !! other
        = task_steps (TrainState.from_task_name_list ["mnli"; "rte"]) !! other)
  ∧ TrainState.step "sst" (TrainState.from_task_name_list ["mnli"; "rte"])
    = (Raise (KeyError "sst"), TrainState.from_task_name_list ["mnli"; "rte"]).
Proof.
  assert (TrainState.steps [] (TrainState.from_task_name_list ["mnli"; "rte"])
          = (Ok tt, TrainState.from_task_name_list ["mnli"; "rte"])) as Hrun
    by reflexivity.
  split.
  - apply (step_increments_known_and_rejects_unknown ["mnli"; "rte"] [] _ "rte" Hrun).
    set_solver.
  - apply (step_increments_known_and_rejects_unknown ["mnli"; "rte"] [] _ "sst" Hrun).
    set_solver.
Defined.

(** ** The What network *)

Section SoftmaxFacts.

Import Torch.

Lemma rsum_cons (x : R) (l : list R) : rsum (x :: l) = (x + rsum l)%R.
Proof. reflexivity. Qed.

Lemma rsum_app (a b : list R) : rsum (a ++ b) = (rsum a + rsum b)%R.
Proof.
  induction a as [|x a IH]; [simpl; lra|].
  rewrite <- app_comm_cons, !rsum_cons, IH. lra.
Qed.

Lemma rsum_exp_pos (r : list R) : r ≠ [] → (0 < rsum (exp <$> r))%R.
Proof.
  assert (∀ l : list R, (0 <= rsum (exp <$> l))%R) as Hnonneg.
  { induction l as [|x l IH]; [simpl; lra|].
    rewrite fmap_cons, rsum_cons. pose proof (exp_pos x). lra. }
  destruct r as [|x r]; [done|]. intros _.
  rewrite fmap_cons, rsum_cons.
  pose proof (exp_pos x). pose proof (Hnonneg r). lra.
Qed.

Lemma rsum_scaled (total : R) (l : list R) :
  rsum ((λ x, (exp x / total)%R) <$> l) = (rsum (exp <$> l) / total)%R.
Proof.
  induction l as [|x l IH].
  - simpl. unfold Rdiv. lra.
  - rewrite !fmap_cons, !rsum_cons, IH. unfold Rdiv. lra.
Qed.

Lemma softmax_row_sums_to_one (r : list R) :
  r ≠ [] → rsum (softmax_row r) = 1%R.
Proof.
  intros Hr. unfold softmax_row. rewrite rsum_scaled.
  pose proof (rsum_exp_pos r Hr). field. lra.
Qed.

Lemma length_softmax_row (r : list R) : length (softmax_row r) = length r.
Proof. unfold softmax_row. by rewrite length_fmap. Qed.

Lemma length_row (width : nat) (l : list R) (i : nat) : length (row width l i) = width.
Proof. unfold row. by rewrite length_fmap, length_seq. Qed.

Lemma length_linear_row (lin : Linear) (x : list R) :
  length (linear_row lin x) = out_features lin.
Proof. unfold linear_row. by rewrite length_fmap, length_seq. Qed.

Lemma numel_of_ones (leading : list nat) :
  Forall (λ d, d = 1%nat) leading → numel_of leading = 1%nat.
Proof.
  induction 1 as [|d leading -> _ IH]; [done|].
  change (numel_of (1%nat :: leading)) with (1 * numel_of leading)%nat.
  rewrite IH. done.
Qed.

Lemma numel_of_app (a b : list nat) : numel_of (a ++ b) = (numel_of a * numel_of b)%nat.
Proof.
  unfold numel_of. induction a as [|d a IH]; simpl; [lia|]. rewrite IH. lia.
Qed.

Lemma row_head (width : nat) (x rest : list R) :
  length x = width → row width (x ++ rest) 0 = x.
Proof.
  intros <-. unfold row, entry. simpl.
  apply list_eq. intros j. rewrite list_lookup_fmap.
  destruct (decide (j < length x)%nat) as [Hj|Hj].
  - rewrite lookup_seq_lt by done. simpl.
    rewrite app_nth1 by done.
    destruct (lookup_lt_is_Some_2 x j Hj) as [y Hy]. rewrite Hy.
    f_equal. by apply nth_lookup_Some.
  - rewrite lookup_seq_ge by lia. simpl.
    symmetry. apply lookup_ge_None. lia.
Qed.

Lemma row_tail (width : nat) (x rest : list R) (i : nat) :
  length x = width → row width (x ++ rest) (S i) = row width rest i.
Proof.
  intros <-. unfold row, entry. apply list_fmap_ext. intros _ j _.
  rewrite app_nth2 by lia. f_equal. lia.
Qed.

Lemma rows_concat (width : nat) (ls : list (list R)) :
  Forall (λ l, length l = width) ls →
  rows (length ls) width (concat ls) = ls.
Proof.
  induction 1 as [|x ls Hx _ IH]; [done|].
  unfold rows in *. simpl. rewrite (row_head _ _ _ Hx). f_equal.
  rewrite <- fmap_S_seq, <- list_fmap_compose.
  transitivity (row width (concat ls) <$> seq 0 (length ls)); [|exact IH].
  apply list_fmap_ext. intros _ i _. simpl.
  by apply row_tail.
Qed.

End SoftmaxFacts.

Lemma result_fold_range {B} (I : nat → B → Prop) (body : B → nat → result B) :
  ∀ (n start : nat) (acc : B),
    I start acc →
    (∀ i acc, (start ≤ i < start + n)%nat → I i acc →
       ∃ acc', body acc i = Ok acc' ∧ I (S i) acc') →
    ∃ r, result_fold (seq start n) acc body = Ok r ∧ I (start + n)%nat r.
Proof.
  induction n as [|n IH]; intros start acc Hacc Hbody.
  - exists acc. rewrite Nat.add_0_r. done.
  - destruct (Hbody start acc) as (acc' & Hstep & Hacc'); [lia | done |].
    destruct (IH (S start) acc' Hacc') as (r & Hr & HI).
    { intros i a Hi. apply Hbody. lia. }
    exists r. simpl. rewrite Hstep. simpl. split; [done|].
    by replace (start + S n)%nat with (S start + n)%nat by lia.
Qed.

Section WhatNetworkFacts.

Import Torch.

Variables (hidden teacher_layers student_layers : nat).
Variables (w : nat → nat → nat → R) (b : nat → nat → R).
Hypothesis hidden_pos : (0 < hidden)%nat.

(** One pass of the loop body of [WhatNetwork.forward] on a single
    feature vector. *)
Lemma what_layer_slots (i : nat) (state : Tensor) :
  single_vector hidden state →
  ∃ slices,
    (out ← linear (mkLinear hidden (student_layers * hidden) (w i) (b i)) state;
     out ← reshape2 out student_layers hidden;
     out ← softmax_dim1 out;
     iterate out) = Ok slices
    ∧ length slices = student_layers
    ∧ Forall (normalised_slot hidden) slices.
Proof.
  intros (leading & Hones & Hshape).
  unfold linear. rewrite Hshape, reverse_app. simpl.
  rewrite decide_True by done. simpl.
  unfold reshape2. simpl.
  rewrite reverse_involutive, numel_of_app, (numel_of_ones _ Hones).
  rewrite decide_True by (simpl; lia). simpl.
  assert (numel_of (reverse leading) = 1%nat) as ->.
  { apply numel_of_ones. by apply Forall_reverse. }
  set (ls := softmax_row <$>
               rows student_layers hidden
                 (concat (linear_row (mkLinear hidden (student_layers * hidden) (w i) (b i))
                            <$> rows 1 hidden (data state)))).
  assert (length ls = student_layers) as Hlen.
  { unfold ls, rows. by rewrite !length_fmap, length_seq. }
  assert (Forall (λ l, length l = hidden) ls) as Hwidth.
  { unfold ls, rows. rewrite <- list_fmap_compose. apply Forall_fmap, Forall_forall.
    intros r _. simpl. by rewrite length_softmax_row, length_row. }
  pose proof (rows_concat hidden ls Hwidth) as Hrows. rewrite Hlen in Hrows.
  unfold iterate. cbn [shape data].
  change (numel_of [hidden]) with (hidden * 1)%nat.
  rewrite Nat.mul_1_r, Hrows.
  eexists. split; [reflexivity|]. split; [by rewrite length_fmap|].
  apply Forall_fmap, Forall_forall. intros r Hr. split; [done|]. simpl.
  unfold ls in Hr. apply list_elem_of_fmap in Hr as (r0 & -> & Hr0).
  apply softmax_row_sums_to_one.
  unfold rows in Hr0. apply list_elem_of_fmap in Hr0 as (k & -> & _).
  intros Hnil. apply (f_equal length) in Hnil. rewrite length_row in Hnil.
  simpl in Hnil. lia.
Qed.

End WhatNetworkFacts.

(** The What network on inputs without a batch.  When every teacher state
    holds a single feature vector of the configured hidden size (one state
    per teacher layer the network was built with at most, hidden size at
    least 1), the network returns student-layer-count slots per teacher
    layer, each a vector over the hidden dimension whose softmax entries
    sum to 1 (in exact real arithmetic). *)
Theorem what_network_slots_sum_to_one
    (hidden teacher_layers student_layers : nat)
    (w : nat → nat → nat → R) (b : nat → nat → R) (teacher_states : list Tensor) :
  (0 < hidden)%nat →
  (length teacher_states ≤ teacher_layers)%nat →
  Forall (single_vector hidden) teacher_states →
  ∃ outputs,
    WhatNetwork.forward (WhatNetwork.init hidden teacher_layers student_layers w b)
      teacher_states = Ok outputs
    ∧ length outputs = (length teacher_states * student_layers)%nat
    ∧ Forall (normalised_slot hidden) outputs.
Proof.
  intros Hpos Hlen Hstates. unfold WhatNetwork.forward.
  destruct (result_fold_range
    (λ i outputs, length outputs = (i * student_layers)%nat
                  ∧ Forall (normalised_slot hidden) outputs)
    (λ outputs i,
      layer ← list_getitem "ModuleList"
                (WhatNetwork.what_network_linear
                   (WhatNetwork.init hidden teacher_layers student_layers w b)) i;
      state ← list_getitem "teacher_states" teacher_states i;
      out ← Torch.linear layer state;
      out ← Torch.reshape2 out
              (WhatNetwork.student_num_layers
                 (WhatNetwork.init hidden teacher_layers student_layers w b))
              (WhatNetwork.hidden_size
                 (WhatNetwork.init hidden teacher_layers student_layers w b));
      out ← Torch.softmax_dim1 out;
      slices ← Torch.iterate out;
      mret (outputs ++ slices))
    (length teacher_states) 0%nat []) as (outputs & Hrun & Hlen' & Hall).
  - split; [done | constructor].
  - intros i acc [_ Hi] [Hacc_len Hacc].
    simpl in Hi.
    destruct (lookup_lt_is_Some_2 teacher_states i Hi) as [state Hstate].
    pose proof (proj1 (Forall_lookup _ _) Hstates i state Hstate) as Hsv.
    destruct (what_layer_slots hidden student_layers w b Hpos i state Hsv)
      as (slices & Hslices & Hslen & Hsall).
    exists (acc ++ slices). split.
    + unfold list_getitem. simpl. rewrite list_lookup_fmap, lookup_seq_lt by lia.
      simpl. rewrite Hstate. simpl.
      simpl in Hslices.
      destruct (Torch.linear _ state) as [out1|]; [|done]. simpl in *.
      destruct (Torch.reshape2 out1 _ _) as [out2|]; [|done]. simpl in *.
      destruct (Torch.softmax_dim1 out2) as [out3|]; [|done]. simpl in *.
      by rewrite Hslices.
    + split; [rewrite length_app; lia | by apply Forall_app].
  - exists outputs. done.
Qed.

Lemma what_network_slots_sum_to_one_witness :
  ∃ outputs,
    WhatNetwork.forward (WhatNetwork.init 2 1 3 (λ _ _ _, 1%R) (λ _ _, 0%R))
      [mkTensor [1%nat; 2%nat] [1%R; 2%R]] = Ok outputs
    ∧ length outputs = (1 * 3)%nat
    ∧ Forall (normalised_slot 2) outputs.
Proof.
  apply (what_network_slots_sum_to_one 2 1 3 (λ _ _ _, 1%R) (λ _ _, 0%R)
           [mkTensor [1%nat; 2%nat] [1%R; 2%R]]).
  - lia.
  - simpl. lia.
  - constructor; [|constructor]. exists [1%nat]. simpl.
    split; [by repeat constructor | reflexivity].
Defined.

(** C3 does not hold of the code.  The claim is for arbitrary batch
    sizes, but line 274 reshapes the projection to (student-layer-count,
    hidden-size) and so drops the batch dimension: for a batch of two
    feature vectors of hidden size 1 the projection has two entries, which
    do not reshape to (1, 1); the network raises and has no output, hence
    no slot that sums to 1. *)
Lemma what_network_rejects_a_batch :
  ¬ ∃ outputs,
      WhatNetwork.forward (WhatNetwork.init 1 1 1 (λ _ _ _, 1%R) (λ _ _, 0%R))
        [mkTensor [2%nat; 1%nat] [1%R; 2%R]] = Ok outputs
      ∧ Forall (normalised_slot 1) outputs.
Proof.
  intros (outputs & Hrun & _).
  assert (WhatNetwork.forward (WhatNetwork.init 1 1 1 (λ _ _ _, 1%R) (λ _ _, 0%R))
            [mkTensor [2%nat; 1%nat] [1%R; 2%R]]
          = Raise (RuntimeError "shape is invalid for input size")) as Hraise
    by reflexivity.
  rewrite Hraise in Hrun. discriminate.
Qed.

(** The sibling network keeps the batch: [WhereNetwork.forward] applies
    its projection to the same two feature vectors and returns. *)
Example where_network_accepts_the_batch :
  ∃ outputs,
    WhereNetwork.forward (WhereNetwork.init 1 1 1 (λ _ _ _, 1%R) (λ _ _, 0%R))
      [mkTensor [2%nat; 1%nat] [1%R; 2%R]] = Ok outputs
    ∧ length outputs = 2%nat.
Proof. eexists. split; reflexivity. Qed.

(** ** The combined What/Where module *)

(** C1 does not hold of the code.  Whatever the states, [forward] returns
    no loss: once both networks have produced their weights, line 315
    looks up [self.what_where_net], which [MetaWhatAndWhere] does not have,
    and raises [AttributeError]; otherwise the exception of a network is
    passed on. *)
Theorem matching_loss_is_never_returned
    (self : MetaWhatAndWhere.t) (teacher_states student_states : list Tensor) :
  MetaWhatAndWhere.forward self teacher_states student_states =
    match WhatNetwork.forward (MetaWhatAndWhere.what_network self) teacher_states,
          WhereNetwork.forward (MetaWhatAndWhere.where_network self) teacher_states with
    | Ok _, Ok _ => Raise (AttributeError "MetaWhatAndWhere" "what_where_net")
    | Ok _, Raise e => Raise e
    | Raise e, _ => Raise e
    end.
Proof.
  unfold MetaWhatAndWhere.forward.
  destruct (WhatNetwork.forward _ teacher_states) as [weights|e]; [|done].
  destruct (WhereNetwork.forward _ teacher_states) as [loss_weights|e]; done.
Qed.

Lemma forward_raises (self : MetaWhatAndWhere.t) (teacher_states student_states : list Tensor) :
  ∃ e, MetaWhatAndWhere.forward self teacher_states student_states = Raise e.
Proof.
  unfold MetaWhatAndWhere.forward.
  destruct (WhatNetwork.forward _ _); [|by eexists].
  destruct (WhereNetwork.forward _ _); by eexists.
Qed.

(** One teacher layer and two student layers, hidden size 2, every state
    a single feature vector: both networks succeed and the call raises. *)
Example forward_on_one_teacher_two_students :
  MetaWhatAndWhere.forward
    (MetaWhatAndWhere.init
       (WhatNetwork.init 2 1 2 (λ _ _ _, 1%R) (λ _ _, 0%R))
       (WhereNetwork.init 2 1 2 (λ _ _ _, 1%R) (λ _ _, 0%R)))
    [mkTensor [1; 1; 1; 2]%nat [0; 0]%R]
    [mkTensor [1; 1; 1; 2]%nat [1; 1]%R; mkTensor [1; 1; 1; 2]%nat [0; 0]%R]
  = Raise (AttributeError "MetaWhatAndWhere" "what_where_net").
Proof. reflexivity. Qed.

(** The inline formula (lines 318-326) on its own, with weights that are
    all 1: the pair (0, 0) differs by 1 and the pair (0, 1) by 0, so the
    sum over both pairs is 1; the loop adds [diff] once per teacher layer,
    after the inner loop, and returns the last pair's 0. *)
Example matching_loop_adds_the_last_pair_only :
  let weights := [mkTensor [2]%nat [1; 1]%R] in
  let teacher_states := [mkTensor [1; 1; 1; 1]%nat [0%R]] in
  let student_states :=
    [mkTensor [1; 1; 1; 1]%nat [1%R]; mkTensor [1; 1; 1; 1]%nat [0%R]] in
  ∃ d00 d01 total,
    MetaWhatAndWhere.pair_diff weights weights teacher_states student_states 0 0
      = Ok (Torch.scalar d00)
    ∧ MetaWhatAndWhere.pair_diff weights weights teacher_states student_states 0 1
      = Ok (Torch.scalar d01)
    ∧ MetaWhatAndWhere.matching_loop weights weights teacher_states student_states
      = Ok (Torch.scalar total)
    ∧ d00 = 1%R ∧ d01 = 0%R ∧ total = 0%R ∧ total ≠ (d00 + d01)%R.
Proof.
  cbv zeta. do 3 eexists.
  split; [reflexivity|]. split; [reflexivity|]. split; [reflexivity|].
  cbv -[Rplus Rminus Rmult Rdiv Rinv IZR INR].
  change (INR 1) with 1%R. rewrite !Rdiv_1_r.
  repeat split; lra.
Qed.

(** ** Running monadic code *)

Section MonadFacts.

Context {S : Type}.

Lemma bind_ok {A B} (c : M S A) (k : A → M S B) (s s' : S) (a : A) :
  c s = (Ok a, s') → (c ≫= k) s = k a s'.
Proof. intros H. unfold mbind, M_bind, bind. by rewrite H. Qed.

Lemma bind_raise {A B} (c : M S A) (k : A → M S B) (s s' : S) (e : PyError) :
  c s = (Raise e, s') → (c ≫= k) s = (Raise e, s').
Proof. intros H. unfold mbind, M_bind, bind. by rewrite H. Qed.

Lemma bind_state {A B} (c : M S A) (k : A → M S B) (s : S) :
  ((c ≫= k) s).2 = match (c s).1 with
                    | Ok a => (k a (c s).2).2
                    | Raise _ => (c s).2
                    end.
Proof. unfold mbind, M_bind, bind. by destruct (c s) as [[a|e] s']. Qed.

End MonadFacts.

Section OnlyEmits.

Variable P : Event → Prop.

Lemma extends_refl (w : World) : extends P w w.
Proof. exists []. by rewrite app_nil_r. Qed.

Lemma extends_trans (w1 w2 w3 : World) :
  extends P w1 w2 → extends P w2 w3 → extends P w1 w3.
Proof.
  intros (d1 & Ht1 & Hd1 & Hp1) (d2 & Ht2 & Hd2 & Hp2).
  exists (d1 ++ d2). rewrite Ht2, Ht1, app_assoc. split; [done|].
  split; [by apply Forall_app | congruence].
Qed.

Lemma only_emits_ret {A} (a : A) : only_emits P (mret a : M World A).
Proof. intros w. apply extends_refl. Qed.

Lemma only_emits_raise {A} (e : PyError) : only_emits P (raise e : M World A).
Proof. intros w. apply extends_refl. Qed.

Lemma only_emits_lift {A} (r : result A) : only_emits P (lift r : M World A).
Proof. intros w. apply extends_refl. Qed.

Lemma only_emits_get : only_emits P (get : M World World).
Proof. intros w. apply extends_refl. Qed.

Lemma only_emits_event (e : Event) : P e → only_emits P (event e).
Proof. intros He w. exists [e]. simpl. repeat split; by try constructor. Qed.

Lemma only_emits_bind {A B} (c : M World A) (k : A → M World B) :
  only_emits P c → (∀ a, only_emits P (k a)) → only_emits P (c ≫= k).
Proof.
  intros Hc Hk w. rewrite bind_state. specialize (Hc w).
  destruct (c w) as [[a|e] w']; simpl in *; [|done].
  eapply extends_trans; [exact Hc | apply Hk].
Qed.

Lemma only_emits_ask {A} (answer : list Event → A) (e : Event) :
  P e → only_emits P (ask answer e).
Proof.
  intros He. unfold ask. apply only_emits_bind; [apply only_emits_get|].
  intros w. apply only_emits_bind; [by apply only_emits_event|].
  intros _. apply only_emits_ret.
Qed.

Lemma only_emits_for_each {A} (xs : list A) (body : A → M World unit) :
  (∀ x, only_emits P (body x)) → only_emits P (for_each xs body).
Proof.
  intros Hbody. induction xs as [|x xs IH]; simpl.
  - apply only_emits_ret.
  - apply only_emits_bind; [apply Hbody | intros _; apply IH].
Qed.

Lemma only_emits_for_fold {A B} (xs : list A) (body : B → A → M World B) :
  (∀ acc x, only_emits P (body acc x)) → ∀ acc, only_emits P (for_fold xs acc body).
Proof.
  intros Hbody. induction xs as [|x xs IH]; intros acc; simpl.
  - apply only_emits_ret.
  - apply only_emits_bind; [apply Hbody | intros acc'; apply IH].
Qed.

Lemma only_emits_on_train_state {A} (c : M TrainState A) :
  only_emits P (on_train_state c).
Proof.
  intros w. unfold on_train_state. destruct (c (train_state w)) as [r st].
  exists []. simpl. by rewrite app_nil_r.
Qed.

Lemma only_emits_with_what_where_net (net : MetaWhatAndWhere.t) :
  only_emits P (modify (with_what_where_net net)).
Proof. intros w. exists []. simpl. by rewrite app_nil_r. Qed.

End OnlyEmits.

Ltac emits_step :=
  lazymatch goal with
  | |- only_emits _ (mbind _ _) => apply only_emits_bind; [| intros ?]
  | |- only_emits _ (mret _) => apply only_emits_ret
  | |- only_emits _ (raise _) => apply only_emits_raise
  | |- only_emits _ (lift _) => apply only_emits_lift
  | |- only_emits _ get => apply only_emits_get
  | |- only_emits _ (event _) => apply only_emits_event; done
  | |- only_emits _ (ask _ _) => apply only_emits_ask; done
  | |- only_emits _ (for_each _ _) => apply only_emits_for_each; intros ?
  | |- only_emits _ (for_fold _ _ _) => apply only_emits_for_fold; intros ? ?
  | |- only_emits _ (on_train_state _) => apply only_emits_on_train_state
  | |- only_emits _ (modify (with_what_where_net _)) =>
      apply only_emits_with_what_where_net
  | |- only_emits _ (wrap_jiant_forward _ _ _ _ _ _) => unfold wrap_jiant_forward
  | |- only_emits _ (match ?x with _ => _ end) => destruct x
  | |- only_emits _ ((match ?x with _ => _ end) _) => destruct x
  end.

Ltac emits := repeat emits_step.

(** ** The frozen teacher *)

Section TeacherFacts.

Variable C : Collaborators.

Abbreviation no_teacher_gradients := (λ e, tracks_teacher_gradients e = false).

Lemma run_inner_loop_spares_teacher (self : L2TWWRunner.t) (meta_batches : list Batch)
    (task : Task) (inner_steps : Z) :
  only_emits no_teacher_gradients
    (L2TWWRunner.run_inner_loop C self meta_batches task inner_steps).
Proof.
  unfold L2TWWRunner.run_inner_loop, L2TWWRunner.inner_step, L2TWWRunner.outer_step,
    L2TWWRunner.outer_objective, L2TWWRunner.backward_on.
  emits.
Qed.

Lemma run_train_step_spares_teacher (self : L2TWWRunner.t)
    (train_dataloader_dict : gmap string string) :
  only_emits no_teacher_gradients
    (L2TWWRunner.run_train_step C self train_dataloader_dict).
Proof.
  unfold L2TWWRunner.run_train_step.
  apply only_emits_bind.
  - unfold L2TWWRunner.accumulate_and_step, JiantRunner.micro_batch,
      JiantRunner.complex_backpropagate, complex_backpropagate.
    emits.
  - intros [[[[task_name task] task_specific_config] loss_val] meta_batches].
    apply only_emits_bind; [apply run_inner_loop_spares_teacher | intros _].
    unfold JiantRunner.step_and_log. emits.
Qed.

End TeacherFacts.

(** C9. [L2TWWRunner.__init__] leaves every parameter of the teacher with
    gradient tracking disabled.  Afterwards [run_train_step] and
    [run_inner_loop], from any world and whether they return or raise,
    leave the teacher's parameters (flags, values and gradients) exactly as
    they were, and every forward pass of the teacher they cause runs with
    gradient tracking off. *)
Theorem teacher_parameters_stay_frozen :
  (∀ base teacher_jiant_model hidden_size teacher_num_layers student_num_layers
     meta_optim_params what_w where_w what_b where_b w,
     let w' := (L2TWWRunner.init base teacher_jiant_model hidden_size teacher_num_layers
                  student_num_layers meta_optim_params what_w where_w what_b where_b w).2 in
     teacher_parameters w' = L2TWWRunner.freeze <$> teacher_jiant_model
     ∧ Forall (λ p, requires_grad p = false) (teacher_parameters w'))
  ∧ (∀ C self train_dataloader_dict,
       only_emits (λ e, tracks_teacher_gradients e = false)
         (L2TWWRunner.run_train_step C self train_dataloader_dict))
  ∧ (∀ C self meta_batches task inner_steps,
       only_emits (λ e, tracks_teacher_gradients e = false)
         (L2TWWRunner.run_inner_loop C self meta_batches task inner_steps)).
Proof.
  split; [| split].
  - intros. subst w'.
    assert (teacher_parameters
              (L2TWWRunner.init base teacher_jiant_model hidden_size teacher_num_layers
                 student_num_layers meta_optim_params what_w where_w what_b where_b w).2
            = L2TWWRunner.freeze <$> teacher_jiant_model) as Heq.
    { unfold L2TWWRunner.init, mbind, M_bind, bind, modify, lift, getitem. simpl.
      destruct (meta_optim_params !! "lr") as [lr|]; [|reflexivity].
      destruct (Rle_dec 0 lr); [|reflexivity].
      destruct (decide (teacher_num_layers = 0%nat)); reflexivity. }
    split; [exact Heq|]. rewrite Heq.
    apply Forall_fmap, Forall_forall. intros p _. reflexivity.
  - intros. apply run_train_step_spares_teacher.
  - intros. apply run_inner_loop_spares_teacher.
Qed.

(** ** Evaluation *)

(** C6. Called with a [local_rank] other than -1, the standalone
    [run_val] and [run_test] return [None] at once: the world they were
    called in is the world they leave, so no forward pass is made and
    nothing else happens. *)
Theorem rank_guard_returns_none
    (C : Collaborators) (dataloader : list (Batch * BatchMetadata))
    (val_labels : list Label) (task : Task) (device : string) (local_rank : Z)
    (return_preds : bool) (w : World) :
  local_rank ≠ -1 →
  run_val C dataloader val_labels task device local_rank return_preds w = (Ok None, w)
  ∧ run_test C dataloader task device local_rank return_preds w = (Ok None, w).
Proof.
  intros Hrank. unfold run_val, run_test.
  rewrite bool_decide_false by done. done.
Qed.

Lemma rank_guard_returns_none_witness :
  run_val example_collaborators [(example_batch, 0%nat)] [0%nat] rte "cuda" 0 true
    example_world = (Ok None, example_world)
  ∧ run_test example_collaborators [(example_batch, 0%nat)] rte "cuda" 0 true
      example_world = (Ok None, example_world).
Proof.
  apply (rank_guard_returns_none example_collaborators [(example_batch, 0%nat)]
           [0%nat] rte "cuda" 0 true example_world).
  lia.
Defined.

(** ** The inner loop of L2TWWRunner *)

Section InnerLoopFacts.

Variables (C : Collaborators) (self : L2TWWRunner.t).

Lemma outer_objective_returns_none (batch : Batch) (task : Task) (w : World) :
  L2TWWRunner.outer_objective C self batch task w
  = (Ok None, with_trace (λ t, t ++ [EvForward Student batch true false]) w).
Proof. reflexivity. Qed.

Lemma outer_step_raises (batch : Batch) (task : Task) (w : World) :
  L2TWWRunner.outer_step C self batch task w
  = (Raise (AttributeError "NoneType" "backward"),
     with_trace (λ t, t ++ [EvForward Student batch true false])
       (with_trace (λ t, t ++ [EvOptimizerZeroGrad])
          (with_trace (λ t, t ++ [EvMetaOptimizerZeroGrad]) w))).
Proof. reflexivity. Qed.

(** An inner step never completes: the matching loss is never returned.
    It raises after zeroing the gradients and the two forward passes. *)
Lemma inner_step_raises (batch : Batch) (task : Task) (w : World) :
  ∃ e, L2TWWRunner.inner_step C self batch task w
       = (Raise e,
          with_trace (λ t, t ++ [EvForward Teacher batch true true])
            (with_trace (λ t, t ++ [EvForward Student batch true false])
               (with_trace (λ t, t ++ [EvOptimizerZeroGrad]) w))).
Proof.
  unfold L2TWWRunner.inner_step.
  rewrite (bind_ok _ _ w (with_trace (λ t, t ++ [EvOptimizerZeroGrad]) w) tt)
    by reflexivity.
  set (w1 := with_trace _ w).
  erewrite (bind_ok _ _ w1) by reflexivity.
  set (w2 := with_trace _ w1). set (student := forward_output C _ _ _ _ _).
  erewrite (bind_ok _ _ w2) by reflexivity.
  set (w3 := with_trace _ w2). set (teacher := forward_output C _ _ _ _ _).
  cbv zeta.
  destruct (list_getitem "other" (other teacher) 0) as [teacher_states|e] eqn:Ht.
  2:{ exists e. by apply bind_raise. }
  erewrite (bind_ok _ _ w3) by reflexivity.
  destruct (list_getitem "other" (other student) 0) as [student_states|e] eqn:Hs.
  2:{ exists e. by apply bind_raise. }
  erewrite (bind_ok _ _ w3) by reflexivity.
  erewrite (bind_ok _ _ w3) by reflexivity.
  destruct (forward_raises (what_where_net w3) teacher_states student_states)
    as [e He].
  exists e. apply bind_raise. unfold lift. by rewrite He.
Qed.

Lemma run_inner_loop_cons (batch : Batch) (rest : list Batch) (task : Task)
    (inner_steps : Z) (w : World) :
  L2TWWRunner.run_inner_loop C self (batch :: rest) task inner_steps w
  = match for_each (range inner_steps) (λ _, L2TWWRunner.inner_step C self batch task)
            (with_trace (λ t, t ++ [EvEval Teacher]) w) with
    | (Ok _, w2) => L2TWWRunner.outer_step C self batch task w2
    | (Raise e, w2) => (Raise e, w2)
    end.
Proof.
  unfold L2TWWRunner.run_inner_loop.
  rewrite (bind_ok _ _ w (with_trace (λ t, t ++ [EvEval Teacher]) w) tt) by reflexivity.
  simpl. unfold mbind, M_bind, bind.
  destruct (for_each _ _ _) as [[[]|e] w2]; [|done].
  rewrite outer_step_raises. done.
Qed.

End InnerLoopFacts.

(** C10, as the code has it.  On a non-empty [meta_batches],
    [run_inner_loop] always fails on the first batch, and where it fails
    depends on [inner_steps].  When no inner step is run ([inner_steps] at
    most 0) the outer step is reached: [outer_objective] runs its forward
    pass and returns [None], and the call raises the [AttributeError] of
    [None.backward()] there, so that neither [meta_backward] nor the
    meta-optimizer's step follow and no further batch is visited.  With
    [inner_steps] at least 1, as in the only call of the function, the
    call raises in the first inner step, after the forward passes of the
    student and the teacher, and the outer step is never reached. *)
Theorem run_inner_loop_fails_on_the_first_batch
    (C : Collaborators) (self : L2TWWRunner.t) (batch : Batch) (rest : list Batch)
    (task : Task) (inner_steps : Z) (w : World) :
  (inner_steps ≤ 0 →
   ∃ w3 w4,
     after_events w [EvEval Teacher; EvMetaOptimizerZeroGrad; EvOptimizerZeroGrad] w3
     ∧ L2TWWRunner.outer_objective C self batch task w3 = (Ok None, w4)
     ∧ after_events w3 [EvForward Student batch true false] w4
     ∧ L2TWWRunner.run_inner_loop C self (batch :: rest) task inner_steps w
       = (Raise (AttributeError "NoneType" "backward"), w4))
  ∧ (1 ≤ inner_steps →
     ∃ e w',
       L2TWWRunner.run_inner_loop C self (batch :: rest) task inner_steps w
       = (Raise e, w')
       ∧ after_events w
           [EvEval Teacher; EvOptimizerZeroGrad;
            EvForward Student batch true false; EvForward Teacher batch true true] w').
Proof.
  split; intros Hsteps; rewrite run_inner_loop_cons; unfold range.
  - replace (Z.to_nat inner_steps) with 0%nat by lia. cbn [seq for_each].
    unfold ret. rewrite outer_step_raises.
    eexists _, _. split; [|split; [apply outer_objective_returns_none | split; [|done]]].
    + repeat split. simpl. by rewrite <- !app_assoc.
    + repeat split.
  - destruct (Z.to_nat inner_steps) as [|n] eqn:Hn; [lia|]. cbn [seq for_each].
    destruct (inner_step_raises C self batch task
                (with_trace (λ t, t ++ [EvEval Teacher]) w)) as [e Hinner].
    erewrite bind_raise by exact Hinner.
    eexists _, _. split; [reflexivity|].
    repeat split. simpl. by rewrite <- !app_assoc.
Qed.

Lemma run_inner_loop_fails_on_the_first_batch_witness :
  (∃ w3 w4,
     after_events example_world
       [EvEval Teacher; EvMetaOptimizerZeroGrad; EvOptimizerZeroGrad] w3
     ∧ L2TWWRunner.outer_objective example_collaborators
         (L2TWWRunner.mk (example_runner [])) example_batch rte w3 = (Ok None, w4)
     ∧ after_events w3 [EvForward Student example_batch true false] w4
     ∧ L2TWWRunner.run_inner_loop example_collaborators
         (L2TWWRunner.mk (example_runner [])) [example_batch] rte 0 example_world
       = (Raise (AttributeError "NoneType" "backward"), w4))
  ∧ (∃ e w',
       L2TWWRunner.run_inner_loop example_collaborators
         (L2TWWRunner.mk (example_runner [])) [example_batch; example_batch] rte 1
         example_world = (Raise e, w')
       ∧ after_events example_world
           [EvEval Teacher; EvOptimizerZeroGrad;
            EvForward Student example_batch true false;
            EvForward Teacher example_batch true true] w').
Proof.
  split.
  - apply (proj1 (run_inner_loop_fails_on_the_first_batch example_collaborators
                    (L2TWWRunner.mk (example_runner [])) example_batch [] rte 0
                    example_world)).
    lia.
  - apply (proj2 (run_inner_loop_fails_on_the_first_batch example_collaborators
                    (L2TWWRunner.mk (example_runner [])) example_batch [example_batch]
                    rte 1 example_world)).
    lia.
Defined.

(** C10 as stated fails for the one way the function is called: with the
    default [inner_steps] of 1 the call raises in the inner step (the call
    of line 353 raises at line 315) with the [AttributeError] of the
    missing attribute [what_where_net]; the outer step is not reached, so
    [outer_objective] is not called and no backward call is applied to
    [None]. *)
Lemma run_inner_loop_raises_before_the_outer_objective :
  let run := L2TWWRunner.run_inner_loop example_collaborators
               (L2TWWRunner.mk (example_runner [])) [example_batch] rte 1 example_world in
  run.1 = Raise (AttributeError "MetaWhatAndWhere" "what_where_net")
  ∧ trace run.2
    = [EvEval Teacher; EvOptimizerZeroGrad;
       EvForward Student example_batch true false;
       EvForward Teacher example_batch true true]
  ∧ run.1 ≠ Raise (AttributeError "NoneType" "backward").
Proof.
  cbv zeta.
  assert ((L2TWWRunner.run_inner_loop example_collaborators
             (L2TWWRunner.mk (example_runner [])) [example_batch] rte 1 example_world).1
          = Raise (AttributeError "MetaWhatAndWhere" "what_where_net")) as Hraise
    by reflexivity.
  split; [exact Hraise|]. split; [reflexivity|].
  rewrite Hraise. discriminate.
Qed.

(** ** The training step *)

Lemma after_events_refl (w : World) : after_events w [] w.
Proof. unfold after_events. by rewrite app_nil_r. Qed.

Lemma after_events_trans (w1 w2 w3 : World) (d1 d2 : list Event) :
  after_events w1 d1 w2 → after_events w2 d2 w3 → after_events w1 (d1 ++ d2) w3.
Proof.
  intros (Ht1 & Hs1 & Hp1 & Hn1) (Ht2 & Hs2 & Hp2 & Hn2).
  unfold after_events. rewrite Ht2, Ht1, app_assoc. repeat split; congruence.
Qed.

Lemma after_events_with_trace (w : World) (delta : list Event) :
  after_events w delta (with_trace (λ t, t ++ delta) w).
Proof. by repeat split. Qed.

Lemma scaled_losses_app (a b : list Event) :
  scaled_losses (a ++ b) = scaled_losses a ++ scaled_losses b.
Proof. unfold scaled_losses. apply omap_app. Qed.

Lemma count_events_app (p : Event → bool) (a b : list Event) :
  count_events p (a ++ b) = (count_events p a + count_events p b)%nat.
Proof. unfold count_events. by rewrite filter_app, length_app. Qed.

Lemma count_events_none (p : Event → bool) (t : list Event) :
  Forall (λ e, p e = false) t → count_events p t = 0%nat.
Proof.
  unfold count_events. induction 1 as [|e t He _ IH]; [done|].
  rewrite filter_cons_False by congruence. exact IH.
Qed.

Section AccumulationFacts.

Variables (C : Collaborators) (self : JiantRunner.t).
Variables (train_dataloader_dict : gmap string string).
Variables (task_name cursor : string) (task : Task) (N : Z).
Hypothesis cursor_known : train_dataloader_dict !! task_name = Some cursor.

Lemma micro_batch_run (w : World) :
  ∃ batch l w' delta,
    JiantRunner.micro_batch C self train_dataloader_dict task_name task N w
    = (Ok (batch, l), w')
    ∧ after_events w delta w'
    ∧ Forall leaves_optimizer_alone delta
    ∧ scaled_losses delta = [l].
Proof.
  unfold JiantRunner.micro_batch, getitem. rewrite cursor_known.
  unfold JiantRunner.complex_backpropagate, complex_backpropagate, wrap_jiant_forward,
    ask, event, lift, get, modify, mbind, mret, M_bind, M_ret, bind, ret.
  destruct (cursor_pop C (trace w) cursor) as [batch batch_metadata].
  destruct (max_grad_norm (JiantRunner.rparams self)) as [bound|].
  - eexists _, _, _, [EvCursorPop cursor; EvForward Student _ true false;
                      EvBackward TaskLoss _; EvClipGradNorm].
    split; [reflexivity|]. split; [| split; [by repeat constructor | reflexivity]].
    repeat split. simpl. by rewrite <- !app_assoc.
  - eexists _, _, _, [EvCursorPop cursor; EvForward Student _ true false;
                      EvBackward TaskLoss _].
    split; [reflexivity|]. split; [| split; [by repeat constructor | reflexivity]].
    repeat split. simpl. by rewrite <- !app_assoc.
Qed.

End AccumulationFacts.

Lemma for_fold_ext {S A B} (xs : list A) (body1 body2 : B → A → M S B) :
  (∀ acc x s, body1 acc x s = body2 acc x s) →
  ∀ acc s, for_fold xs acc body1 s = for_fold xs acc body2 s.
Proof.
  intros Hext. induction xs as [|x xs IH]; intros acc s; simpl; [done|].
  unfold mbind, M_bind, bind. rewrite Hext.
  destruct (body2 acc x s) as [[acc'|e] s']; [apply IH | done].
Qed.

Section AccumulationLoop.

Variables (C : Collaborators) (self : JiantRunner.t).
Variables (train_dataloader_dict : gmap string string).
Variables (task_name cursor : string) (task : Task) (N : Z).
Hypothesis cursor_known : train_dataloader_dict !! task_name = Some cursor.

(** The accumulation loop, whatever it does with the batch and the loss
    of each micro-batch: it completes, and the losses it saw are those on
    which [complex_backpropagate] ran backward. *)
Lemma accumulation_loop {B} (f : B → Batch → R → B) (n : nat) :
  ∀ (start : nat) (acc : B) (w : World),
  ∃ (seen : list (Batch * R)) (w' : World) (delta : list Event),
    for_fold (seq start n) acc
      (λ acc i,
        '(batch, loss) ← JiantRunner.micro_batch C self train_dataloader_dict
                           task_name task N;
        mret (f acc batch loss)) w
    = (Ok (foldl (λ acc s, f acc s.1 s.2) acc seen), w')
    ∧ after_events w delta w'
    ∧ Forall leaves_optimizer_alone delta
    ∧ scaled_losses delta = seen.*2
    ∧ length seen = n.
Proof.
  induction n as [|n IH]; intros start acc w.
  - exists [], w, []. split; [reflexivity|]. split; [apply after_events_refl|]. done.
  - destruct (micro_batch_run C self train_dataloader_dict task_name cursor task N
                cursor_known w) as (batch & l & w1 & d1 & Hrun & Hw1 & Hd1 & Hl1).
    destruct (IH (S start) (f acc batch l) w1) as (seen & w2 & d2 & Hloop & Hw2 & Hd2 & Hl2 & Hn).
    exists ((batch, l) :: seen), w2, (d1 ++ d2).
    split; [| split; [| split; [| split]]].
    + simpl. erewrite bind_ok; [exact Hloop|].
      erewrite bind_ok; [|exact Hrun]. reflexivity.
    + by eapply after_events_trans.
    + by apply Forall_app.
    + rewrite scaled_losses_app, Hl1, Hl2. reflexivity.
    + simpl. by rewrite Hn.
Qed.

Lemma foldl_sum_losses (seen : list (Batch * R)) : ∀ acc : R,
  foldl (λ acc s, (acc + s.2)%R) acc seen = (acc + Torch.rsum seen.*2)%R.
Proof.
  induction seen as [|s seen IH]; intros acc.
  - unfold Torch.rsum. simpl. lra.
  - rewrite fmap_cons, rsum_cons. cbn [foldl]. rewrite IH. lra.
Qed.

Lemma foldl_sum_and_keep (seen : list (Batch * R)) : ∀ (acc : R) (kept : list Batch),
  foldl (λ (acc : R * list Batch) s, ((acc.1 + s.2)%R, acc.2 ++ [s.1])) (acc, kept) seen
  = ((acc + Torch.rsum seen.*2)%R, kept ++ seen.*1).
Proof.
  induction seen as [|s seen IH]; intros acc kept.
  - simpl. rewrite app_nil_r. f_equal. unfold Torch.rsum. simpl. lra.
  - rewrite !fmap_cons, rsum_cons. cbn [foldl fst snd]. rewrite IH.
    rewrite <- app_assoc. f_equal. lra.
Qed.

End AccumulationLoop.

Section TrainStepFacts.

Variables (C : Collaborators) (self : JiantRunner.t).
Variables (train_dataloader_dict : gmap string string) (w : World).
Variables (task_name cursor : string) (task : Task) (config : TaskSpecificConfig).
Hypothesis sampled :
  task_sampler_pop C (trace w ++ [EvTrain Student]) = (task_name, task).
Hypothesis configured :
  task_specific_configs (JiantRunner.jiant_task_container self) !! task_name = Some config.
Hypothesis cursor_known : train_dataloader_dict !! task_name = Some cursor.

Lemma step_and_log_leaves_optimizer_alone (loss_val : R) :
  only_emits leaves_optimizer_alone
    (JiantRunner.step_and_log task_name config loss_val).
Proof. unfold JiantRunner.step_and_log. emits. Qed.

(** [JiantRunner.run_train_step] up to line 117. *)
Lemma run_train_step_until_zero_grad :
  ∃ (seen : list (Batch * R)) (w1 : World) (delta : list Event),
    JiantRunner.run_train_step C self train_dataloader_dict w
    = JiantRunner.step_and_log task_name config (0 + Torch.rsum seen.*2) w1
    ∧ after_events w
        ([EvTrain Student; EvSamplerPop] ++ delta
         ++ [EvOptimizerSchedulerStep; EvOptimizerZeroGrad]) w1
    ∧ Forall leaves_optimizer_alone delta
    ∧ scaled_losses delta = seen.*2
    ∧ length seen = Z.to_nat (gradient_accumulation_steps config).
Proof.
  set (w0 := with_trace (λ t, t ++ [EvSamplerPop])
               (with_trace (λ t, t ++ [EvTrain Student]) w)).
  destruct (accumulation_loop C self train_dataloader_dict task_name cursor task
              (gradient_accumulation_steps config) cursor_known
              (λ (acc : R) (_ : Batch) (l : R), (acc + l)%R)
              (Z.to_nat (gradient_accumulation_steps config)) 0%nat 0%R w0)
    as (seen & w1 & delta & Hloop & Hw1 & Hquiet & Hlosses & Hlen).
  rewrite foldl_sum_losses in Hloop.
  exists seen, (with_trace (λ t, t ++ [EvOptimizerZeroGrad])
                  (with_trace (λ t, t ++ [EvOptimizerSchedulerStep]) w1)), delta.
  split; [| split; [| done]].
  - unfold JiantRunner.run_train_step.
    erewrite bind_ok by reflexivity.
    erewrite bind_ok by reflexivity.
    cbn [trace with_trace]. rewrite sampled.
    erewrite bind_ok by (unfold lift, getitem; rewrite configured; reflexivity).
    erewrite bind_ok by exact Hloop.
    erewrite bind_ok by reflexivity.
    erewrite bind_ok by reflexivity.
    reflexivity.
  - destruct Hw1 as (Ht & Hs & Hp & Hn). subst w0. simpl in Ht, Hs, Hp, Hn.
    repeat split; simpl; [| done..].
    rewrite Ht. by rewrite <- !app_assoc.
Qed.

End TrainStepFacts.

Lemma step_and_log_run (task_name : string) (config : TaskSpecificConfig) (loss_val : R)
    (w : World) (v : Z) :
  task_steps (train_state w) !! task_name = Some v →
  gradient_accumulation_steps config ≠ 0 →
  JiantRunner.step_and_log task_name config loss_val w
  = (Ok tt,
     with_trace
       (λ t, t ++ [EvWriteEntry "loss_train"
                     {| entry_task := task_name;
                        entry_task_step := v + 1;
                        entry_global_step := global_steps (train_state w) + 1;
                        entry_loss_val :=
                          (loss_val / IZR (gradient_accumulation_steps config))%R |}])
       (with_train_state
          {| global_steps := global_steps (train_state w) + 1;
             task_steps := <[task_name := v + 1]> (task_steps (train_state w)) |} w)).
Proof.
  intros Hv HN. unfold JiantRunner.step_and_log.
  erewrite bind_ok
    by (unfold on_train_state; rewrite (step_known _ _ _ Hv); reflexivity).
  erewrite bind_ok by reflexivity.
  erewrite bind_ok
    by (unfold lift, getitem; cbn [train_state with_train_state task_steps];
        rewrite lookup_insert_eq; reflexivity).
  erewrite bind_ok by (unfold lift, py_div; rewrite decide_False by done; reflexivity).
  reflexivity.
Qed.

(** C5. A call of [JiantRunner.run_train_step] whose sampled task has a
    configuration with N >= 1 accumulation steps, a cursor and a counter
    returns after writing, as its last effect, one "loss_train" record: it
    names the task, its [task_step] and [global_step] are the counters of
    the [TrainState] as advanced by this call, and its [loss_val] is the
    sum of the N scaled losses on which [complex_backpropagate] ran
    backward during the call, divided by N. *)
Theorem log_record_reports_the_advanced_state_and_mean_loss
    (C : Collaborators) (self : JiantRunner.t)
    (train_dataloader_dict : gmap string string) (w : World)
    (task_name cursor : string) (task : Task) (config : TaskSpecificConfig) (v : Z) :
  task_sampler_pop C (trace w ++ [EvTrain Student]) = (task_name, task) →
  task_specific_configs (JiantRunner.jiant_task_container self) !! task_name = Some config →
  train_dataloader_dict !! task_name = Some cursor →
  1 ≤ gradient_accumulation_steps config →
  task_steps (train_state w) !! task_name = Some v →
  ∃ (w' : World) (delta : list Event) (entry : LossTrainEntry),
    JiantRunner.run_train_step C self train_dataloader_dict w = (Ok tt, w')
    ∧ trace w' = trace w ++ delta ++ [EvWriteEntry "loss_train" entry]
    ∧ task_steps (train_state w') !! task_name = Some (v + 1)
    ∧ global_steps (train_state w') = global_steps (train_state w) + 1
    ∧ entry_task entry = task_name
    ∧ task_steps (train_state w') !! task_name = Some (entry_task_step entry)
    ∧ entry_global_step entry = global_steps (train_state w')
    ∧ length (scaled_losses delta) = Z.to_nat (gradient_accumulation_steps config)
    ∧ entry_loss_val entry
      = (Torch.rsum (scaled_losses delta) / IZR (gradient_accumulation_steps config))%R.
Proof.
  intros Hsampled Hconfig Hcursor HN Hv.
  destruct (run_train_step_until_zero_grad C self train_dataloader_dict w task_name
              cursor task config Hsampled Hconfig Hcursor)
    as (seen & w1 & delta & Hrun & (Ht & Hs & _ & _) & _ & Hlosses & Hlen).
  rewrite (step_and_log_run task_name config _ w1 v) in Hrun by (rewrite ?Hs; done || lia).
  eexists _, ([EvTrain Student; EvSamplerPop] ++ delta
              ++ [EvOptimizerSchedulerStep; EvOptimizerZeroGrad]), _.
  split; [exact Hrun|]. cbn [trace train_state with_trace with_train_state
    task_steps global_steps entry_task entry_task_step entry_global_step entry_loss_val].
  rewrite Hs, Ht.
  assert (scaled_losses ([EvTrain Student; EvSamplerPop] ++ delta
                         ++ [EvOptimizerSchedulerStep; EvOptimizerZeroGrad]) = seen.*2)
    as Hscaled.
  { rewrite !scaled_losses_app, Hlosses. simpl. by rewrite app_nil_r. }
  rewrite Hscaled, length_fmap.
  split; [rewrite <- (app_assoc (trace w)); reflexivity|].
  cbn [entry_task entry_task_step entry_global_step entry_loss_val].
  rewrite lookup_insert_eq, Rplus_0_l. done.
Qed.

Lemma log_record_reports_the_advanced_state_and_mean_loss_witness :
  ∃ (w' : World) (delta : list Event) (entry : LossTrainEntry),
    JiantRunner.run_train_step example_collaborators (example_runner [])
      example_dataloader_dict example_world = (Ok tt, w')
    ∧ trace w' = trace example_world ++ delta ++ [EvWriteEntry "loss_train" entry]
    ∧ task_steps (train_state w') !! "rte" = Some (0 + 1)
    ∧ global_steps (train_state w') = global_steps (train_state example_world) + 1
    ∧ entry_task entry = "rte"
    ∧ task_steps (train_state w') !! "rte" = Some (entry_task_step entry)
    ∧ entry_global_step entry = global_steps (train_state w')
    ∧ length (scaled_losses delta)
      = Z.to_nat (gradient_accumulation_steps (mkTaskSpecificConfig 8 8 500 1))
    ∧ entry_loss_val entry
      = (Torch.rsum (scaled_losses delta)
         / IZR (gradient_accumulation_steps (mkTaskSpecificConfig 8 8 500 1)))%R.
Proof.
  apply (log_record_reports_the_advanced_state_and_mean_loss example_collaborators
           (example_runner []) example_dataloader_dict example_world
           "rte" "rte/train" rte (mkTaskSpecificConfig 8 8 500 1) 0).
  - reflexivity.
  - reflexivity.
  - reflexivity.
  - simpl. lia.
  - reflexivity.
Defined.

Section L2TWWTrainStepFacts.

Variables (C : Collaborators) (self : L2TWWRunner.t).
Variables (train_dataloader_dict : gmap string string) (w : World).
Variables (task_name cursor : string) (task : Task) (config : TaskSpecificConfig).
Hypothesis sampled :
  task_sampler_pop C (trace w ++ [EvTrain Student]) = (task_name, task).
Hypothesis configured :
  task_specific_configs (JiantRunner.jiant_task_container (L2TWWRunner.base self))
    !! task_name = Some config.
Hypothesis cursor_known : train_dataloader_dict !! task_name = Some cursor.

(** [L2TWWRunner.run_train_step] up to line 389. *)
Lemma accumulate_and_step_run :
  ∃ (loss_val : R) (meta_batches : list Batch) (w1 : World) (delta : list Event),
    L2TWWRunner.accumulate_and_step C self train_dataloader_dict w
    = (Ok (task_name, task, config, loss_val, meta_batches), w1)
    ∧ after_events w
        ([EvTrain Student; EvSamplerPop] ++ delta
         ++ [EvOptimizerSchedulerStep; EvOptimizerZeroGrad]) w1
    ∧ Forall leaves_optimizer_alone delta
    ∧ length meta_batches = Z.to_nat (gradient_accumulation_steps config).
Proof.
  set (w0 := with_trace (λ t, t ++ [EvSamplerPop])
               (with_trace (λ t, t ++ [EvTrain Student]) w)).
  destruct (accumulation_loop C (L2TWWRunner.base self) train_dataloader_dict task_name
              cursor task (gradient_accumulation_steps config) cursor_known
              (λ (acc : R * list Batch) (batch : Batch) (l : R),
                 ((acc.1 + l)%R, acc.2 ++ [batch]))
              (Z.to_nat (gradient_accumulation_steps config)) 0%nat (0%R, []) w0)
    as (seen & w1 & delta & Hloop & Hw1 & Hquiet & Hlosses & Hlen).
  rewrite foldl_sum_and_keep in Hloop.
  exists (0 + Torch.rsum seen.*2)%R, ([] ++ seen.*1),
    (with_trace (λ t, t ++ [EvOptimizerZeroGrad])
       (with_trace (λ t, t ++ [EvOptimizerSchedulerStep]) w1)), delta.
  split; [| split; [| split; [done|]]].
  - unfold L2TWWRunner.accumulate_and_step.
    erewrite bind_ok by reflexivity.
    erewrite bind_ok by reflexivity.
    cbn [trace with_trace]. rewrite sampled.
    erewrite bind_ok by (unfold lift, getitem; rewrite configured; reflexivity).
    erewrite bind_ok.
    2:{ rewrite <- Hloop. apply for_fold_ext. by intros [loss_val kept] i s. }
    reflexivity.
  - destruct Hw1 as (Ht & Hs & Hp & Hn). subst w0. simpl in Ht, Hs, Hp, Hn.
    repeat split; simpl; [| done..].
    rewrite Ht. by rewrite <- !app_assoc.
  - simpl. by rewrite length_fmap.
Qed.

End L2TWWTrainStepFacts.

Lemma leaves_optimizer_alone_counts (delta : list Event) :
  Forall leaves_optimizer_alone delta →
  count_events is_optimizer_step delta = 0%nat
  ∧ count_events is_optimizer_scheduler_step delta = 0%nat
  ∧ count_events is_zero_grad delta = 0%nat.
Proof.
  intros Hall. repeat split; apply count_events_none;
    (eapply Forall_impl; [exact Hall|]); intros e [Hstep Hzero]; try done.
  by destruct e.
Qed.

(** C2, as the code has it.  When the sampled task has a configuration and
    a cursor, [JiantRunner.run_train_step] causes exactly one optimizer
    step and exactly one gradient zeroing, whatever the number N of
    accumulation steps.  [L2TWWRunner.run_train_step] calls
    [optimizer_scheduler.step] exactly once as well, but zeroes the
    gradients of the primary optimizer once after its accumulation loop and
    again in [run_inner_loop] for the batches it kept: at least twice as
    soon as N >= 1. *)
Theorem optimizer_steps_of_a_train_step
    (C : Collaborators) (self : JiantRunner.t)
    (train_dataloader_dict : gmap string string) (w : World)
    (task_name cursor : string) (task : Task) (config : TaskSpecificConfig) :
  task_sampler_pop C (trace w ++ [EvTrain Student]) = (task_name, task) →
  task_specific_configs (JiantRunner.jiant_task_container self) !! task_name = Some config →
  train_dataloader_dict !! task_name = Some cursor →
  (∃ delta,
     trace (JiantRunner.run_train_step C self train_dataloader_dict w).2 = trace w ++ delta
     ∧ count_events is_optimizer_step delta = 1%nat
     ∧ count_events is_zero_grad delta = 1%nat)
  ∧ (∃ delta,
       trace (L2TWWRunner.run_train_step C (L2TWWRunner.mk self) train_dataloader_dict w).2
       = trace w ++ delta
       ∧ count_events is_optimizer_scheduler_step delta = 1%nat
       ∧ (1 ≤ count_events is_zero_grad delta)%nat
       ∧ (1 ≤ gradient_accumulation_steps config →
          (2 ≤ count_events is_zero_grad delta)%nat)).
Proof.
  intros Hsampled Hconfig Hcursor. split.
  - destruct (run_train_step_until_zero_grad C self train_dataloader_dict w task_name
                cursor task config Hsampled Hconfig Hcursor)
      as (seen & w1 & delta & Hrun & (Ht & _) & Hquiet & _).
    destruct (step_and_log_leaves_optimizer_alone task_name config
                (0 + Torch.rsum seen.*2) w1) as (rest & Hrest & Hquiet' & _).
    rewrite Hrun, Hrest, Ht.
    exists (([EvTrain Student; EvSamplerPop] ++ delta
             ++ [EvOptimizerSchedulerStep; EvOptimizerZeroGrad]) ++ rest).
    split; [by rewrite <- !app_assoc|].
    destruct (leaves_optimizer_alone_counts delta Hquiet) as (Hd1 & _ & Hd2).
    destruct (leaves_optimizer_alone_counts rest Hquiet') as (Hr1 & _ & Hr2).
    rewrite !count_events_app, Hd1, Hd2, Hr1, Hr2. done.
  - destruct (accumulate_and_step_run C (L2TWWRunner.mk self) train_dataloader_dict w
                task_name cursor task config Hsampled Hconfig Hcursor)
      as (loss_val & meta_batches & w1 & delta & Hrun & (Ht & _) & Hquiet & Hlen).
    destruct (leaves_optimizer_alone_counts delta Hquiet) as (_ & Hd1 & Hd2).
    unfold L2TWWRunner.run_train_step. erewrite bind_ok by exact Hrun.
    destruct meta_batches as [|batch meta_batches].
    + (* nothing was kept: the inner loop does not zero anything *)
      erewrite bind_ok by reflexivity.
      destruct (step_and_log_leaves_optimizer_alone task_name config loss_val
                  (with_trace (λ t, t ++ [EvEval Teacher]) w1))
        as (rest & Hrest & Hquiet' & _).
      destruct (leaves_optimizer_alone_counts rest Hquiet') as (_ & Hr1 & Hr2).
      rewrite Hrest. cbn [trace with_trace]. rewrite Ht.
      exists (([EvTrain Student; EvSamplerPop] ++ delta
               ++ [EvOptimizerSchedulerStep; EvOptimizerZeroGrad])
              ++ [EvEval Teacher] ++ rest).
      split; [by rewrite <- !app_assoc|].
      rewrite !count_events_app, Hd1, Hd2, Hr1, Hr2.
      repeat split; [done|]. simpl in Hlen. lia.
    + (* the first kept batch: the inner step zeroes the gradients again *)
      destruct (inner_step_raises C (L2TWWRunner.mk self) batch task
                  (with_trace (λ t, t ++ [EvEval Teacher]) w1)) as [e Hinner].
      erewrite bind_raise.
      2:{ rewrite run_inner_loop_cons. simpl for_each.
          erewrite bind_raise by exact Hinner. reflexivity. }
      cbn [snd trace with_trace]. rewrite Ht.
      exists (([EvTrain Student; EvSamplerPop] ++ delta
               ++ [EvOptimizerSchedulerStep; EvOptimizerZeroGrad])
              ++ [EvEval Teacher; EvOptimizerZeroGrad;
                  EvForward Student batch true false; EvForward Teacher batch true true]).
      split; [by rewrite <- !app_assoc|].
      rewrite !count_events_app, Hd1, Hd2.
      repeat split; intros; vm_compute; lia.
Qed.

Lemma optimizer_steps_of_a_train_step_witness :
  (∃ delta,
     trace (JiantRunner.run_train_step example_collaborators (example_runner [])
              example_dataloader_dict example_world).2 = trace example_world ++ delta
     ∧ count_events is_optimizer_step delta = 1%nat
     ∧ count_events is_zero_grad delta = 1%nat)
  ∧ (∃ delta,
       trace (L2TWWRunner.run_train_step example_collaborators
                (L2TWWRunner.mk (example_runner [])) example_dataloader_dict
                example_world).2 = trace example_world ++ delta
       ∧ count_events is_optimizer_scheduler_step delta = 1%nat
       ∧ (1 ≤ count_events is_zero_grad delta)%nat
       ∧ (1 ≤ gradient_accumulation_steps (mkTaskSpecificConfig 8 8 500 1) →
          (2 ≤ count_events is_zero_grad delta)%nat)).
Proof.
  apply (optimizer_steps_of_a_train_step example_collaborators (example_runner [])
           example_dataloader_dict example_world "rte" "rte/train" rte
           (mkTaskSpecificConfig 8 8 500 1)); reflexivity.
Defined.

(** C2 as stated fails for [L2TWWRunner]: with one accumulation step, one
    call of [run_train_step] zeroes the gradients of the primary optimizer
    twice, at line 389 and at line 342. *)
Lemma l2tww_train_step_zeroes_gradients_twice :
  count_events is_zero_grad
    (trace (L2TWWRunner.run_train_step example_collaborators
              (L2TWWRunner.mk (example_runner [])) example_dataloader_dict
              example_world).2) = 2%nat
  ∧ count_events is_zero_grad
      (trace (L2TWWRunner.run_train_step example_collaborators
                (L2TWWRunner.mk (example_runner [])) example_dataloader_dict
                example_world).2) ≠ 1%nat.
Proof.
  assert (trace (L2TWWRunner.run_train_step example_collaborators
                   (L2TWWRunner.mk (example_runner [])) example_dataloader_dict
                   example_world).2
          = [EvTrain Student; EvSamplerPop; EvCursorPop "rte/train";
             EvForward Student (mkBatch [1; 2]%nat "cuda") true false;
             EvBackward TaskLoss (1 / IZR 1)%R; EvClipGradNorm;
             EvOptimizerSchedulerStep; EvOptimizerZeroGrad;
             EvEval Teacher; EvOptimizerZeroGrad;
             EvForward Student (mkBatch [1; 2]%nat "cuda") true false;
             EvForward Teacher (mkBatch [1; 2]%nat "cuda") true true]) as ->
    by reflexivity.
  split; [reflexivity | discriminate].
Qed.

(** * Further properties of the code *)

(** ** TrainState: what the counters count *)

Lemma zero_counters_lookup (names : list string) (name : string) :
  TrainState.zero_counters names !! name
  = if decide (name ∈ names) then Some 0 else None.
Proof.
  case_decide as Hin.
  - assert (name ∈ dom (TrainState.zero_counters names)) as Hd.
    { rewrite dom_zero_counters. by apply elem_of_list_to_set. }
    apply elem_of_dom in Hd as [v Hv]. rewrite Hv. f_equal.
    by apply (zero_counters_values names name).
  - apply not_elem_of_dom. rewrite dom_zero_counters. by rewrite elem_of_list_to_set.
Qed.

(** X1. [from_task_name_list] gives the global counter 0 and a counter 0 to
    exactly the names of the list, however often a name is repeated. *)
Theorem from_task_name_list_zeroes_exactly_the_names (names : list string) (name : string) :
  global_steps (TrainState.from_task_name_list names) = 0
  ∧ task_steps (TrainState.from_task_name_list names) !! name
    = if decide (name ∈ names) then Some 0 else None.
Proof. split; [reflexivity | apply zero_counters_lookup]. Qed.

Lemma steps_cons (c : string) (calls : list string) (st : TrainState) :
  TrainState.steps (c :: calls) st
  = match TrainState.step c st with
    | (Ok _, st') => TrainState.steps calls st'
    | (Raise e, st') => (Raise e, st')
    end.
Proof. reflexivity. Qed.

Lemma steps_count (calls : list string) : ∀ st st',
  TrainState.steps calls st = (Ok tt, st') →
  global_steps st' = global_steps st + Z.of_nat (length calls)
  ∧ ∀ name v, task_steps st !! name = Some v →
      task_steps st' !! name
      = Some (v + Z.of_nat (length (filter (λ c, c = name) calls))).
Proof.
  induction calls as [|c calls IH]; intros st st' Hrun.
  - inversion Hrun; subst. split; [simpl; lia|]. intros name v Hv.
    rewrite Hv. f_equal. simpl. lia.
  - rewrite steps_cons in Hrun.
    destruct (task_steps st !! c) as [vc|] eqn:Hc.
    2:{ rewrite (step_unknown st c Hc) in Hrun. discriminate. }
    rewrite (step_known st c vc Hc) in Hrun.
    apply IH in Hrun as [Hglobal Htasks]. simpl in Hglobal, Htasks.
    split; [rewrite Hglobal; simpl length; lia|].
    intros name v Hv. destruct (decide (c = name)) as [->|Hne].
    + rewrite filter_cons_True by done.
      rewrite (Htasks name (v + 1)).
      * f_equal. simpl length. lia.
      * rewrite lookup_insert_eq. congruence.
    + rewrite filter_cons_False by done.
      apply Htasks. by rewrite lookup_insert_ne.
Qed.

(** X2. After a sequence of [step] calls that all succeeded on a state made
    by [from_task_name_list], [global_steps] is the number of calls and the
    counter of each task is the number of calls made for it. *)
Theorem counters_count_the_calls (names calls : list string) (st : TrainState) :
  TrainState.steps calls (TrainState.from_task_name_list names) = (Ok tt, st) →
  global_steps st = Z.of_nat (length calls)
  ∧ ∀ name, name ∈ names →
      task_steps st !! name = Some (Z.of_nat (length (filter (λ c, c = name) calls))).
Proof.
  intros Hrun. apply steps_count in Hrun as [Hglobal Htasks].
  split; [simpl in Hglobal; lia|].
  intros name Hin.
  rewrite (Htasks name 0); [f_equal; lia|].
  simpl. rewrite zero_counters_lookup. by rewrite decide_True.
Qed.

Lemma counters_count_the_calls_witness :
  ∃ st,
    TrainState.steps ["rte"; "mnli"; "rte"]
      (TrainState.from_task_name_list ["mnli"; "rte"; "mnli"]) = (Ok tt, st)
    ∧ global_steps st = 3
    ∧ task_steps st !! "rte" = Some 2
    ∧ task_steps st !! "mnli" = Some 1.
Proof.
  eexists. split; [reflexivity|].
  destruct (counters_count_the_calls ["mnli"; "rte"; "mnli"] ["rte"; "mnli"; "rte"] _
              eq_refl) as [Hglobal Htasks].
  split; [exact Hglobal|].
  split; [apply (Htasks "rte") | apply (Htasks "mnli")]; set_solver.
Defined.

Lemma steps_app (before after : list string) : ∀ st,
  TrainState.steps (before ++ after) st
  = match TrainState.steps before st with
    | (Ok _, st') => TrainState.steps after st'
    | (Raise e, st') => (Raise e, st')
    end.
Proof.
  induction before as [|c before IH]; intros st; [reflexivity|].
  rewrite <- app_comm_cons, !steps_cons.
  destruct (TrainState.step c st) as [[[]|e] st']; [apply IH | reflexivity].
Qed.

(** X3. A sequence of [step] calls stops at the first name that is not in
    the list the state was made from: the calls before it have been
    counted, the [KeyError] names the unknown task, and the calls after it
    are not made. *)
Theorem steps_stop_at_the_first_unknown_name
    (names before after : list string) (unknown : string) :
  Forall (λ c, c ∈ names) before →
  unknown ∉ names →
  ∃ st,
    TrainState.steps before (TrainState.from_task_name_list names) = (Ok tt, st)
    ∧ TrainState.steps (before ++ unknown :: after) (TrainState.from_task_name_list names)
      = (Raise (KeyError unknown), st).
Proof.
  intros Hknown Hunknown.
  destruct (steps_known before (TrainState.from_task_name_list names))
    as (st & Hrun & Hdom & _).
  { eapply Forall_impl; [exact Hknown|]. intros c Hc. simpl.
    rewrite dom_zero_counters. by apply elem_of_list_to_set. }
  exists st. split; [exact Hrun|].
  rewrite steps_app, Hrun, steps_cons, step_unknown; [reflexivity|].
  apply not_elem_of_dom. rewrite Hdom. simpl. rewrite dom_zero_counters.
  by rewrite elem_of_list_to_set.
Qed.

Lemma steps_stop_at_the_first_unknown_name_witness :
  ∃ st,
    TrainState.steps ["rte"] (TrainState.from_task_name_list ["mnli"; "rte"]) = (Ok tt, st)
    ∧ TrainState.steps (["rte"] ++ "sst" :: ["mnli"])
        (TrainState.from_task_name_list ["mnli"; "rte"])
      = (Raise (KeyError "sst"), st).
Proof.
  apply (steps_stop_at_the_first_unknown_name ["mnli"; "rte"] ["rte"] ["mnli"] "sst").
  - repeat constructor; set_solver.
  - set_solver.
Defined.

(** ** The What and Where networks: what they accept and what they return *)

Lemma result_fold_range_inv {B} (I : nat → B → Prop) (body : B → nat → result B) :
  ∀ (n start : nat) (acc r : B),
    I start acc →
    (∀ i acc acc', (start ≤ i < start + n)%nat → I i acc →
       body acc i = Ok acc' → I (S i) acc') →
    result_fold (seq start n) acc body = Ok r →
    I (start + n)%nat r.
Proof.
  induction n as [|n IH]; intros start acc r Hacc Hbody Hrun.
  - simpl in Hrun. injection Hrun as <-. by rewrite Nat.add_0_r.
  - simpl in Hrun. destruct (body acc start) as [acc'|e] eqn:Hstep; [|done].
    simpl in Hrun.
    replace (start + S n)%nat with (S start + n)%nat by lia.
    apply (IH (S start) acc' r); [| | exact Hrun].
    + apply (Hbody start acc acc'); [lia | done | done].
    + intros i a a' Hi. apply Hbody. lia.
Qed.

Lemma result_fold_raises {A B} (xs : list A) (body : B → A → result B) (x : A) :
  x ∈ xs →
  (∀ acc, ∃ e, body acc x = Raise e) →
  ∀ acc, ∃ e, result_fold xs acc body = Raise e.
Proof.
  intros Hin Hraise. induction xs as [|y xs IH]; intros acc.
  - by apply elem_of_nil in Hin.
  - simpl. destruct (body acc y) as [acc'|e] eqn:Hstep; [|by exists e]. simpl.
    apply elem_of_cons in Hin as [->|Hin]; [|by apply IH].
    destruct (Hraise acc) as [e He]. congruence.
Qed.

Section SlotFacts.

Import Torch.

Lemma entry_nonneg (l : list R) (i : nat) :
  Forall (λ x, (0 <= x)%R) l → (0 <= entry l i)%R.
Proof.
  intros Hall. unfold entry.
  destruct (nth_in_or_default i l 0%R) as [Hin | ->]; [|lra].
  by apply (proj1 (Forall_forall _ _) Hall), list_elem_of_In.
Qed.

Lemma rows_nonneg (count width : nat) (l : list R) :
  Forall (λ x, (0 <= x)%R) l →
  Forall (λ r, Forall (λ x, (0 <= x)%R) r) (rows count width l).
Proof.
  intros Hall. unfold rows, row. apply Forall_fmap, Forall_forall. intros r _.
  apply Forall_fmap, Forall_forall. intros j _. by apply entry_nonneg.
Qed.

Lemma relu_nonneg (t : Tensor) : Forall (λ x, (0 <= x)%R) (data (relu t)).
Proof.
  unfold relu. simpl. apply Forall_fmap, Forall_forall. intros x _. simpl.
  apply Rmax_l.
Qed.

(** The rows that [softmax_dim1] followed by iteration makes of any matrix. *)
Lemma softmax_slots (a b : nat) (d : list R) :
  (0 < b)%nat →
  ∃ slices,
    (out ← softmax_dim1 {| shape := [a; b]; data := d |}; iterate out) = Ok slices
    ∧ length slices = a
    ∧ Forall (normalised_slot b) slices.
Proof.
  intros Hb. unfold softmax_dim1. simpl.
  set (ls := softmax_row <$> rows a b d).
  assert (length ls = a) as Hlen.
  { unfold ls, rows. by rewrite !length_fmap, length_seq. }
  assert (Forall (λ l, length l = b) ls) as Hwidth.
  { unfold ls, rows. rewrite <- list_fmap_compose. apply Forall_fmap, Forall_forall.
    intros r _. simpl. by rewrite length_softmax_row, length_row. }
  pose proof (rows_concat b ls Hwidth) as Hrows. rewrite Hlen in Hrows.
  unfold iterate. cbn [shape data].
  change (numel_of [b]) with (b * 1)%nat. rewrite Nat.mul_1_r, Hrows.
  eexists. split; [reflexivity|]. split; [by rewrite length_fmap|].
  apply Forall_fmap, Forall_forall. intros r Hr. split; [done|]. simpl.
  unfold ls in Hr. apply list_elem_of_fmap in Hr as (r0 & -> & Hr0).
  apply softmax_row_sums_to_one.
  unfold rows in Hr0. apply list_elem_of_fmap in Hr0 as (k & -> & _).
  intros Hnil. apply (f_equal length) in Hnil. rewrite length_row in Hnil.
  simpl in Hnil. lia.
Qed.

End SlotFacts.

(** X4. Whatever its layers and its input, every output the What network
    returns has one slot per teacher state and student layer, each a
    vector over the hidden dimension whose entries sum to 1 (for a hidden
    size of at least 1, in exact real arithmetic). *)
Theorem what_network_returns_normalised_slots
    (self : WhatNetwork.t) (teacher_states outputs : list Tensor) :
  (0 < WhatNetwork.hidden_size self)%nat →
  WhatNetwork.forward self teacher_states = Ok outputs →
  length outputs = (length teacher_states * WhatNetwork.student_num_layers self)%nat
  ∧ Forall (normalised_slot (WhatNetwork.hidden_size self)) outputs.
Proof.
  intros Hpos Hrun. unfold WhatNetwork.forward in Hrun.
  refine (result_fold_range_inv
            (λ i outputs,
               length outputs = (i * WhatNetwork.student_num_layers self)%nat
               ∧ Forall (normalised_slot (WhatNetwork.hidden_size self)) outputs)
            _ (length teacher_states) 0%nat [] outputs _ _ Hrun).
  - split; [done | constructor].
  - intros i acc acc' _ [Hlen Hall] Hstep.
    destruct (list_getitem "ModuleList" (WhatNetwork.what_network_linear self) i)
      as [layer|]; [|done]. simpl in Hstep.
    destruct (list_getitem "teacher_states" teacher_states i) as [state|]; [|done].
    simpl in Hstep.
    destruct (Torch.linear layer state) as [out|]; [|done]. simpl in Hstep.
    unfold Torch.reshape2 in Hstep. case_decide; [|done]. simpl in Hstep.
    destruct (softmax_slots (WhatNetwork.student_num_layers self)
                (WhatNetwork.hidden_size self) (data out) Hpos)
      as (slices & Hslices & Hslen & Hsall).
    unfold Torch.iterate in Hslices. simpl in Hslices.
    injection Hslices as <-. injection Hstep as <-.
    split; [rewrite length_app; lia | by apply Forall_app].
Qed.

Lemma what_network_returns_normalised_slots_witness :
  ∃ outputs,
    WhatNetwork.forward (WhatNetwork.init 2 1 3 (λ _ _ _, 1%R) (λ _ _, 0%R))
      [mkTensor [1%nat; 2%nat] [1%R; 2%R]] = Ok outputs
    ∧ length outputs = (1 * 3)%nat
    ∧ Forall (normalised_slot 2) outputs.
Proof.
  eexists. split; [reflexivity|].
  apply (what_network_returns_normalised_slots
           (WhatNetwork.init 2 1 3 (λ _ _ _, 1%R) (λ _ _, 0%R))
           [mkTensor [1%nat; 2%nat] [1%R; 2%R]]).
  - simpl. lia.
  - reflexivity.
Defined.

(** X5. Every importance weight the Where network returns is non-negative:
    its outputs are slices of a rectified projection. *)
Theorem where_network_weights_are_non_negative
    (self : WhereNetwork.t) (teacher_states outputs : list Tensor) :
  WhereNetwork.forward self teacher_states = Ok outputs →
  Forall (λ slice, Forall (λ x, (0 <= x)%R) (data slice)) outputs.
Proof.
  intros Hrun. unfold WhereNetwork.forward in Hrun.
  refine (result_fold_range_inv
            (λ _ outputs, Forall (λ slice, Forall (λ x, (0 <= x)%R) (data slice)) outputs)
            _ (WhereNetwork.teacher_num_layers self) 0%nat [] outputs _ _ Hrun);
    [constructor|].
  intros i acc acc' _ Hall Hstep.
  destruct (list_getitem "ModuleList" (WhereNetwork.where_network_linear self) i)
    as [layer|]; [|done]. simpl in Hstep.
  destruct (list_getitem "teacher_states" teacher_states i) as [state|]; [|done].
  simpl in Hstep.
  destruct (Torch.linear layer state) as [out|]; [|done]. simpl in Hstep.
  unfold Torch.iterate in Hstep.
  destruct (shape (Torch.squeeze (Torch.relu out))) as [|a rest]; [done|].
  simpl in Hstep. injection Hstep as <-.
  apply Forall_app. split; [done|].
  apply Forall_fmap.
  eapply Forall_impl; [apply rows_nonneg, relu_nonneg|]. done.
Qed.

Lemma where_network_weights_are_non_negative_witness :
  ∃ outputs,
    WhereNetwork.forward (WhereNetwork.init 2 1 2 (λ _ _ _, (-1)%R) (λ _ _, 1%R))
      [mkTensor [1%nat; 2%nat] [1%R; 2%R]] = Ok outputs
    ∧ Forall (λ slice, Forall (λ x, (0 <= x)%R) (data slice)) outputs.
Proof.
  eexists. split; [reflexivity|].
  apply (where_network_weights_are_non_negative
           (WhereNetwork.init 2 1 2 (λ _ _ _, (-1)%R) (λ _ _, 1%R))
           [mkTensor [1%nat; 2%nat] [1%R; 2%R]]).
  reflexivity.
Defined.

Lemma what_layer_lookup (h TL SL : nat) (w : nat → nat → nat → R) (b : nat → nat → R)
    (i : nat) :
  list_getitem "ModuleList"
    (WhatNetwork.what_network_linear (WhatNetwork.init h TL SL w b)) i
  = if decide (i < TL)%nat
    then Ok (Torch.mkLinear h (SL * h) (w i) (b i))
    else Raise (IndexError "ModuleList").
Proof.
  unfold list_getitem. simpl. rewrite list_lookup_fmap.
  case_decide.
  - by rewrite lookup_seq_lt.
  - by rewrite lookup_seq_ge by lia.
Qed.

Lemma where_layer_lookup (h TL SL : nat) (w : nat → nat → nat → R) (b : nat → nat → R)
    (i : nat) :
  list_getitem "ModuleList"
    (WhereNetwork.where_network_linear (WhereNetwork.init h TL SL w b)) i
  = if decide (i < TL)%nat
    then Ok (Torch.mkLinear h SL (w i) (b i))
    else Raise (IndexError "ModuleList").
Proof.
  unfold list_getitem. simpl. rewrite list_lookup_fmap.
  case_decide.
  - by rewrite lookup_seq_lt.
  - by rewrite lookup_seq_ge by lia.
Qed.

(** What the What network's projection and reshape accept: a state whose
    last dimension is the hidden size and whose other dimensions multiply
    to 1 (unless there is nothing to reshape). *)
Lemma what_projection_accepts (h SL : nat) (w : nat → nat → R) (b : nat → R)
    (state out : Tensor) :
  (out1 ← Torch.linear (Torch.mkLinear h (SL * h) w b) state;
   Torch.reshape2 out1 SL h) = Ok out →
  ∃ leading, shape state = leading ++ [h]
           ∧ (Torch.numel_of leading * (SL * h) = SL * h)%nat.
Proof.
  unfold Torch.linear. intros Hrun.
  destruct (reverse (shape state)) as [|d rleading] eqn:Hshape; [done|].
  simpl in Hrun. case_decide as Hd; [|done]. subst d. simpl in Hrun.
  unfold Torch.reshape2 in Hrun. simpl in Hrun. case_decide as Hnumel; [|done].
  exists (reverse rleading). split.
  - rewrite <- (reverse_involutive (shape state)), Hshape. by rewrite reverse_cons.
  - rewrite numel_of_app in Hnumel. simpl in Hnumel. lia.
Qed.

(** X6. The What network rejects a batch: when some teacher state holds
    more (or fewer) than one feature vector, that is, its dimensions before
    the last do not multiply to 1, the network raises, whatever the other
    states are (for at least one student layer and a hidden size of at
    least 1). *)
Theorem what_network_rejects_batches
    (h TL SL : nat) (w : nat → nat → nat → R) (b : nat → nat → R)
    (teacher_states : list Tensor) (i : nat) (state : Tensor) (leading : list nat)
    (last_dim : nat) :
  teacher_states !! i = Some state →
  shape state = leading ++ [last_dim] →
  Torch.numel_of leading ≠ 1%nat →
  (0 < SL * h)%nat →
  ∃ e, WhatNetwork.forward (WhatNetwork.init h TL SL w b) teacher_states = Raise e.
Proof.
  intros Hstate Hshape Hbatch Hpos. unfold WhatNetwork.forward.
  apply (result_fold_raises _ _ i).
  - apply elem_of_seq. apply lookup_lt_Some in Hstate. lia.
  - intros acc. rewrite what_layer_lookup.
    case_decide; [|by eexists]. simpl.
    unfold list_getitem at 1. rewrite Hstate. simpl.
    destruct (out1 ← Torch.linear (Torch.mkLinear h (SL * h) (w i) (b i)) state;
              Torch.reshape2 out1 SL h) as [out|e] eqn:Hproj.
    + apply what_projection_accepts in Hproj as (leading' & Hshape' & Hnumel).
      rewrite Hshape in Hshape'. apply app_inj_tail in Hshape' as [<- _].
      exfalso. apply Hbatch. nia.
    + simpl in Hproj.
      destruct (Torch.linear _ state) as [out1|e1]; [|by eexists].
      simpl in *. rewrite Hproj. by eexists.
Qed.

Lemma what_network_rejects_batches_witness :
  ∃ e, WhatNetwork.forward (WhatNetwork.init 2 2 3 (λ _ _ _, 1%R) (λ _ _, 0%R))
         [mkTensor [1; 2]%nat [1; 2]%R; mkTensor [4; 2]%nat [1; 2; 3; 4; 5; 6; 7; 8]%R]
       = Raise e.
Proof.
  apply (what_network_rejects_batches 2 2 3 (λ _ _ _, 1%R) (λ _ _, 0%R)
           [mkTensor [1; 2]%nat [1; 2]%R; mkTensor [4; 2]%nat [1; 2; 3; 4; 5; 6; 7; 8]%R]
           1 (mkTensor [4; 2]%nat [1; 2; 3; 4; 5; 6; 7; 8]%R) [4%nat] 2).
  - reflexivity.
  - reflexivity.
  - simpl. lia.
  - lia.
Defined.

(** X7. The two networks agree on one input length only.  The What network
    walks the states it is given and the Where network its own layers, so
    for networks built for the same number of teacher layers (as
    [L2TWWRunner.__init__] builds them) both return only when there is
    exactly one teacher state per teacher layer. *)
Theorem networks_need_one_state_per_teacher_layer
    (h TL SL : nat) (what_w where_w : nat → nat → nat → R)
    (what_b where_b : nat → nat → R)
    (teacher_states weights loss_weights : list Tensor) :
  WhatNetwork.forward (WhatNetwork.init h TL SL what_w what_b) teacher_states = Ok weights →
  WhereNetwork.forward (WhereNetwork.init h TL SL where_w where_b) teacher_states
    = Ok loss_weights →
  length teacher_states = TL.
Proof.
  intros Hwhat Hwhere.
  destruct (decide (length teacher_states = TL)) as [|Hne]; [done|]. exfalso.
  destruct (decide (TL < length teacher_states)%nat) as [Hmore|Hless].
  - (* a state without a layer *)
    unfold WhatNetwork.forward in Hwhat.
    destruct (result_fold_raises (seq 0 (length teacher_states))
                (λ outputs i,
                   layer ← list_getitem "ModuleList"
                             (WhatNetwork.what_network_linear
                                (WhatNetwork.init h TL SL what_w what_b)) i;
                   state ← list_getitem "teacher_states" teacher_states i;
                   out ← Torch.linear layer state;
                   out ← Torch.reshape2 out SL h;
                   out ← Torch.softmax_dim1 out;
                   slices ← Torch.iterate out;
                   mret (outputs ++ slices)) TL) with (acc := @nil Tensor) as [e He].
    + apply elem_of_seq. lia.
    + intros acc. rewrite what_layer_lookup, decide_False by lia. by eexists.
    + discriminate (eq_trans (eq_sym He) Hwhat).
  - (* a layer without a state *)
    unfold WhereNetwork.forward in Hwhere.
    destruct (result_fold_raises (seq 0 TL)
                (λ outputs i,
                   layer ← list_getitem "ModuleList"
                             (WhereNetwork.where_network_linear
                                (WhereNetwork.init h TL SL where_w where_b)) i;
                   state ← list_getitem "teacher_states" teacher_states i;
                   out ← Torch.linear layer state;
                   slices ← Torch.iterate (Torch.squeeze (Torch.relu out));
                   mret (outputs ++ slices)) (length teacher_states))
      with (acc := @nil Tensor) as [e He].
    + apply elem_of_seq. lia.
    + intros acc. rewrite where_layer_lookup, decide_True by lia. simpl.
      unfold list_getitem. rewrite lookup_ge_None_2 by lia. by eexists.
    + discriminate (eq_trans (eq_sym He) Hwhere).
Qed.

Lemma networks_need_one_state_per_teacher_layer_witness :
  ∃ weights loss_weights,
    WhatNetwork.forward (WhatNetwork.init 2 1 2 (λ _ _ _, 1%R) (λ _ _, 0%R))
      [mkTensor [1; 2]%nat [1; 2]%R] = Ok weights
    ∧ WhereNetwork.forward (WhereNetwork.init 2 1 2 (λ _ _ _, 1%R) (λ _ _, 0%R))
        [mkTensor [1; 2]%nat [1; 2]%R] = Ok loss_weights
    ∧ length [mkTensor [1; 2]%nat [1; 2]%R] = 1%nat.
Proof.
  do 2 eexists. split; [reflexivity|]. split; [reflexivity|].
  eapply (networks_need_one_state_per_teacher_layer 2 1 2
            (λ _ _ _, 1%R) (λ _ _ _, 1%R) (λ _ _, 0%R) (λ _ _, 0%R)
            [mkTensor [1; 2]%nat [1; 2]%R]); reflexivity.
Defined.

(** X8. The inline formula at its edges: without teacher states it returns
    the float 0.0 it started from; with a teacher state but no student
    state, [diff] is never assigned and line 325 raises. *)
Theorem matching_loop_without_states
    (weights loss_weights student_states : list Tensor)
    (teacher : Tensor) (teacher_states : list Tensor) :
  MetaWhatAndWhere.matching_loop weights loss_weights [] student_states
    = Ok (Torch.scalar 0)
  ∧ MetaWhatAndWhere.matching_loop weights loss_weights (teacher :: teacher_states) []
    = Raise (UnboundLocalError "diff").
Proof. split; reflexivity. Qed.

(** ** The inline matching loss on the networks' own outputs *)

Lemma result_fold_first {A B} (x : A) (xs : list A) (acc r : B) (body : B → A → result B) :
  result_fold (x :: xs) acc body = Ok r →
  ∃ acc1, body acc x = Ok acc1 ∧ result_fold xs acc1 body = Ok r.
Proof.
  simpl. destruct (body acc x) as [acc1|e]; [|done]. simpl. eauto.
Qed.

Lemma result_fold_extends {A B} (xs : list A) (body : list B → A → result (list B)) :
  (∀ acc x acc', body acc x = Ok acc' → acc `prefix_of` acc') →
  ∀ acc r, result_fold xs acc body = Ok r → acc `prefix_of` r.
Proof.
  intros Hbody. induction xs as [|x xs IH]; intros acc r Hrun.
  - simpl in Hrun. by injection Hrun as <-.
  - apply result_fold_first in Hrun as (acc1 & Hstep & Hrest).
    etrans; [by eapply Hbody | by apply IH].
Qed.

Lemma numel_of_one (l : list nat) :
  Torch.numel_of l = 1%nat → Forall (λ d, d = 1%nat) l.
Proof.
  induction l as [|d l IH]; [constructor|].
  change (Torch.numel_of (d :: l)) with (d * Torch.numel_of l)%nat. intros Hone.
  apply Nat.eq_mul_1 in Hone as [-> Hl]. constructor; [done | by apply IH].
Qed.

Section NetworkOutputs.

Variables (h TL SL : nat).
Variables (what_w where_w : nat → nat → nat → R) (what_b where_b : nat → nat → R).

(** Every slot of the What network is a vector over the hidden dimension,
    and there are student-layer-count of them per teacher state. *)
Lemma what_forward_shape (teacher_states weights : list Tensor) :
  WhatNetwork.forward (WhatNetwork.init h TL SL what_w what_b) teacher_states = Ok weights →
  length weights = (length teacher_states * SL)%nat
  ∧ Forall (λ t, shape t = [h]) weights.
Proof.
  intros Hrun. unfold WhatNetwork.forward in Hrun.
  refine (result_fold_range_inv
            (λ i outputs, length outputs = (i * SL)%nat
                          ∧ Forall (λ t, shape t = [h]) outputs)
            _ (length teacher_states) 0%nat [] weights _ _ Hrun).
  - split; [done | constructor].
  - intros i acc acc' _ [Hlen Hall] Hstep.
    destruct (list_getitem "ModuleList" _ i) as [layer|]; [|done]. simpl in Hstep.
    destruct (list_getitem "teacher_states" teacher_states i) as [state|]; [|done].
    simpl in Hstep.
    destruct (Torch.linear layer state) as [out|]; [|done]. simpl in Hstep.
    unfold Torch.reshape2 in Hstep. case_decide; [|done]. simpl in Hstep.
    injection Hstep as <-. split.
    + rewrite length_app, length_fmap. unfold Torch.rows.
      rewrite length_fmap, length_seq. lia.
    + apply Forall_app. split; [done|]. by apply Forall_fmap, Forall_forall.
Qed.

(** The first teacher state the What network accepted holds one feature
    vector. *)
Lemma what_first_state (state : Tensor) (teacher_states weights : list Tensor) :
  WhatNetwork.forward (WhatNetwork.init h TL SL what_w what_b) (state :: teacher_states)
    = Ok weights →
  (0 < SL * h)%nat →
  ∃ leading, shape state = leading ++ [h] ∧ Forall (λ d, d = 1%nat) leading.
Proof.
  intros Hrun Hpos. unfold WhatNetwork.forward in Hrun.
  change (seq 0 (length (state :: teacher_states)))
    with (0%nat :: seq 1 (length teacher_states)) in Hrun.
  apply result_fold_first in Hrun as (acc1 & Hstep & _).
  rewrite what_layer_lookup in Hstep. case_decide; [|done]. simpl in Hstep.
  destruct (out1 ← Torch.linear (Torch.mkLinear h (SL * h) (what_w 0%nat) (what_b 0%nat))
                     state;
            Torch.reshape2 out1 SL h) as [out|e] eqn:Hproj.
  - apply what_projection_accepts in Hproj as (leading & Hshape & Hnumel).
    exists leading. split; [done|]. apply numel_of_one. nia.
  - exfalso. simpl in Hproj.
    destruct (Torch.linear _ state) as [out1|e1]; [|done]. simpl in *.
    by rewrite Hproj in Hstep.
Qed.

(** The What network has a layer for the first state it accepted. *)
Lemma networks_first_layer_exists (state : Tensor) (teacher_states weights : list Tensor) :
  WhatNetwork.forward (WhatNetwork.init h TL SL what_w what_b) (state :: teacher_states)
    = Ok weights →
  (0 < TL)%nat.
Proof.
  intros Hrun. unfold WhatNetwork.forward in Hrun.
  change (seq 0 (length (state :: teacher_states)))
    with (0%nat :: seq 1 (length teacher_states)) in Hrun.
  apply result_fold_first in Hrun as (acc1 & Hstep & _).
  rewrite what_layer_lookup in Hstep. by case_decide.
Qed.

(** On a first teacher state that holds one feature vector, the first
    importance weight of the Where network is a scalar of rank 0. *)
Lemma where_first_weight (state : Tensor) (teacher_states loss_weights : list Tensor)
    (leading : list nat) (first : Tensor) :
  WhereNetwork.forward (WhereNetwork.init h TL SL where_w where_b)
    (state :: teacher_states) = Ok loss_weights →
  shape state = leading ++ [h] →
  Forall (λ d, d = 1%nat) leading →
  (0 < TL)%nat → (0 < SL)%nat →
  loss_weights !! 0%nat = Some first →
  shape first = [].
Proof.
  intros Hrun Hshape Hones HTL HSL Hfirst. unfold WhereNetwork.forward in Hrun.
  change (WhereNetwork.teacher_num_layers (WhereNetwork.init h TL SL where_w where_b))
    with TL in Hrun.
  destruct TL as [|TL']; [lia|].
  change (seq 0 (S TL')) with (0%nat :: seq 1 TL') in Hrun.
  apply result_fold_first in Hrun as (acc1 & Hstep & Hrest).
  apply result_fold_extends in Hrest as [rest ->].
  2:{ intros acc x acc' Hbody.
      destruct (list_getitem "ModuleList" _ x) as [layer|]; [|done]. simpl in Hbody.
      destruct (list_getitem "teacher_states" _ x) as [s|]; [|done]. simpl in Hbody.
      destruct (Torch.linear layer s) as [out|]; [|done]. simpl in Hbody.
      destruct (Torch.iterate _) as [slices|]; [|done]. simpl in Hbody.
      injection Hbody as <-. by apply prefix_app_r. }
  rewrite where_layer_lookup in Hstep. rewrite decide_True in Hstep by lia.
  simpl in Hstep. unfold Torch.linear in Hstep.
  rewrite Hshape, reverse_app in Hstep. simpl in Hstep.
  rewrite decide_True in Hstep by done. simpl in Hstep.
  unfold Torch.iterate, Torch.squeeze, Torch.relu in Hstep. simpl in Hstep.
  rewrite reverse_involutive, filter_app in Hstep.
  assert (filter (λ d, d ≠ 1%nat) leading = []) as Hnone.
  { clear -Hones. induction Hones as [|d l -> _ IH]; [done|].
    by rewrite filter_cons_False by (intros ?; done). }
  rewrite Hnone in Hstep. simpl in Hstep.
  destruct (decide (SL = 1%nat)) as [->|Hne].
  - rewrite filter_cons_False in Hstep by (intros ?; done). done.
  - rewrite filter_cons_True in Hstep by done. simpl in Hstep.
    injection Hstep as <-.
    unfold Torch.rows in Hfirst.
    destruct SL as [|SL']; [lia|]. simpl in Hfirst.
    by injection Hfirst as <-.
Qed.

End NetworkOutputs.

Ltac step_or_raise :=
  lazymatch goal with
  | |- ∃ e, mbind _ ?c = Raise e =>
      let H := fresh "Hstep" in
      destruct c eqn:H; [cbn [mbind result_bind] | by eexists]
  end.

(** X9. The inline formula (lines 318-326) cannot be evaluated on what the
    two networks return.  For networks built as [L2TWWRunner.__init__]
    builds them, at least one teacher state and at least one student
    state: whenever both networks return their weights, the loop raises in
    its first pair.  (A What slot is indexed by the student layer along
    the hidden dimension, and an importance weight, already a scalar, is
    indexed once more.) *)
Theorem matching_loop_raises_on_network_outputs
    (h TL SL : nat) (what_w where_w : nat → nat → nat → R)
    (what_b where_b : nat → nat → R)
    (teacher : Tensor) (teacher_states : list Tensor)
    (student : Tensor) (student_states : list Tensor)
    (weights loss_weights : list Tensor) :
  WhatNetwork.forward (WhatNetwork.init h TL SL what_w what_b) (teacher :: teacher_states)
    = Ok weights →
  WhereNetwork.forward (WhereNetwork.init h TL SL where_w where_b) (teacher :: teacher_states)
    = Ok loss_weights →
  ∃ e, MetaWhatAndWhere.matching_loop weights loss_weights
         (teacher :: teacher_states) (student :: student_states) = Raise e.
Proof.
  intros Hwhat Hwhere.
  assert (∃ e, MetaWhatAndWhere.pair_diff weights loss_weights
                 (teacher :: teacher_states) (student :: student_states) 0 0 = Raise e)
    as [e Hpair].
  { unfold MetaWhatAndWhere.pair_diff.
    change (list_getitem "teacher_states" (teacher :: teacher_states) 0) with (Ok teacher).
    change (list_getitem "student_states" (student :: student_states) 0) with (Ok student).
    cbn [mbind result_bind].
    step_or_raise. cbv zeta. step_or_raise. step_or_raise.
    destruct (what_forward_shape h TL SL what_w what_b _ _ Hwhat) as [Hlen Hshapes].
    unfold list_getitem.
    destruct (weights !! 0%nat) as [weights_m|] eqn:Hw0; [|by eexists].
    cbn [mbind result_bind].
    pose proof (proj1 (Forall_lookup _ _) Hshapes 0%nat weights_m Hw0) as Hwm.
    unfold Torch.getitem. rewrite Hwm.
    destruct (decide (0 < h)%nat) as [Hh|]; [|by eexists].
    cbn [mbind result_bind].
    step_or_raise. step_or_raise.
    destruct (loss_weights !! 0%nat) as [loss_weights_m|] eqn:Hl0; [|by eexists].
    cbn [mbind result_bind].
    assert (0 < SL)%nat as HSL.
    { apply lookup_lt_Some in Hw0. rewrite Hlen in Hw0. simpl in Hw0.
      destruct SL; [lia | lia]. }
    destruct (what_first_state h TL SL what_w what_b _ _ _ Hwhat ltac:(nia))
      as (leading & Hshape & Hones).
    assert (0 < TL)%nat as HTL.
    { pose proof (networks_first_layer_exists h TL SL what_w what_b _ _ _ Hwhat). lia. }
    rewrite (where_first_weight h TL SL where_w where_b _ _ _ leading loss_weights_m
               Hwhere Hshape Hones HTL HSL Hl0).
    by eexists. }
  exists e. unfold MetaWhatAndWhere.matching_loop.
  change (seq 0 (length (teacher :: teacher_states)))
    with (0%nat :: seq 1 (length teacher_states)).
  change (seq 0 (length (student :: student_states)))
    with (0%nat :: seq 1 (length student_states)).
  cbn [result_fold mbind result_bind]. rewrite Hpair. reflexivity.
Qed.

Lemma matching_loop_raises_on_network_outputs_witness :
  ∃ weights loss_weights e,
    WhatNetwork.forward (WhatNetwork.init 2 1 2 (λ _ _ _, 1%R) (λ _ _, 0%R))
      [mkTensor [1; 1; 1; 2]%nat [0; 0]%R] = Ok weights
    ∧ WhereNetwork.forward (WhereNetwork.init 2 1 2 (λ _ _ _, 1%R) (λ _ _, 0%R))
        [mkTensor [1; 1; 1; 2]%nat [0; 0]%R] = Ok loss_weights
    ∧ MetaWhatAndWhere.matching_loop weights loss_weights
        [mkTensor [1; 1; 1; 2]%nat [0; 0]%R] [mkTensor [1; 1; 1; 2]%nat [1; 1]%R]
      = Raise e.
Proof.
  destruct (matching_loop_raises_on_network_outputs 2 1 2
              (λ _ _ _, 1%R) (λ _ _ _, 1%R) (λ _ _, 0%R) (λ _ _, 0%R)
              (mkTensor [1; 1; 1; 2]%nat [0; 0]%R) []
              (mkTensor [1; 1; 1; 2]%nat [1; 1]%R) [] _ _ eq_refl eq_refl) as [e He].
  eexists _, _, e. split; [reflexivity|]. split; [reflexivity|]. exact He.
Defined.

(** ** The standalone evaluation functions on the primary rank *)

Lemma count_events_cons (p : Event → bool) (e : Event) (t : list Event) :
  count_events p (e :: t) = ((if p e then 1 else 0) + count_events p t)%nat.
Proof.
  unfold count_events. destruct (p e) eqn:He.
  - by rewrite filter_cons_True.
  - by rewrite filter_cons_False by congruence.
Qed.

Lemma count_events_nil (p : Event → bool) : count_events p [] = 0%nat.
Proof. reflexivity. Qed.

Ltac count_events :=
  rewrite ?count_events_app, ?count_events_cons, ?count_events_nil; cbn; lia.

Section EvaluationLoops.

Variables (C : Collaborators) (task : Task) (device : string).

(** The loop of [run_val] (lines 440-460). *)
Abbreviation val_loop dataloader start :=
  (for_fold dataloader start
     (λ '(total_eval_loss, nb_eval_steps, nb_eval_examples, eval_accumulator)
        '(batch, batch_metadata),
       let batch := batch_to batch device in
       model_output ← wrap_jiant_forward C Student batch task true true;
       let batch_logits := logits model_output in
       let batch_loss := loss model_output in
       let total_eval_loss := (total_eval_loss + batch_loss)%R in
       event EvAccumulatorUpdate;;
       let eval_accumulator :=
         eval_accumulator ++ [mkAccumulatorUpdate batch_logits batch_loss batch batch_metadata] in
       mret (total_eval_loss, nb_eval_steps + 1, nb_eval_examples + batch_len batch,
             eval_accumulator))).

(** The loop of [run_test] (lines 496-508). *)
Abbreviation test_loop dataloader start :=
  (for_fold dataloader start
     (λ eval_accumulator '(batch, batch_metadata),
       let batch := batch_to batch device in
       model_output ← wrap_jiant_forward C Student batch task false true;
       let batch_logits := logits model_output in
       event EvAccumulatorUpdate;;
       mret (eval_accumulator ++ [mkAccumulatorUpdate batch_logits 0 batch batch_metadata]))).

Lemma val_loop_run (dataloader : list (Batch * BatchMetadata)) :
  ∀ (total : R) (steps examples : Z) (accumulator : list AccumulatorUpdate) (w : World),
  ∃ (updates : list AccumulatorUpdate) (examples' : Z) (w' : World) (delta : list Event),
    val_loop dataloader (total, steps, examples, accumulator) w
    = (Ok ((total + Torch.rsum (batch_loss <$> updates))%R,
           steps + Z.of_nat (length dataloader), examples', accumulator ++ updates), w')
    ∧ after_events w delta w'
    ∧ Forall (λ e, is_evaluation_event e = true) delta
    ∧ count_events is_forward_pass delta = length dataloader
    ∧ update_batch <$> updates = (λ item, batch_to item.1 device) <$> dataloader
    ∧ update_batch_metadata <$> updates = snd <$> dataloader.
Proof.
  induction dataloader as [|[batch batch_metadata] dataloader IH];
    intros total steps examples accumulator w.
  - exists [], examples, w, []. simpl. rewrite Rplus_0_r.
    split; [by rewrite app_nil_r, Z.add_0_r|].
    split; [apply after_events_refl | done].
  - set (w1 := with_trace (λ t, t ++ [EvAccumulatorUpdate])
                 (with_trace (λ t, t ++ [EvForward Student (batch_to batch device) true true])
                    w)).
    set (output := forward_output C (trace w) Student (batch_to batch device) task true).
    set (update := mkAccumulatorUpdate (logits output) (loss output)
                     (batch_to batch device) batch_metadata).
    destruct (IH (total + loss output)%R (steps + 1)
                (examples + batch_len (batch_to batch device))
                (accumulator ++ [update]) w1)
      as (updates & examples' & w' & delta & Hrun & Hw' & Hquiet & Hcount & Hbatches & Hmeta).
    exists (update :: updates), examples', w',
      ([EvForward Student (batch_to batch device) true true; EvAccumulatorUpdate] ++ delta).
    split; [| split; [| split; [| split; [| split]]]].
    + cbn [for_fold]. erewrite bind_ok by reflexivity.
      etrans; [exact Hrun|].
      rewrite <- app_assoc, fmap_cons, rsum_cons. cbn [length app batch_loss update].
      rewrite Nat2Z.inj_succ, Rplus_assoc.
      by replace (steps + 1 + Z.of_nat (length dataloader))
        with (steps + Z.succ (Z.of_nat (length dataloader))) by lia.
    + eapply after_events_trans; [|exact Hw'].
      subst w1. repeat split. simpl. by rewrite <- app_assoc.
    + apply Forall_app. split; [by repeat constructor | done].
    + rewrite count_events_app, Hcount. reflexivity.
    + by rewrite !fmap_cons, Hbatches.
    + by rewrite !fmap_cons, Hmeta.
Qed.

Lemma test_loop_run (dataloader : list (Batch * BatchMetadata)) :
  ∀ (accumulator : list AccumulatorUpdate) (w : World),
  ∃ (updates : list AccumulatorUpdate) (w' : World) (delta : list Event),
    test_loop dataloader accumulator w = (Ok (accumulator ++ updates), w')
    ∧ after_events w delta w'
    ∧ Forall (λ e, is_evaluation_event e = true) delta
    ∧ count_events is_forward_pass delta = length dataloader
    ∧ Forall (λ e, ∀ model batch compute_loss no_grad,
                e = EvForward model batch compute_loss no_grad → compute_loss = false) delta
    ∧ Forall (λ update, batch_loss update = 0%R) updates
    ∧ update_batch <$> updates = (λ item, batch_to item.1 device) <$> dataloader.
Proof.
  induction dataloader as [|[batch batch_metadata] dataloader IH]; intros accumulator w.
  - exists [], w, []. simpl.
    split; [by rewrite app_nil_r|].
    split; [apply after_events_refl | done].
  - set (w1 := with_trace (λ t, t ++ [EvAccumulatorUpdate])
                 (with_trace (λ t, t ++ [EvForward Student (batch_to batch device) false true])
                    w)).
    set (output := forward_output C (trace w) Student (batch_to batch device) task false).
    set (update := mkAccumulatorUpdate (logits output) 0 (batch_to batch device)
                     batch_metadata).
    destruct (IH (accumulator ++ [update]) w1)
      as (updates & w' & delta & Hrun & Hw' & Hquiet & Hcount & Hnoloss & Hzero & Hbatches).
    exists (update :: updates), w',
      ([EvForward Student (batch_to batch device) false true; EvAccumulatorUpdate] ++ delta).
    split; [| split; [| split; [| split; [| split; [| split]]]]].
    + cbn [for_fold]. erewrite bind_ok by reflexivity.
      etrans; [exact Hrun|]. by rewrite <- app_assoc.
    + eapply after_events_trans; [|exact Hw'].
      subst w1. repeat split. simpl. by rewrite <- app_assoc.
    + apply Forall_app. split; [by repeat constructor | done].
    + rewrite count_events_app, Hcount. reflexivity.
    + apply Forall_app. split; [|done].
      repeat constructor; intros ? ? ? ? [=]; by subst.
    + by constructor.
    + by rewrite !fmap_cons, Hbatches.
Qed.

End EvaluationLoops.

(** X10. On the primary rank and a dataloader with at least one batch,
    the standalone [run_val] returns a result: it makes one forward pass
    per batch, each of the student without gradient tracking, feeds the
    accumulator every batch in order (moved to the device), and reports
    as loss the sum of the batch losses divided by the number of batches,
    the metrics of the accumulator against the labels, and predictions
    exactly when they were asked for.  Nothing but evaluation events is
    caused and the rest of the world is left as it was. *)
Theorem run_val_reports_the_mean_batch_loss
    (C : Collaborators) (val_dataloader : list (Batch * BatchMetadata))
    (val_labels : list Label) (task : Task) (device : string) (return_preds : bool)
    (w : World) :
  val_dataloader ≠ [] →
  ∃ (out : EvalOutput) (w' : World) (delta : list Event),
    run_val C val_dataloader val_labels task device (-1) return_preds w = (Ok (Some out), w')
    ∧ after_events w delta w'
    ∧ Forall (λ e, is_evaluation_event e = true) delta
    ∧ count_events is_forward_pass delta = length val_dataloader
    ∧ update_batch <$> out_accumulator out
      = (λ item, batch_to item.1 device) <$> val_dataloader
    ∧ out_loss out
      = Some (Torch.rsum (batch_loss <$> out_accumulator out)
              / IZR (Z.of_nat (length val_dataloader)))%R
    ∧ out_metrics out
      = Some (metrics_from_accumulator C task (out_accumulator out) val_labels)
    ∧ out_preds out
      = if return_preds
        then Some (preds_from_accumulator C task (out_accumulator out))
        else None.
Proof.
  intros Hbatches.
  set (w0 := with_trace (λ t, t ++ [EvGetAccumulator])
               (with_trace (λ t, t ++ [EvGetEvaluationScheme task])
                  (with_trace (λ t, t ++ [EvEval Student]) w))).
  destruct (val_loop_run C task device val_dataloader 0%R 0 0 [] w0)
    as (updates & examples & w1 & delta & Hloop & Hw1 & Hquiet & Hcount & Hmoved & _).
  assert (0 + Z.of_nat (length val_dataloader) ≠ 0) as Hsteps.
  { destruct val_dataloader; [done | simpl; lia]. }
  unfold run_val. rewrite bool_decide_true by done. cbn [negb].
  do 3 (erewrite bind_ok by reflexivity).
  erewrite bind_ok by exact Hloop. cbv beta iota zeta.
  erewrite bind_ok by (unfold lift, py_div; rewrite decide_False by exact Hsteps; reflexivity).
  erewrite bind_ok by reflexivity.
  assert (after_events w ([EvEval Student; EvGetEvaluationScheme task; EvGetAccumulator]
                          ++ delta) w1) as Hw.
  { eapply after_events_trans; [|exact Hw1]. subst w0. repeat split. simpl.
    by rewrite <- !app_assoc. }
  destruct return_preds.
  - erewrite bind_ok by reflexivity.
    eexists _, _, (([EvEval Student; EvGetEvaluationScheme task; EvGetAccumulator] ++ delta)
                   ++ [EvComputeMetrics; EvGetPreds]).
    split; [reflexivity|]. split; [| split; [| split; [| split]]].
    + eapply after_events_trans; [exact Hw|]. repeat split. simpl. by rewrite <- app_assoc.
    + repeat (apply Forall_app; split); by repeat constructor.
    + rewrite !count_events_app, Hcount. count_events.
    + exact Hmoved.
    + cbn [out_loss out_metrics out_preds out_accumulator app].
      rewrite Rplus_0_l, Z.add_0_l. done.
  - erewrite bind_ok by reflexivity.
    eexists _, _, (([EvEval Student; EvGetEvaluationScheme task; EvGetAccumulator] ++ delta)
                   ++ [EvComputeMetrics]).
    split; [reflexivity|]. split; [| split; [| split; [| split]]].
    + eapply after_events_trans; [exact Hw|]. by repeat split.
    + repeat (apply Forall_app; split); by repeat constructor.
    + rewrite !count_events_app, Hcount. count_events.
    + exact Hmoved.
    + cbn [out_loss out_metrics out_preds out_accumulator app].
      rewrite Rplus_0_l, Z.add_0_l. done.
Qed.

Lemma run_val_reports_the_mean_batch_loss_witness :
  ∃ (out : EvalOutput) (w' : World) (delta : list Event),
    run_val example_collaborators [(example_batch, 0%nat); (example_batch, 1%nat)]
      [0%nat; 1%nat] rte "cuda" (-1) true example_world = (Ok (Some out), w')
    ∧ after_events example_world delta w'
    ∧ Forall (λ e, is_evaluation_event e = true) delta
    ∧ count_events is_forward_pass delta
      = length [(example_batch, 0%nat); (example_batch, 1%nat)]
    ∧ update_batch <$> out_accumulator out
      = (λ item, batch_to item.1 "cuda")
          <$> [(example_batch, 0%nat); (example_batch, 1%nat)]
    ∧ out_loss out
      = Some (Torch.rsum (batch_loss <$> out_accumulator out)
              / IZR (Z.of_nat (length [(example_batch, 0%nat); (example_batch, 1%nat)])))%R
    ∧ out_metrics out
      = Some (metrics_from_accumulator example_collaborators rte (out_accumulator out)
                [0%nat; 1%nat])
    ∧ out_preds out
      = Some (preds_from_accumulator example_collaborators rte (out_accumulator out)).
Proof.
  apply (run_val_reports_the_mean_batch_loss example_collaborators
           [(example_batch, 0%nat); (example_batch, 1%nat)] [0%nat; 1%nat] rte "cuda" true
           example_world).
  discriminate.
Defined.

(** X11. On the primary rank and an empty dataloader, the standalone
    [run_val] raises [ZeroDivisionError] when it averages the loss (line
    461): the model has been put in evaluation mode and an accumulator
    made, but no metrics are computed and nothing is returned. *)
Theorem run_val_on_an_empty_dataloader_divides_by_zero
    (C : Collaborators) (val_labels : list Label) (task : Task) (device : string)
    (return_preds : bool) (w : World) :
  ∃ w',
    run_val C [] val_labels task device (-1) return_preds w = (Raise ZeroDivisionError, w')
    ∧ after_events w [EvEval Student; EvGetEvaluationScheme task; EvGetAccumulator] w'.
Proof.
  eexists. split; [reflexivity|]. repeat split. simpl. by rewrite <- !app_assoc.
Qed.

(** X12. On the primary rank the standalone [run_test] always returns a
    result, for an empty dataloader too: one forward pass per batch, of
    the student, without gradient tracking and without computing a loss;
    the accumulator is fed every batch in order with a batch loss of 0;
    the result has neither a loss nor metrics, and has predictions exactly
    when they were asked for. *)
Theorem run_test_returns_predictions_without_loss
    (C : Collaborators) (test_dataloader : list (Batch * BatchMetadata))
    (task : Task) (device : string) (return_preds : bool) (w : World) :
  ∃ (out : EvalOutput) (w' : World) (delta : list Event),
    run_test C test_dataloader task device (-1) return_preds w = (Ok (Some out), w')
    ∧ after_events w delta w'
    ∧ Forall (λ e, is_evaluation_event e = true) delta
    ∧ count_events is_forward_pass delta = length test_dataloader
    ∧ Forall (λ e, ∀ model batch compute_loss no_grad,
                e = EvForward model batch compute_loss no_grad → compute_loss = false) delta
    ∧ update_batch <$> out_accumulator out
      = (λ item, batch_to item.1 device) <$> test_dataloader
    ∧ Forall (λ update, batch_loss update = 0%R) (out_accumulator out)
    ∧ out_loss out = None
    ∧ out_metrics out = None
    ∧ out_preds out
      = if return_preds
        then Some (preds_from_accumulator C task (out_accumulator out))
        else None.
Proof.
  set (w0 := with_trace (λ t, t ++ [EvGetAccumulator])
               (with_trace (λ t, t ++ [EvGetEvaluationScheme task])
                  (with_trace (λ t, t ++ [EvEval Student]) w))).
  destruct (test_loop_run C task device test_dataloader [] w0)
    as (updates & w1 & delta & Hloop & Hw1 & Hquiet & Hcount & Hnoloss & Hzero & Hmoved).
  unfold run_test. rewrite bool_decide_true by done. cbn [negb].
  do 3 (erewrite bind_ok by reflexivity).
  erewrite bind_ok by exact Hloop.
  assert (after_events w ([EvEval Student; EvGetEvaluationScheme task; EvGetAccumulator]
                          ++ delta) w1) as Hw.
  { eapply after_events_trans; [|exact Hw1]. subst w0. repeat split. simpl.
    by rewrite <- !app_assoc. }
  destruct return_preds.
  - erewrite bind_ok by reflexivity.
    eexists _, _, (([EvEval Student; EvGetEvaluationScheme task; EvGetAccumulator] ++ delta)
                   ++ [EvGetPreds]).
    split; [reflexivity|]. split; [| split; [| split; [| split; [| split; [| split]]]]].
    + eapply after_events_trans; [exact Hw|]. by repeat split.
    + repeat (apply Forall_app; split); by repeat constructor.
    + rewrite !count_events_app, Hcount. count_events.
    + repeat (apply Forall_app; split); try done; by repeat constructor.
    + exact Hmoved.
    + exact Hzero.
    + done.
  - eexists _, _, ([EvEval Student; EvGetEvaluationScheme task; EvGetAccumulator] ++ delta).
    split; [reflexivity|]. split; [| split; [| split; [| split; [| split; [| split]]]]].
    + exact Hw.
    + repeat (apply Forall_app; split); by repeat constructor.
    + rewrite !count_events_app, Hcount. count_events.
    + repeat (apply Forall_app; split); try done; by repeat constructor.
    + exact Hmoved.
    + exact Hzero.
    + done.
Qed.

(** ** Evaluation through the runner *)

Section OnlyCauses.

Variable P : Event → Prop.

Lemma only_causes_ret {A} (a : A) : only_causes P (mret a : M World A).
Proof. intros w. exists []. split; [apply after_events_refl | done]. Qed.

Lemma only_causes_raise {A} (e : PyError) : only_causes P (raise e : M World A).
Proof. intros w. exists []. split; [apply after_events_refl | done]. Qed.

Lemma only_causes_lift {A} (r : result A) : only_causes P (lift r : M World A).
Proof. intros w. exists []. split; [apply after_events_refl | done]. Qed.

Lemma only_causes_get : only_causes P (get : M World World).
Proof. intros w. exists []. split; [apply after_events_refl | done]. Qed.

Lemma only_causes_event (e : Event) : P e → only_causes P (event e).
Proof.
  intros He w. exists [e]. split; [apply after_events_with_trace | by constructor].
Qed.

Lemma only_causes_bind {A B} (c : M World A) (k : A → M World B) :
  only_causes P c → (∀ a, only_causes P (k a)) → only_causes P (c ≫= k).
Proof.
  intros Hc Hk w. rewrite bind_state. destruct (Hc w) as (d1 & Hw1 & Hd1).
  destruct (c w) as [[a|e] w1]; simpl in *; [|by exists d1].
  destruct (Hk a w1) as (d2 & Hw2 & Hd2).
  exists (d1 ++ d2). split; [by eapply after_events_trans | by apply Forall_app].
Qed.

Lemma only_causes_ask {A} (answer : list Event → A) (e : Event) :
  P e → only_causes P (ask answer e).
Proof.
  intros He. unfold ask. apply only_causes_bind; [apply only_causes_get|].
  intros w. apply only_causes_bind; [by apply only_causes_event|].
  intros _. apply only_causes_ret.
Qed.

Lemma only_causes_for_fold {A B} (xs : list A) (body : B → A → M World B) :
  (∀ acc x, only_causes P (body acc x)) → ∀ acc, only_causes P (for_fold xs acc body).
Proof.
  intros Hbody. induction xs as [|x xs IH]; intros acc; simpl.
  - apply only_causes_ret.
  - apply only_causes_bind; [apply Hbody | intros acc'; apply IH].
Qed.

End OnlyCauses.

Ltac causes_step :=
  lazymatch goal with
  | |- only_causes _ (mbind _ _) => apply only_causes_bind; [| intros ?]
  | |- only_causes _ (mret _) => apply only_causes_ret
  | |- only_causes _ (raise _) => apply only_causes_raise
  | |- only_causes _ (lift _) => apply only_causes_lift
  | |- only_causes _ get => apply only_causes_get
  | |- only_causes _ (event _) => apply only_causes_event; done
  | |- only_causes _ (ask _ _) => apply only_causes_ask; done
  | |- only_causes _ (for_fold _ _ _) => apply only_causes_for_fold; intros ? ?
  | |- only_causes _ (wrap_jiant_forward _ _ _ _ _ _) => unfold wrap_jiant_forward
  | |- only_causes _ (if ?x then _ else _) => destruct x
  | |- only_causes _ (match ?x with _ => _ end) => destruct x
  | |- only_causes _ ((match ?x with _ => _ end) _) => destruct x
  end.

Ltac causes := repeat causes_step.

Lemma standalone_evaluation_only_evaluates (C : Collaborators)
    (dataloader : list (Batch * BatchMetadata)) (val_labels : list Label) (task : Task)
    (device : string) (local_rank : Z) (return_preds : bool) :
  only_causes (λ e, is_evaluation_event e = true)
    (run_val C dataloader val_labels task device local_rank return_preds)
  ∧ only_causes (λ e, is_evaluation_event e = true)
      (run_test C dataloader task device local_rank return_preds).
Proof. split; [unfold run_val | unfold run_test]; causes. Qed.

(** X13. Evaluation never trains.  From any world and for any task list
    and rank, whether they return or raise, [JiantRunner.run_val] and
    [JiantRunner.run_test] cause nothing but evaluation events:
    dataloaders built, label caches read, the student put in evaluation
    mode and run forward without gradient tracking, calls on the
    evaluation scheme.  No backward pass, no optimizer step, no log
    record; the training state, the teacher and the weighting networks are
    left as they were. *)
Theorem runner_evaluation_only_evaluates
    (C : Collaborators) (self : JiantRunner.t) (task_name_list : list string)
    (use_subset return_preds : bool) :
  only_causes (λ e, is_evaluation_event e = true)
    (JiantRunner.run_val C self task_name_list use_subset return_preds)
  ∧ only_causes (λ e, is_evaluation_event e = true)
      (JiantRunner.run_test C self task_name_list).
Proof.
  split.
  - unfold JiantRunner.run_val, JiantRunner.get_val_dataloader_dict,
      JiantRunner._get_eval_dataloader_dict, JiantRunner.get_val_labels_dict.
    do 2 (apply only_causes_bind; [causes | intros ?]).
    apply only_causes_for_fold. intros acc task_name.
    do 3 (apply only_causes_bind; [causes | intros ?]).
    apply only_causes_bind; [apply standalone_evaluation_only_evaluates | intros ?].
    causes.
  - unfold JiantRunner.run_test, JiantRunner.get_test_dataloader_dict,
      JiantRunner._get_eval_dataloader_dict.
    apply only_causes_bind; [causes | intros ?].
    apply only_causes_for_fold. intros acc task_name.
    do 2 (apply only_causes_bind; [causes | intros ?]).
    apply only_causes_bind;
      [apply (proj2 (standalone_evaluation_only_evaluates C _ [] _ _ _ _)) | intros ?].
    causes.
Qed.

Lemma lookup_foldl_insert {V} (f : string → V) (names : list string) :
  ∀ (acc : gmap string V) (k : string),
    foldl (λ d n, <[n := f n]> d) acc names !! k
    = if decide (k ∈ names) then Some (f k) else acc !! k.
Proof.
  induction names as [|n names IH]; intros acc k; cbn [foldl].
  - case_decide as Hin; [by apply elem_of_nil in Hin | done].
  - rewrite IH. destruct (decide (k ∈ names)) as [Hin|Hnin].
    + rewrite (decide_True (P := k ∈ n :: names)); [done | by right].
    + destruct (decide (k = n)) as [->|Hne].
      * rewrite (decide_True (P := n ∈ n :: names)) by left.
        by rewrite lookup_insert_eq.
      * rewrite (decide_False (P := k ∈ n :: names)).
        -- by rewrite lookup_insert_ne.
        -- intros [->|?]%elem_of_cons; done.
Qed.

Section EvalDicts.

Variables (C : Collaborators) (self : JiantRunner.t).

Abbreviation container := (JiantRunner.jiant_task_container self).

(** One pass of the loop of [_get_eval_dataloader_dict] (lines 185-194). *)
Abbreviation dataloader_step phase use_subset :=
  (λ (val_dataloader_dict : gmap string (list (Batch * BatchMetadata))) task_name,
    task ← lift (getitem (task_dict container) task_name);
    caches ← lift (getitem (task_cache_dict container) task_name);
    eval_cache ← lift (getitem caches phase);
    task_specific_config ← lift (getitem (task_specific_configs container) task_name);
    event (EvGetEvalDataloader task_name phase);;
    mret (<[task_name :=
             eval_dataloader C eval_cache task (eval_batch_size task_specific_config)
               (if use_subset then Some (eval_subset_num task_specific_config) else None)]>
          val_dataloader_dict)).

Lemma dataloader_step_ok (phase : string) (use_subset : bool) acc (task_name : string)
    loader (w : World) :
  eval_dataloader_for C container phase use_subset task_name = Some loader →
  dataloader_step phase use_subset acc task_name w
  = (Ok (<[task_name := loader]> acc),
     with_trace (λ t, t ++ [EvGetEvalDataloader task_name phase]) w).
Proof.
  unfold eval_dataloader_for. intros Hloader.
  destruct (task_dict container !! task_name) as [task|] eqn:Ht; [|done].
  simpl in Hloader.
  destruct (task_cache_dict container !! task_name) as [caches|] eqn:Hc; [|done].
  simpl in Hloader.
  destruct (caches !! phase) as [eval_cache|] eqn:Hp; [|done]. simpl in Hloader.
  destruct (task_specific_configs container !! task_name) as [config|] eqn:Hs; [|done].
  simpl in Hloader. injection Hloader as <-.
  erewrite bind_ok by (unfold lift, getitem; rewrite Ht; reflexivity).
  erewrite bind_ok by (unfold lift, getitem; rewrite Hc; reflexivity).
  erewrite bind_ok by (unfold lift, getitem; rewrite Hp; reflexivity).
  erewrite bind_ok by (unfold lift, getitem; rewrite Hs; reflexivity).
  reflexivity.
Qed.

Lemma dataloader_step_fails (phase : string) (use_subset : bool) acc (task_name : string)
    (w : World) :
  eval_dataloader_for C container phase use_subset task_name = None →
  ∃ k, dataloader_step phase use_subset acc task_name w = (Raise (KeyError k), w)
     ∧ (k = task_name ∨ k = phase).
Proof.
  unfold eval_dataloader_for. intros Hloader.
  destruct (task_dict container !! task_name) as [task|] eqn:Ht.
  2:{ exists task_name. split; [|by left]. apply bind_raise.
      unfold lift, getitem. by rewrite Ht. }
  erewrite bind_ok by (unfold lift, getitem; rewrite Ht; reflexivity).
  simpl in Hloader.
  destruct (task_cache_dict container !! task_name) as [caches|] eqn:Hc.
  2:{ exists task_name. split; [|by left]. apply bind_raise.
      unfold lift, getitem. by rewrite Hc. }
  erewrite bind_ok by (unfold lift, getitem; rewrite Hc; reflexivity).
  simpl in Hloader.
  destruct (caches !! phase) as [eval_cache|] eqn:Hp.
  2:{ exists phase. split; [|by right]. apply bind_raise.
      unfold lift, getitem. by rewrite Hp. }
  erewrite bind_ok by (unfold lift, getitem; rewrite Hp; reflexivity).
  simpl in Hloader.
  destruct (task_specific_configs container !! task_name) as [config|] eqn:Hs; [done|].
  exists task_name. split; [|by left]. apply bind_raise.
  unfold lift, getitem. by rewrite Hs.
Qed.

Lemma dataloader_loop_run (phase : string) (use_subset : bool) (names : list string) :
  Forall (λ n, is_Some (eval_dataloader_for C container phase use_subset n)) names →
  ∀ acc (w : World),
  ∃ w',
    for_fold names acc (dataloader_step phase use_subset) w
    = (Ok (foldl (λ d n, <[n := default [] (eval_dataloader_for C container phase
                                               use_subset n)]> d) acc names), w')
    ∧ after_events w ((λ n, EvGetEvalDataloader n phase) <$> names) w'.
Proof.
  induction 1 as [|n names [loader Hn] _ IH]; intros acc w.
  - exists w. split; [reflexivity | apply after_events_refl].
  - destruct (IH (<[n := loader]> acc)
                (with_trace (λ t, t ++ [EvGetEvalDataloader n phase]) w))
      as (w' & Hrun & Hw').
    exists w'. split.
    + cbn [for_fold foldl]. erewrite bind_ok by (by apply dataloader_step_ok).
      rewrite Hn. exact Hrun.
    + rewrite fmap_cons.
      apply (after_events_trans _ _ _ [_] _ (after_events_with_trace w _) Hw').
Qed.

End EvalDicts.

(** ** Evaluation of an empty task list *)

(** C7, as the code has it.  [JiantRunner.run_val] on an empty task list
    returns the empty mapping and leaves the world as it was: no
    collaborator is invoked.  [JiantRunner.run_test] on an empty task list
    builds its dataloaders from the configured [test_task_list], not from
    its argument: when the container has the task, the test cache and the
    configuration of every task of that list, it constructs the test
    dataloader of each of them, one per element and in the order of the
    list, does nothing else (no forward pass) and returns the empty
    mapping; it leaves the world as it was exactly when [test_task_list]
    is empty. *)
Theorem evaluation_of_an_empty_task_list
    (C : Collaborators) (self : JiantRunner.t) (use_subset return_preds : bool)
    (w : World) :
  JiantRunner.run_val C self [] use_subset return_preds w = (Ok ∅, w)
  ∧ (Forall (λ n, is_Some (eval_dataloader_for C (JiantRunner.jiant_task_container self)
                             (PHASE_TEST C) false n))
       (test_task_list (task_run_config (JiantRunner.jiant_task_container self))) →
     ∃ w',
       JiantRunner.run_test C self [] w = (Ok ∅, w')
       ∧ after_events w
           ((λ n, EvGetEvalDataloader n (PHASE_TEST C))
              <$> test_task_list (task_run_config (JiantRunner.jiant_task_container self)))
           w'
       ∧ (w' = w
          ↔ test_task_list (task_run_config (JiantRunner.jiant_task_container self)) = [])).
Proof.
  split; [reflexivity|]. intros Hall.
  destruct (dataloader_loop_run C self (PHASE_TEST C) false _ Hall ∅ w)
    as (w' & Hrun & Hw').
  exists w'. split; [| split; [exact Hw'|]].
  - unfold JiantRunner.run_test, JiantRunner.get_test_dataloader_dict,
      JiantRunner._get_eval_dataloader_dict.
    erewrite bind_ok by exact Hrun. reflexivity.
  - destruct Hw' as (Ht & Hs & Hp & Hn). split.
    + intros ->. rewrite <- (app_nil_r (trace w)) in Ht at 1.
      apply app_inv_head in Ht. symmetry in Ht. by apply fmap_nil_inv in Ht.
    + intros Hnone. rewrite Hnone, app_nil_r in Ht.
      destruct w, w'. simpl in *. congruence.
Qed.

Lemma evaluation_of_an_empty_task_list_witness :
  ∃ w',
    JiantRunner.run_test example_collaborators (example_runner ["rte"; "rte"]) []
      example_world = (Ok ∅, w')
    ∧ after_events example_world
        ((λ n, EvGetEvalDataloader n (PHASE_TEST example_collaborators))
           <$> test_task_list
                 (task_run_config
                    (JiantRunner.jiant_task_container (example_runner ["rte"; "rte"]))))
        w'
    ∧ (w' = example_world
       ↔ test_task_list
           (task_run_config
              (JiantRunner.jiant_task_container (example_runner ["rte"; "rte"]))) = []).
Proof.
  apply (proj2 (evaluation_of_an_empty_task_list example_collaborators
                  (example_runner ["rte"; "rte"]) false false example_world)).
  repeat constructor; by eexists.
Defined.

(** C7 as stated fails for [run_test]: with "rte" configured as a test
    task, evaluating the empty list still builds the "rte" test
    dataloader. *)
Lemma run_test_on_empty_list_builds_dataloaders :
  let run := JiantRunner.run_test example_collaborators (example_runner ["rte"]) []
               example_world in
  run.1 = Ok ∅
  ∧ trace run.2 = [EvGetEvalDataloader "rte" "test"]
  ∧ run ≠ (Ok ∅, example_world).
Proof.
  cbv zeta.
  assert (trace (JiantRunner.run_test example_collaborators (example_runner ["rte"]) []
                   example_world).2 = [EvGetEvalDataloader "rte" "test"]) as Htrace
    by reflexivity.
  split; [reflexivity|]. split; [exact Htrace|].
  intros Heq. rewrite Heq in Htrace. discriminate.
Qed.

(** X14. When the container has, for every name of the list, the task, its
    cache for the phase and its configuration, [_get_eval_dataloader_dict]
    builds one dataloader per element of the list, in the order of the
    list, and returns a dictionary whose keys are exactly the names of the
    list, each with the dataloader of its task (subset-capped exactly when
    [use_subset] is set). *)
Theorem eval_dataloader_dict_covers_the_task_list
    (C : Collaborators) (self : JiantRunner.t) (phase : string)
    (task_name_list : list string) (use_subset : bool) (w : World) :
  Forall (λ n, is_Some (eval_dataloader_for C (JiantRunner.jiant_task_container self)
                          phase use_subset n)) task_name_list →
  ∃ (val_dataloader_dict : gmap string (list (Batch * BatchMetadata))) (w' : World),
    JiantRunner._get_eval_dataloader_dict C self phase task_name_list use_subset w
    = (Ok val_dataloader_dict, w')
    ∧ after_events w ((λ n, EvGetEvalDataloader n phase) <$> task_name_list) w'
    ∧ ∀ task_name,
        val_dataloader_dict !! task_name
        = if decide (task_name ∈ task_name_list)
          then eval_dataloader_for C (JiantRunner.jiant_task_container self)
                 phase use_subset task_name
          else None.
Proof.
  intros Hall.
  destruct (dataloader_loop_run C self phase use_subset task_name_list Hall ∅ w)
    as (w' & Hrun & Hw').
  eexists _, w'. split; [exact Hrun|]. split; [exact Hw'|].
  intros task_name. rewrite lookup_foldl_insert.
  case_decide as Hin; [|apply lookup_empty].
  destruct (proj1 (Forall_forall _ _) Hall task_name Hin) as [loader ->]. done.
Qed.

Lemma eval_dataloader_dict_covers_the_task_list_witness :
  ∃ (val_dataloader_dict : gmap string (list (Batch * BatchMetadata))) (w' : World),
    JiantRunner._get_eval_dataloader_dict example_collaborators (example_runner [])
      "val" ["rte"; "rte"] true example_world = (Ok val_dataloader_dict, w')
    ∧ after_events example_world
        ((λ n, EvGetEvalDataloader n "val") <$> ["rte"; "rte"]) w'
    ∧ ∀ task_name,
        val_dataloader_dict !! task_name
        = if decide (task_name ∈ ["rte"; "rte"])
          then eval_dataloader_for example_collaborators
                 (JiantRunner.jiant_task_container (example_runner [])) "val" true task_name
          else None.
Proof.
  apply (eval_dataloader_dict_covers_the_task_list example_collaborators
           (example_runner []) "val" ["rte"; "rte"] true example_world).
  repeat constructor; by eexists.
Defined.

Lemma for_fold_app {S A B} (xs ys : list A) (body : B → A → M S B) :
  ∀ (acc : B) (s : S),
    for_fold (xs ++ ys) acc body s
    = match for_fold xs acc body s with
      | (Ok acc', s') => for_fold ys acc' body s'
      | (Raise e, s') => (Raise e, s')
      end.
Proof.
  induction xs as [|x xs IH]; intros acc s; [reflexivity|].
  rewrite <- app_comm_cons. cbn [for_fold]. unfold mbind, M_bind, bind.
  destruct (body acc x s) as [[acc'|e] s']; [apply IH | reflexivity].
Qed.

(** X15. [_get_eval_dataloader_dict] stops at the first name for which the
    container lacks the task, its cache for the phase or its
    configuration: it raises a [KeyError] for that name (or for the phase),
    having built the dataloaders of the names before it only, and returns
    no dictionary. *)
Theorem eval_dataloader_dict_stops_at_an_unknown_task
    (C : Collaborators) (self : JiantRunner.t) (phase : string)
    (before after : list string) (unknown : string) (use_subset : bool) (w : World) :
  Forall (λ n, is_Some (eval_dataloader_for C (JiantRunner.jiant_task_container self)
                          phase use_subset n)) before →
  eval_dataloader_for C (JiantRunner.jiant_task_container self) phase use_subset unknown
    = None →
  ∃ (key : string) (w' : World),
    JiantRunner._get_eval_dataloader_dict C self phase (before ++ unknown :: after)
      use_subset w = (Raise (KeyError key), w')
    ∧ (key = unknown ∨ key = phase)
    ∧ after_events w ((λ n, EvGetEvalDataloader n phase) <$> before) w'.
Proof.
  intros Hbefore Hunknown.
  destruct (dataloader_loop_run C self phase use_subset before Hbefore ∅ w)
    as (w' & Hrun & Hw').
  unfold JiantRunner._get_eval_dataloader_dict. rewrite for_fold_app, Hrun.
  destruct (dataloader_step_fails C self phase use_subset
              (foldl (λ d n, <[n := default [] (eval_dataloader_for C
                        (JiantRunner.jiant_task_container self) phase use_subset n)]> d)
                 ∅ before) unknown w' Hunknown) as (key & Hstep & Hkey).
  exists key, w'. split; [|done].
  cbn [for_fold]. by erewrite bind_raise by exact Hstep.
Qed.

Lemma eval_dataloader_dict_stops_at_an_unknown_task_witness :
  ∃ (key : string) (w' : World),
    JiantRunner._get_eval_dataloader_dict example_collaborators (example_runner [])
      "val" (["rte"] ++ "mnli" :: ["rte"]) false example_world = (Raise (KeyError key), w')
    ∧ (key = "mnli" ∨ key = "val")
    ∧ after_events example_world ((λ n, EvGetEvalDataloader n "val") <$> ["rte"]) w'.
Proof.
  apply (eval_dataloader_dict_stops_at_an_unknown_task example_collaborators
           (example_runner []) "val" ["rte"] ["rte"] "mnli" false example_world).
  - repeat constructor; by eexists.
  - reflexivity.
Defined.

Section ValLabels.

Variables (self : JiantRunner.t) (use_subset : bool).

(** One pass of the loop of [get_val_labels_dict] (lines 204-210). *)
Abbreviation labels_step :=
  (λ (val_labels_dict : gmap string (list Label)) task_name,
    task_specific_config ←
      lift (getitem (task_specific_configs (JiantRunner.jiant_task_container self))
              task_name);
    caches ← lift (getitem (task_cache_dict (JiantRunner.jiant_task_container self))
                     task_name);
    val_labels_cache ← lift (getitem caches "val_labels");
    event (EvCacheGetAll task_name);;
    let val_labels := val_labels_cache in
    let val_labels :=
      if use_subset then slice_to val_labels (eval_subset_num task_specific_config)
      else val_labels in
    mret (<[task_name := val_labels]> val_labels_dict)).

Lemma labels_step_ok acc (task_name : string) (labels : list Label) (w : World) :
  val_labels_for (JiantRunner.jiant_task_container self) use_subset task_name = Some labels →
  labels_step acc task_name w
  = (Ok (<[task_name := labels]> acc),
     with_trace (λ t, t ++ [EvCacheGetAll task_name]) w).
Proof.
  unfold val_labels_for. intros Hlabels.
  destruct (task_specific_configs _ !! task_name) as [config|] eqn:Hs; [|done].
  simpl in Hlabels.
  destruct (task_cache_dict _ !! task_name) as [caches|] eqn:Hc; [|done].
  simpl in Hlabels.
  destruct (caches !! "val_labels") as [cache|] eqn:Hl; [|done].
  simpl in Hlabels. injection Hlabels as <-.
  erewrite bind_ok by (unfold lift, getitem; rewrite Hs; reflexivity).
  erewrite bind_ok by (unfold lift, getitem; rewrite Hc; reflexivity).
  erewrite bind_ok
    by exact (f_equal (λ o, (match o with
                             | Some v => Ok v
                             | None => Raise (KeyError "val_labels")
                             end, w)) Hl).
  reflexivity.
Qed.

Lemma labels_loop_run (names : list string) :
  Forall (λ n, is_Some (val_labels_for (JiantRunner.jiant_task_container self)
                          use_subset n)) names →
  ∀ acc (w : World),
  ∃ w',
    for_fold names acc labels_step w
    = (Ok (foldl (λ d n, <[n := default [] (val_labels_for
                                               (JiantRunner.jiant_task_container self)
                                               use_subset n)]> d) acc names), w')
    ∧ after_events w (EvCacheGetAll <$> names) w'.
Proof.
  induction 1 as [|n names [labels Hn] _ IH]; intros acc w.
  - exists w. split; [reflexivity | apply after_events_refl].
  - destruct (IH (<[n := labels]> acc) (with_trace (λ t, t ++ [EvCacheGetAll n]) w))
      as (w' & Hrun & Hw').
    exists w'. split.
    + cbn [for_fold foldl]. erewrite bind_ok by (by apply labels_step_ok).
      rewrite Hn. exact Hrun.
    + rewrite fmap_cons.
      apply (after_events_trans _ _ _ [_] _ (after_events_with_trace w _) Hw').
Qed.

End ValLabels.

(** X16. Off the primary rank ([local_rank] other than -1),
    [JiantRunner.run_val] still builds the validation dataloader and reads
    the label cache of every task of the list, and only then skips the
    evaluation: it makes no forward pass and returns a dictionary that
    maps every name of the list to [None]. *)
Theorem run_val_off_the_primary_rank
    (C : Collaborators) (self : JiantRunner.t) (task_name_list : list string)
    (use_subset return_preds : bool) (w : World) :
  local_rank (JiantRunner.rparams self) ≠ -1 →
  Forall (λ n, is_Some (eval_dataloader_for C (JiantRunner.jiant_task_container self)
                          "val" use_subset n)) task_name_list →
  Forall (λ n, is_Some (val_labels_for (JiantRunner.jiant_task_container self)
                          use_subset n)) task_name_list →
  ∃ (evaluate_dict : gmap string (option EvalOutput)) (w' : World),
    JiantRunner.run_val C self task_name_list use_subset return_preds w
    = (Ok evaluate_dict, w')
    ∧ after_events w
        (((λ n, EvGetEvalDataloader n "val") <$> task_name_list)
         ++ (EvCacheGetAll <$> task_name_list)) w'
    ∧ ∀ task_name,
        evaluate_dict !! task_name
        = if decide (task_name ∈ task_name_list) then Some None else None.
Proof.
  intros Hrank Hloaders Hlabels.
  destruct (dataloader_loop_run C self "val" use_subset task_name_list Hloaders ∅ w)
    as (w1 & Hrun1 & Hw1).
  destruct (labels_loop_run self use_subset task_name_list Hlabels ∅ w1)
    as (w2 & Hrun2 & Hw2).
  set (loaders := foldl _ ∅ task_name_list) in Hrun1.
  set (labels := foldl _ ∅ task_name_list) in Hrun2.
  unfold JiantRunner.run_val, JiantRunner.get_val_dataloader_dict,
    JiantRunner._get_eval_dataloader_dict, JiantRunner.get_val_labels_dict.
  erewrite bind_ok by exact Hrun1. erewrite bind_ok by exact Hrun2.
  assert (∀ (names : list string) acc,
    Forall (λ n, n ∈ task_name_list) names →
    for_fold names acc
      (λ (evaluate_dict : gmap string (option EvalOutput)) task_name,
        task ← lift (getitem (task_dict (JiantRunner.jiant_task_container self)) task_name);
        val_dataloader ← lift (getitem loaders task_name);
        val_labels ← lift (getitem labels task_name);
        output ← run_val C val_dataloader val_labels task (JiantRunner.device self)
                   (local_rank (JiantRunner.rparams self)) return_preds;
        mret (<[task_name := output]> evaluate_dict)) w2
    = (Ok (foldl (λ d n, <[n := None]> d) acc names), w2)) as Hloop.
  { induction names as [|n names IH]; intros acc Hin; [reflexivity|].
    apply Forall_cons in Hin as [Hn Hin]. cbn [for_fold foldl].
    destruct (proj1 (Forall_forall _ _) Hloaders n Hn) as [loader Hloader].
    destruct (proj1 (Forall_forall _ _) Hlabels n Hn) as [labs Hlabs].
    assert (is_Some (task_dict (JiantRunner.jiant_task_container self) !! n)) as [task Ht].
    { unfold eval_dataloader_for in Hloader.
      destruct (task_dict _ !! n); [by eexists | done]. }
    erewrite bind_ok; [apply IH, Hin|].
    erewrite bind_ok by (unfold lift, getitem; rewrite Ht; reflexivity).
    erewrite bind_ok
      by (unfold lift, getitem, loaders; rewrite lookup_foldl_insert, decide_True by done;
          reflexivity).
    erewrite bind_ok
      by (unfold lift, getitem, labels; rewrite lookup_foldl_insert, decide_True by done;
          reflexivity).
    erewrite bind_ok
      by (unfold run_val; rewrite bool_decide_false by done; reflexivity).
    reflexivity. }
  eexists _, w2. split; [apply Hloop; by apply Forall_forall|].
  split; [by eapply after_events_trans|].
  intros task_name. rewrite lookup_foldl_insert. by rewrite lookup_empty.
Qed.

Lemma run_val_off_the_primary_rank_witness :
  ∃ (evaluate_dict : gmap string (option EvalOutput)) (w' : World),
    JiantRunner.run_val example_collaborators
      (JiantRunner.mk (example_container []) "cuda" (example_rparams 1))
      ["rte"] true true example_world = (Ok evaluate_dict, w')
    ∧ after_events example_world
        (((λ n, EvGetEvalDataloader n "val") <$> ["rte"]) ++ (EvCacheGetAll <$> ["rte"])) w'
    ∧ ∀ task_name,
        evaluate_dict !! task_name
        = if decide (task_name ∈ ["rte"]) then Some None else None.
Proof.
  apply (run_val_off_the_primary_rank example_collaborators
           (JiantRunner.mk (example_container []) "cuda" (example_rparams 1))
           ["rte"] true true example_world).
  - simpl. lia.
  - repeat constructor; by eexists.
  - repeat constructor; by eexists.
Defined.

(** X17. [JiantRunner.run_test] can only test the tasks of the configured
    [test_task_list]: once the dataloaders of that list are built, a name
    outside the list raises a [KeyError] for that name, before any forward
    pass. *)
Theorem run_test_rejects_a_task_outside_the_test_list
    (C : Collaborators) (self : JiantRunner.t) (task_name : string)
    (others : list string) (w : World) :
  Forall (λ n, is_Some (eval_dataloader_for C (JiantRunner.jiant_task_container self)
                          (PHASE_TEST C) false n))
    (test_task_list (task_run_config (JiantRunner.jiant_task_container self))) →
  task_name ∉ test_task_list (task_run_config (JiantRunner.jiant_task_container self)) →
  ∃ w',
    JiantRunner.run_test C self (task_name :: others) w = (Raise (KeyError task_name), w')
    ∧ after_events w
        ((λ n, EvGetEvalDataloader n (PHASE_TEST C))
           <$> test_task_list (task_run_config (JiantRunner.jiant_task_container self))) w'.
Proof.
  intros Hloaders Hout.
  destruct (dataloader_loop_run C self (PHASE_TEST C) false _ Hloaders ∅ w)
    as (w1 & Hrun1 & Hw1).
  exists w1. split; [|exact Hw1].
  unfold JiantRunner.run_test, JiantRunner.get_test_dataloader_dict,
    JiantRunner._get_eval_dataloader_dict.
  erewrite bind_ok by exact Hrun1. cbn [for_fold].
  apply bind_raise.
  destruct (task_dict (JiantRunner.jiant_task_container self) !! task_name) as [task|] eqn:Ht.
  - erewrite bind_ok by (unfold lift, getitem; rewrite Ht; reflexivity).
    apply bind_raise. unfold lift, getitem.
    rewrite lookup_foldl_insert, decide_False by done. by rewrite lookup_empty.
  - apply bind_raise. unfold lift, getitem. by rewrite Ht.
Qed.

Lemma run_test_rejects_a_task_outside_the_test_list_witness :
  ∃ w',
    JiantRunner.run_test example_collaborators (example_runner []) ["rte"] example_world
    = (Raise (KeyError "rte"), w')
    ∧ after_events example_world
        ((λ n, EvGetEvalDataloader n (PHASE_TEST example_collaborators))
           <$> test_task_list
                 (task_run_config (JiantRunner.jiant_task_container (example_runner [])))) w'.
Proof.
  apply (run_test_rejects_a_task_outside_the_test_list example_collaborators
           (example_runner []) "rte" [] example_world).
  - constructor.
  - set_solver.
Defined.

(** ** Training steps: where they fail and what they have done by then *)

Lemma after_events_delta (w w' : World) (d1 d2 : list Event) :
  after_events w d1 w' → after_events w d2 w' → d1 = d2.
Proof.
  intros (Ht1 & _) (Ht2 & _). rewrite Ht1 in Ht2. by apply app_inv_head in Ht2.
Qed.

Lemma logged_entries_app (a b : list Event) :
  logged_entries (a ++ b) = logged_entries a ++ logged_entries b.
Proof. unfold logged_entries. apply omap_app. Qed.

Lemma logged_entries_none (t : list Event) :
  Forall (λ e, is_log_record e = false) t → logged_entries t = [].
Proof.
  induction 1 as [|e t He _ IH]; [done|].
  change (e :: t) with ([e] ++ t). rewrite logged_entries_app, IH.
  by destruct e.
Qed.

Lemma micro_batch_events_are_no_log (t : list Event) :
  Forall (λ e, is_micro_batch_event e = true) t →
  Forall (λ e, is_log_record e = false) t.
Proof.
  intros Hall. eapply Forall_impl; [exact Hall|]. intros e He. by destruct e.
Qed.

Section TrainStepPrefix.

Variables (C : Collaborators) (self : JiantRunner.t).
Variables (train_dataloader_dict : gmap string string) (w : World).
Variables (task_name : string) (task : Task).
Hypothesis sampled :
  task_sampler_pop C (trace w ++ [EvTrain Student]) = (task_name, task).

Lemma micro_batch_only_causes (name : string) (t : Task) (N : Z) :
  only_causes (λ e, is_micro_batch_event e = true)
    (JiantRunner.micro_batch C self train_dataloader_dict name t N).
Proof.
  unfold JiantRunner.micro_batch, JiantRunner.complex_backpropagate, complex_backpropagate.
  causes.
Qed.

(** The run up to the lookup of the task's configuration. *)
Lemma run_train_step_sampled :
  JiantRunner.run_train_step C self train_dataloader_dict w
  = (task_specific_config ←
       lift (getitem (task_specific_configs (JiantRunner.jiant_task_container self))
               task_name);
     loss_val ←
       for_fold (range (gradient_accumulation_steps task_specific_config)) 0%R
         (λ loss_val i,
           '(batch, loss) ← JiantRunner.micro_batch C self train_dataloader_dict
                              task_name task
                              (gradient_accumulation_steps task_specific_config);
           mret (loss_val + loss)%R);
     event EvOptimizerSchedulerStep;;
     event EvOptimizerZeroGrad;;
     JiantRunner.step_and_log task_name task_specific_config loss_val)
      (with_trace (λ t, t ++ [EvSamplerPop])
         (with_trace (λ t, t ++ [EvTrain Student]) w)).
Proof.
  unfold JiantRunner.run_train_step.
  erewrite bind_ok by reflexivity. erewrite bind_ok by reflexivity.
  cbn [trace with_trace]. by rewrite sampled.
Qed.

End TrainStepPrefix.

(** X18. A training step fails fast when the sampled task cannot be
    trained on.  If the task has no configuration, or has one with at
    least one accumulation step but no data cursor, [run_train_step]
    raises a [KeyError] for the task's name right after the sampler was
    asked: no batch is read, no forward or backward pass is made, the
    optimizer is not stepped and the training state is unchanged. *)
Theorem run_train_step_fails_before_training
    (C : Collaborators) (self : JiantRunner.t)
    (train_dataloader_dict : gmap string string) (w : World)
    (task_name : string) (task : Task) :
  task_sampler_pop C (trace w ++ [EvTrain Student]) = (task_name, task) →
  task_specific_configs (JiantRunner.jiant_task_container self) !! task_name = None
  ∨ (∃ config,
       task_specific_configs (JiantRunner.jiant_task_container self) !! task_name
         = Some config
       ∧ 1 ≤ gradient_accumulation_steps config
       ∧ train_dataloader_dict !! task_name = None) →
  ∃ w',
    JiantRunner.run_train_step C self train_dataloader_dict w
    = (Raise (KeyError task_name), w')
    ∧ after_events w [EvTrain Student; EvSamplerPop] w'.
Proof.
  intros Hsampled Hmissing. eexists. split.
  - rewrite (run_train_step_sampled C self train_dataloader_dict w task_name task Hsampled).
    destruct Hmissing as [Hconfig | (config & Hconfig & HN & Hcursor)].
    + apply bind_raise. unfold lift, getitem. by rewrite Hconfig.
    + erewrite bind_ok by (unfold lift, getitem; rewrite Hconfig; reflexivity).
      apply bind_raise. unfold range.
      destruct (Z.to_nat (gradient_accumulation_steps config)) as [|n] eqn:Hn; [lia|].
      cbn [seq for_fold]. apply bind_raise. apply bind_raise.
      unfold JiantRunner.micro_batch. apply bind_raise.
      unfold lift, getitem. by rewrite Hcursor.
  - repeat split. simpl. by rewrite <- app_assoc.
Qed.

Lemma run_train_step_fails_before_training_witness :
  ∃ w',
    JiantRunner.run_train_step example_collaborators (example_runner []) ∅ example_world
    = (Raise (KeyError "rte"), w')
    ∧ after_events example_world [EvTrain Student; EvSamplerPop] w'.
Proof.
  apply (run_train_step_fails_before_training example_collaborators (example_runner [])
           ∅ example_world "rte" rte eq_refl).
  right. exists (mkTaskSpecificConfig 8 8 500 1).
  split; [reflexivity|]. split; [simpl; lia | reflexivity].
Defined.

Section TrainStepRuns.

Variables (C : Collaborators) (self : JiantRunner.t).
Variables (train_dataloader_dict : gmap string string) (w : World).
Variables (task_name cursor : string) (task : Task) (config : TaskSpecificConfig).
Hypothesis sampled :
  task_sampler_pop C (trace w ++ [EvTrain Student]) = (task_name, task).
Hypothesis configured :
  task_specific_configs (JiantRunner.jiant_task_container self) !! task_name = Some config.
Hypothesis cursor_known : train_dataloader_dict !! task_name = Some cursor.

(** The accumulation loop and what it causes. *)
Lemma accumulation_loop_events (start : World) :
  ∃ (seen : list (Batch * R)) (w1 : World) (delta : list Event),
    for_fold (range (gradient_accumulation_steps config)) 0%R
      (λ loss_val i,
        '(batch, loss) ← JiantRunner.micro_batch C self train_dataloader_dict
                           task_name task (gradient_accumulation_steps config);
        mret (loss_val + loss)%R) start
    = (Ok (0 + Torch.rsum seen.*2)%R, w1)
    ∧ after_events start delta w1
    ∧ Forall (λ e, is_micro_batch_event e = true) delta
    ∧ scaled_losses delta = seen.*2
    ∧ length seen = Z.to_nat (gradient_accumulation_steps config).
Proof.
  destruct (accumulation_loop C self train_dataloader_dict task_name cursor task
              (gradient_accumulation_steps config) cursor_known
              (λ (acc : R) (_ : Batch) (l : R), (acc + l)%R)
              (Z.to_nat (gradient_accumulation_steps config)) 0%nat 0%R start)
    as (seen & w1 & delta & Hloop & Hw1 & _ & Hlosses & Hlen).
  rewrite foldl_sum_losses in Hloop.
  exists seen, w1, delta. split; [exact Hloop|]. split; [exact Hw1|].
  split; [| done].
  destruct (only_causes_for_fold (λ e, is_micro_batch_event e = true)
              (range (gradient_accumulation_steps config))
              (λ (loss_val : R) (i : nat),
                 '(batch, loss) ← JiantRunner.micro_batch C self train_dataloader_dict
                                    task_name task (gradient_accumulation_steps config);
                 mret (loss_val + loss)%R)) with (acc := 0%R) (w := start)
    as (delta' & Hw1' & Hall).
  { intros acc i. apply only_causes_bind; [apply micro_batch_only_causes|].
    intros [batch l]. apply only_causes_ret. }
  unfold range in Hw1'. rewrite Hloop in Hw1'.
  by rewrite (after_events_delta _ _ _ _ Hw1 Hw1').
Qed.

(** [JiantRunner.run_train_step] up to line 117, with what it caused. *)
Lemma run_train_step_prefix :
  ∃ (seen : list (Batch * R)) (w1 : World) (delta : list Event),
    JiantRunner.run_train_step C self train_dataloader_dict w
    = JiantRunner.step_and_log task_name config (0 + Torch.rsum seen.*2) w1
    ∧ after_events w
        ([EvTrain Student; EvSamplerPop] ++ delta
         ++ [EvOptimizerSchedulerStep; EvOptimizerZeroGrad]) w1
    ∧ Forall (λ e, is_micro_batch_event e = true) delta
    ∧ scaled_losses delta = seen.*2
    ∧ length seen = Z.to_nat (gradient_accumulation_steps config).
Proof.
  destruct (accumulation_loop_events
              (with_trace (λ t, t ++ [EvSamplerPop])
                 (with_trace (λ t, t ++ [EvTrain Student]) w)))
    as (seen & w1 & delta & Hloop & Hw1 & Hquiet & Hlosses & Hlen).
  exists seen, (with_trace (λ t, t ++ [EvOptimizerZeroGrad])
                  (with_trace (λ t, t ++ [EvOptimizerSchedulerStep]) w1)), delta.
  split; [| split; [| done]].
  - rewrite (run_train_step_sampled C self train_dataloader_dict w task_name task sampled).
    erewrite bind_ok by (unfold lift, getitem; rewrite configured; reflexivity).
    erewrite bind_ok by exact Hloop.
    erewrite bind_ok by reflexivity.
    erewrite bind_ok by reflexivity.
    reflexivity.
  - destruct Hw1 as (Ht & Hs & Hp & Hn). simpl in Ht, Hs, Hp, Hn.
    repeat split; simpl; [| done..].
    rewrite Ht. by rewrite <- !app_assoc.
Qed.

End TrainStepRuns.

(** X19. A training step for a task that the [TrainState] does not know
    is detected too late: the micro-batches have been run and the
    optimizer stepped (once) and zeroed when [TrainState.step] raises the
    [KeyError]; the counters are unchanged and no log record is written. *)
Theorem run_train_step_for_an_uncounted_task
    (C : Collaborators) (self : JiantRunner.t)
    (train_dataloader_dict : gmap string string) (w : World)
    (task_name cursor : string) (task : Task) (config : TaskSpecificConfig) :
  task_sampler_pop C (trace w ++ [EvTrain Student]) = (task_name, task) →
  task_specific_configs (JiantRunner.jiant_task_container self) !! task_name = Some config →
  train_dataloader_dict !! task_name = Some cursor →
  task_steps (train_state w) !! task_name = None →
  ∃ (w' : World) (delta : list Event),
    JiantRunner.run_train_step C self train_dataloader_dict w
    = (Raise (KeyError task_name), w')
    ∧ after_events w delta w'
    ∧ count_events is_optimizer_step delta = 1%nat
    ∧ count_events is_zero_grad delta = 1%nat
    ∧ length (scaled_losses delta) = Z.to_nat (gradient_accumulation_steps config)
    ∧ logged_entries delta = [].
Proof.
  intros Hsampled Hconfig Hcursor Hunknown.
  destruct (run_train_step_prefix C self train_dataloader_dict w task_name cursor task
              config Hsampled Hconfig Hcursor)
    as (seen & w1 & delta & Hrun & Hw1 & Hquiet & Hlosses & Hlen).
  exists w1, ([EvTrain Student; EvSamplerPop] ++ delta
              ++ [EvOptimizerSchedulerStep; EvOptimizerZeroGrad]).
  split; [| split; [exact Hw1|]].
  - rewrite Hrun. unfold JiantRunner.step_and_log. apply bind_raise.
    unfold on_train_state. rewrite step_unknown.
    + f_equal. destruct w1 as [t st ps net]. reflexivity.
    + destruct Hw1 as (_ & -> & _). exact Hunknown.
  - assert (count_events is_optimizer_step delta = 0%nat
            ∧ count_events is_zero_grad delta = 0%nat) as [Hc1 Hc2].
    { split; apply count_events_none; (eapply Forall_impl; [exact Hquiet|]);
        intros e He; by destruct e. }
    rewrite !count_events_app, !scaled_losses_app, !logged_entries_app, Hc1, Hc2, Hlosses.
    rewrite (logged_entries_none delta) by by apply micro_batch_events_are_no_log.
    repeat split; try done. simpl. rewrite app_nil_r, length_fmap. exact Hlen.
Qed.

Lemma run_train_step_for_an_uncounted_task_witness :
  ∃ (w' : World) (delta : list Event),
    JiantRunner.run_train_step example_collaborators (example_runner [])
      example_dataloader_dict
      (with_train_state (TrainState.from_task_name_list ["mnli"]) example_world)
    = (Raise (KeyError "rte"), w')
    ∧ after_events (with_train_state (TrainState.from_task_name_list ["mnli"]) example_world)
        delta w'
    ∧ count_events is_optimizer_step delta = 1%nat
    ∧ count_events is_zero_grad delta = 1%nat
    ∧ length (scaled_losses delta)
      = Z.to_nat (gradient_accumulation_steps (mkTaskSpecificConfig 8 8 500 1))
    ∧ logged_entries delta = [].
Proof.
  apply (run_train_step_for_an_uncounted_task example_collaborators (example_runner [])
           example_dataloader_dict
           (with_train_state (TrainState.from_task_name_list ["mnli"]) example_world)
           "rte" "rte/train" rte (mkTaskSpecificConfig 8 8 500 1)); reflexivity.
Defined.

(** X20. With a configuration of zero accumulation steps the training step
    reads no batch, steps and zeroes the optimizer, advances the counters
    of the task, and only then raises [ZeroDivisionError] on the mean
    loss: the step is counted but no log record is written. *)
Theorem run_train_step_without_accumulation_steps
    (C : Collaborators) (self : JiantRunner.t)
    (train_dataloader_dict : gmap string string) (w : World)
    (task_name : string) (task : Task) (config : TaskSpecificConfig) (v : Z) :
  task_sampler_pop C (trace w ++ [EvTrain Student]) = (task_name, task) →
  task_specific_configs (JiantRunner.jiant_task_container self) !! task_name = Some config →
  gradient_accumulation_steps config = 0 →
  task_steps (train_state w) !! task_name = Some v →
  ∃ w',
    JiantRunner.run_train_step C self train_dataloader_dict w
    = (Raise ZeroDivisionError, w')
    ∧ trace w' = trace w ++ [EvTrain Student; EvSamplerPop;
                             EvOptimizerSchedulerStep; EvOptimizerZeroGrad]
    ∧ global_steps (train_state w') = global_steps (train_state w) + 1
    ∧ task_steps (train_state w') = <[task_name := v + 1]> (task_steps (train_state w)).
Proof.
  intros Hsampled Hconfig HN Hv. eexists. split.
  - rewrite (run_train_step_sampled C self train_dataloader_dict w task_name task Hsampled).
    erewrite bind_ok by (unfold lift, getitem; rewrite Hconfig; reflexivity).
    rewrite HN. erewrite bind_ok by reflexivity.
    erewrite bind_ok by reflexivity. erewrite bind_ok by reflexivity.
    unfold JiantRunner.step_and_log.
    erewrite bind_ok
      by (unfold on_train_state; cbn [train_state with_trace];
          rewrite (step_known _ _ _ Hv); reflexivity).
    erewrite bind_ok by reflexivity.
    erewrite bind_ok
      by (unfold lift, getitem; cbn [train_state with_train_state task_steps];
          rewrite lookup_insert_eq; reflexivity).
    apply bind_raise. unfold lift, py_div. rewrite HN. reflexivity.
  - cbn [trace train_state with_trace with_train_state global_steps task_steps].
    rewrite <- !app_assoc. done.
Qed.

Lemma run_train_step_without_accumulation_steps_witness :
  ∃ w',
    JiantRunner.run_train_step example_collaborators unaccumulating_runner ∅ example_world
    = (Raise ZeroDivisionError, w')
    ∧ trace w' = trace example_world ++ [EvTrain Student; EvSamplerPop;
                                         EvOptimizerSchedulerStep; EvOptimizerZeroGrad]
    ∧ global_steps (train_state w') = global_steps (train_state example_world) + 1
    ∧ task_steps (train_state w')
      = <["rte" := 0 + 1]> (task_steps (train_state example_world)).
Proof.
  apply (run_train_step_without_accumulation_steps example_collaborators
           unaccumulating_runner ∅ example_world "rte" rte
           (mkTaskSpecificConfig 8 8 500 0) 0); reflexivity.
Defined.

(** ** The training step of [L2TWWRunner] *)

Lemma accumulate_and_step_only_causes (C : Collaborators) (self : L2TWWRunner.t)
    (train_dataloader_dict : gmap string string) :
  only_causes (λ e, is_log_record e = false ∧ is_meta_update e = false)
    (L2TWWRunner.accumulate_and_step C self train_dataloader_dict).
Proof.
  unfold L2TWWRunner.accumulate_and_step, JiantRunner.micro_batch,
    JiantRunner.complex_backpropagate, complex_backpropagate.
  causes.
Qed.

Lemma count_events_forall_false (p : Event → bool) (Q : Event → Prop) (t : list Event) :
  (∀ e, Q e → p e = false) → Forall Q t → count_events p t = 0%nat.
Proof.
  intros HQ Hall. apply count_events_none. eapply Forall_impl; [exact Hall|]. exact HQ.
Qed.

(** X21. [L2TWWRunner.run_train_step] cannot complete a step that trains
    on a batch.  When the sampled task has a configuration with at least
    one accumulation step and a cursor, the call raises in
    [run_inner_loop]: the counters of the [TrainState] are not advanced,
    no log record is written, and the weighting networks are neither
    updated nor backpropagated through. *)
Theorem l2tww_train_step_never_completes
    (C : Collaborators) (self : L2TWWRunner.t)
    (train_dataloader_dict : gmap string string) (w : World)
    (task_name cursor : string) (task : Task) (config : TaskSpecificConfig) :
  task_sampler_pop C (trace w ++ [EvTrain Student]) = (task_name, task) →
  task_specific_configs (JiantRunner.jiant_task_container (L2TWWRunner.base self))
    !! task_name = Some config →
  train_dataloader_dict !! task_name = Some cursor →
  1 ≤ gradient_accumulation_steps config →
  ∃ (e : PyError) (w' : World) (delta : list Event),
    L2TWWRunner.run_train_step C self train_dataloader_dict w = (Raise e, w')
    ∧ after_events w delta w'
    ∧ logged_entries delta = []
    ∧ count_events is_meta_update delta = 0%nat.
Proof.
  intros Hsampled Hconfig Hcursor HN.
  destruct (accumulate_and_step_run C self train_dataloader_dict w task_name cursor task
              config Hsampled Hconfig Hcursor)
    as (loss_val & meta_batches & w1 & delta0 & Hrun & _ & _ & Hlen).
  destruct (accumulate_and_step_only_causes C self train_dataloader_dict w)
    as (delta & Hw1 & Hquiet).
  rewrite Hrun in Hw1. cbn [snd] in Hw1.
  destruct meta_batches as [|batch meta_batches]; [simpl in Hlen; lia|].
  destruct (inner_step_raises C self batch task
              (with_trace (λ t, t ++ [EvEval Teacher]) w1)) as [e Hinner].
  exists e. eexists.
  exists (delta ++ [EvEval Teacher; EvOptimizerZeroGrad;
                    EvForward Student batch true false; EvForward Teacher batch true true]).
  split; [| split; [| split]].
  - unfold L2TWWRunner.run_train_step. erewrite bind_ok by exact Hrun.
    apply bind_raise. rewrite run_inner_loop_cons. simpl for_each.
    erewrite bind_raise by exact Hinner. reflexivity.
  - eapply after_events_trans; [exact Hw1|].
    repeat split. simpl. by rewrite <- !app_assoc.
  - rewrite logged_entries_app, logged_entries_none; [done|].
    eapply Forall_impl; [exact Hquiet|]. by intros ? [? _].
  - rewrite count_events_app.
    rewrite (count_events_forall_false _ _ delta (λ e H, proj2 H) Hquiet).
    reflexivity.
Qed.

Lemma l2tww_train_step_never_completes_witness :
  ∃ (e : PyError) (w' : World) (delta : list Event),
    L2TWWRunner.run_train_step alternating_collaborators (L2TWWRunner.mk training_runner)
      {[ "rte" := "rte/train"; "mnli" := "mnli/train" ]} example_world = (Raise e, w')
    ∧ after_events example_world delta w'
    ∧ logged_entries delta = []
    ∧ count_events is_meta_update delta = 0%nat.
Proof.
  apply (l2tww_train_step_never_completes alternating_collaborators
           (L2TWWRunner.mk training_runner)
           {[ "rte" := "rte/train"; "mnli" := "mnli/train" ]} example_world
           "mnli" "mnli/train" (mkTask "mnli") (mkTaskSpecificConfig 4 4 500 1)).
  - reflexivity.
  - reflexivity.
  - reflexivity.
  - simpl. lia.
Defined.

(** ** Whole training runs *)

Section TrainingRun.

Variables (C : Collaborators) (self : JiantRunner.t).

Abbreviation names :=
  (train_task_list (task_run_config (JiantRunner.jiant_task_container self))).

Hypothesis can_train : trainable C (JiantRunner.jiant_task_container self).

(** The loop of [get_train_dataloader_dict]. *)
Lemma train_dataloader_loop_run (task_names : list string) :
  Forall (λ n, n ∈ names) task_names →
  ∀ (acc : gmap string string) (w : World),
    for_fold task_names acc
      (λ train_dataloader_dict task_name,
        task ← lift (getitem (task_dict (JiantRunner.jiant_task_container self)) task_name);
        caches ← lift (getitem (task_cache_dict (JiantRunner.jiant_task_container self))
                         task_name);
        train_cache ← lift (getitem caches "train");
        task_specific_config ←
          lift (getitem (task_specific_configs (JiantRunner.jiant_task_container self))
                  task_name);
        mret (<[task_name := JiantRunner.train_cursor task_name]> train_dataloader_dict)) w
    = (Ok (foldl (λ d n, <[n := JiantRunner.train_cursor n]> d) acc task_names), w).
Proof.
  destruct can_train as [_ Hall].
  induction 1 as [|n task_names Hn _ IH]; intros acc w; [reflexivity|].
  destruct (proj1 (Forall_forall _ _) Hall n Hn)
    as ([task Ht] & (caches & Hc & [train_cache Htrain]) & (config & Hconfig & _)).
  cbn [for_fold foldl]. erewrite bind_ok; [apply IH|].
  erewrite bind_ok by (unfold lift, getitem; rewrite Ht; reflexivity).
  erewrite bind_ok by (unfold lift, getitem; rewrite Hc; reflexivity).
  erewrite bind_ok by (unfold lift, getitem; rewrite Htrain; reflexivity).
  erewrite bind_ok by (unfold lift, getitem; rewrite Hconfig; reflexivity).
  reflexivity.
Qed.

Lemma train_dataloader_dict_run (w : World) :
  ∃ train_dataloader_dict,
    JiantRunner.get_train_dataloader_dict self w = (Ok train_dataloader_dict, w)
    ∧ ∀ n, train_dataloader_dict !! n
           = if decide (n ∈ names) then Some (JiantRunner.train_cursor n) else None.
Proof.
  eexists. split.
  - unfold JiantRunner.get_train_dataloader_dict.
    apply train_dataloader_loop_run, Forall_forall. done.
  - intros n. rewrite lookup_foldl_insert. case_decide; [done | apply lookup_empty].
Qed.

Variable train_dataloader_dict : gmap string string.
Hypothesis cursors :
  ∀ n, n ∈ names → train_dataloader_dict !! n = Some (JiantRunner.train_cursor n).

Abbreviation counted := (has_counters names).

(** One training step of a run. *)
Lemma train_step_run (w : World) :
  counted w →
  ∃ (w' : World) (delta : list Event) (entry : LossTrainEntry),
    JiantRunner.run_train_step C self train_dataloader_dict w = (Ok tt, w')
    ∧ trace w' = trace w ++ delta
    ∧ global_steps (train_state w') = global_steps (train_state w) + 1
    ∧ counted w'
    ∧ logged_entries delta = [entry]
    ∧ entry_global_step entry = global_steps (train_state w) + 1
    ∧ count_events is_optimizer_step delta = 1%nat.
Proof.
  intros Hcounted. destruct can_train as [Hsampler Hall].
  destruct (task_sampler_pop C (trace w ++ [EvTrain Student])) as [task_name task] eqn:Hs.
  assert (task_name ∈ names) as Hin.
  { specialize (Hsampler (trace w ++ [EvTrain Student])). by rewrite Hs in Hsampler. }
  destruct (proj1 (Forall_forall _ _) Hall task_name Hin)
    as (_ & _ & (config & Hconfig & HN)).
  destruct (Hcounted task_name Hin) as [v Hv].
  destruct (run_train_step_prefix C self train_dataloader_dict w task_name
              (JiantRunner.train_cursor task_name) task config Hs Hconfig
              (cursors task_name Hin))
    as (seen & w1 & delta & Hrun & (Ht & Hst & _ & _) & Hquiet & _ & _).
  rewrite (step_and_log_run task_name config _ w1 v) in Hrun
    by (rewrite ?Hst; done || lia).
  eexists _, (([EvTrain Student; EvSamplerPop] ++ delta
               ++ [EvOptimizerSchedulerStep; EvOptimizerZeroGrad]) ++ [_]), _.
  split; [exact Hrun|].
  cbn [trace train_state with_trace with_train_state task_steps global_steps].
  rewrite Hst, Ht.
  split; [by rewrite <- !app_assoc|]. split; [done|]. split; [| split; [| split]].
  - intros n Hn. cbn [train_state with_trace with_train_state task_steps].
    destruct (decide (n = task_name)) as [->|Hne].
    + rewrite lookup_insert_eq. by eexists.
    + rewrite lookup_insert_ne by done. by apply Hcounted.
  - rewrite !logged_entries_app.
    rewrite (logged_entries_none delta) by by apply micro_batch_events_are_no_log.
    reflexivity.
  - reflexivity.
  - rewrite !count_events_app.
    rewrite (count_events_forall_false is_optimizer_step _ delta) with (2 := Hquiet);
      [reflexivity|].
    intros e He. by destruct e.
Qed.

(** The loop of [run_train_context] and [resume_train_context]. *)
Lemma train_loop_run {A} (xs : list A) : ∀ w : World,
  counted w →
  ∃ (w' : World) (delta : list Event),
    for_each xs (λ _, JiantRunner.run_train_step C self train_dataloader_dict) w
    = (Ok tt, w')
    ∧ trace w' = trace w ++ delta
    ∧ global_steps (train_state w')
      = global_steps (train_state w) + Z.of_nat (length xs)
    ∧ counted w'
    ∧ entry_global_step <$> logged_entries delta
      = (λ i, global_steps (train_state w) + Z.of_nat i + 1) <$> seq 0 (length xs)
    ∧ count_events is_optimizer_step delta = length xs.
Proof.
  induction xs as [|x xs IH]; intros w Hcounted.
  - exists w, []. rewrite app_nil_r. simpl. repeat split; [lia | done].
  - destruct (train_step_run w Hcounted)
      as (w1 & d1 & entry & Hrun & Ht1 & Hg1 & Hc1 & Hl1 & He1 & Ho1).
    destruct (IH w1 Hc1) as (w2 & d2 & Hloop & Ht2 & Hg2 & Hc2 & Hl2 & Ho2).
    exists w2, (d1 ++ d2). split; [| split; [| split; [| split; [done | split]]]].
    + cbn [for_each]. erewrite bind_ok by exact Hrun. exact Hloop.
    + rewrite Ht2, Ht1. by rewrite <- app_assoc.
    + rewrite Hg2, Hg1. cbn [length]. lia.
    + rewrite logged_entries_app, fmap_app, Hl1, Hl2. cbn [length seq].
      rewrite fmap_cons. cbn [fmap list_fmap app]. rewrite He1. f_equal; [f_equal; lia|].
      rewrite <- fmap_S_seq, <- list_fmap_compose.
      apply list_fmap_ext. intros i y _. simpl. rewrite Hg1. lia.
    + rewrite count_events_app, Ho1, Ho2. reflexivity.
Qed.

End TrainingRun.

Lemma from_task_name_list_has_counters (task_names : list string) (w : World) :
  has_counters task_names
    (with_train_state (TrainState.from_task_name_list task_names) w).
Proof.
  intros n Hn. cbn [train_state with_train_state task_steps TrainState.from_task_name_list].
  rewrite zero_counters_lookup, decide_True by done. by eexists.
Qed.

Lemma training_container_is_trainable :
  trainable alternating_collaborators training_container.
Proof.
  split.
  - intros t. simpl. destruct (Nat.even (length t)); simpl; set_solver.
  - repeat constructor; simpl; try (by eexists); try (eexists; split; [reflexivity|]);
      try (by eexists); simpl; lia.
Qed.

(** X22. [run_train_context] is lazy and bounded.  Asked for no item it
    runs nothing, not even the creation of the dataloaders; asked for
    [items] items, with a container that can be trained on, it runs
    min([items], [max_steps]) training steps, each with one optimizer step
    and one log record, on a [TrainState] that starts from zero. *)
Theorem run_train_context_runs_what_is_asked_for
    (C : Collaborators) (self : JiantRunner.t) (items : nat) (w : World) :
  trainable C (JiantRunner.jiant_task_container self) →
  ∃ (w' : World) (delta : list Event),
    JiantRunner.run_train_context C self items w = (Ok tt, w')
    ∧ trace w' = trace w ++ delta
    ∧ length (logged_entries delta)
      = Nat.min items (Z.to_nat (max_steps (global_train_config
                                           (JiantRunner.jiant_task_container self))))
    ∧ count_events is_optimizer_step delta
      = Nat.min items (Z.to_nat (max_steps (global_train_config
                                           (JiantRunner.jiant_task_container self))))
    ∧ (items = 0%nat → w' = w)
    ∧ (items ≠ 0%nat →
       global_steps (train_state w')
       = Z.of_nat (Nat.min items (Z.to_nat (max_steps (global_train_config
                                           (JiantRunner.jiant_task_container self)))))).
Proof.
  intros Htrainable. destruct items as [|items].
  - exists w, []. rewrite app_nil_r. done.
  - destruct (train_dataloader_dict_run C self Htrainable w) as (d & Hd & Hlookup).
    destruct (train_loop_run C self Htrainable d) with
      (xs := take (S items)
               (range (max_steps (global_train_config
                                    (JiantRunner.jiant_task_container self)))))
      (w := with_train_state
              (TrainState.from_task_name_list
                 (train_task_list (task_run_config (JiantRunner.jiant_task_container self))))
              w)
      as (w' & delta & Hloop & Ht & Hg & _ & Hl & Ho).
    { intros n Hn. rewrite Hlookup. by rewrite decide_True. }
    { apply from_task_name_list_has_counters. }
    rewrite length_take in Hg, Hl, Ho. unfold range in Hg, Hl, Ho.
    rewrite length_seq in Hg, Hl, Ho.
    exists w', delta. split; [| split; [exact Ht | split; [| split; [exact Ho|]]]].
    + unfold JiantRunner.run_train_context.
      erewrite bind_ok by exact Hd. erewrite bind_ok by reflexivity. exact Hloop.
    + apply (f_equal length) in Hl. by rewrite !length_fmap, length_seq in Hl.
    + split; [done|]. intros _. rewrite Hg. simpl. lia.
Qed.

Lemma run_train_context_runs_what_is_asked_for_witness :
  ∃ (w' : World) (delta : list Event),
    JiantRunner.run_train_context alternating_collaborators training_runner 2 example_world
    = (Ok tt, w')
    ∧ trace w' = trace example_world ++ delta
    ∧ length (logged_entries delta)
      = Nat.min 2 (Z.to_nat (max_steps (global_train_config
                                       (JiantRunner.jiant_task_container training_runner))))
    ∧ count_events is_optimizer_step delta
      = Nat.min 2 (Z.to_nat (max_steps (global_train_config
                                       (JiantRunner.jiant_task_container training_runner))))
    ∧ (2 = 0 → w' = example_world)%nat
    ∧ (2 ≠ 0 →
       global_steps (train_state w')
       = Z.of_nat (Nat.min 2 (Z.to_nat (max_steps (global_train_config
                                       (JiantRunner.jiant_task_container training_runner))))))%nat.
Proof.
  apply (run_train_context_runs_what_is_asked_for alternating_collaborators
           training_runner 2 example_world).
  exact training_container_is_trainable.
Defined.

(** X23. With a container that can be trained on, [run_train] completes:
    it runs [max_steps] training steps (none when [max_steps] is not
    positive), each with exactly one step of the optimizer, and writes one
    log record per step whose [global_step] fields are 1, 2, ...,
    [max_steps] in this order; the [TrainState] it leaves has counted
    [max_steps] steps. *)
Theorem run_train_runs_max_steps_steps
    (C : Collaborators) (self : JiantRunner.t) (w : World) :
  trainable C (JiantRunner.jiant_task_container self) →
  ∃ (w' : World) (delta : list Event),
    JiantRunner.run_train C self w = (Ok tt, w')
    ∧ trace w' = trace w ++ delta
    ∧ global_steps (train_state w')
      = Z.of_nat (Z.to_nat (max_steps (global_train_config
                                         (JiantRunner.jiant_task_container self))))
    ∧ entry_global_step <$> logged_entries delta
      = (λ i, Z.of_nat i + 1)
          <$> seq 0 (Z.to_nat (max_steps (global_train_config
                                            (JiantRunner.jiant_task_container self))))
    ∧ count_events is_optimizer_step delta
      = Z.to_nat (max_steps (global_train_config (JiantRunner.jiant_task_container self))).
Proof.
  intros Htrainable.
  destruct (train_dataloader_dict_run C self Htrainable w) as (d & Hd & Hlookup).
  destruct (train_loop_run C self Htrainable d) with
    (xs := range (max_steps (global_train_config (JiantRunner.jiant_task_container self))))
    (w := with_train_state
            (TrainState.from_task_name_list
               (train_task_list (task_run_config (JiantRunner.jiant_task_container self))))
            w)
    as (w' & delta & Hloop & Ht & Hg & _ & Hl & Ho).
  { intros n Hn. rewrite Hlookup. by rewrite decide_True. }
  { apply from_task_name_list_has_counters. }
  unfold range in Hg, Hl, Ho. rewrite length_seq in Hg, Hl, Ho.
  exists w', delta. split; [| split; [exact Ht | split; [| split; [| exact Ho]]]].
  - unfold JiantRunner.run_train, JiantRunner.run_train_context.
    erewrite bind_ok by exact Hd. erewrite bind_ok by reflexivity.
    rewrite take_ge by (unfold range; rewrite length_seq; lia). exact Hloop.
  - rewrite Hg. simpl. lia.
  - rewrite Hl. apply list_fmap_ext. intros i y _. simpl. lia.
Qed.

Lemma run_train_runs_max_steps_steps_witness :
  ∃ (w' : World) (delta : list Event),
    JiantRunner.run_train alternating_collaborators training_runner example_world
    = (Ok tt, w')
    ∧ trace w' = trace example_world ++ delta
    ∧ global_steps (train_state w')
      = Z.of_nat (Z.to_nat (max_steps (global_train_config
                                         (JiantRunner.jiant_task_container training_runner))))
    ∧ entry_global_step <$> logged_entries delta
      = (λ i, Z.of_nat i + 1)
          <$> seq 0 (Z.to_nat (max_steps (global_train_config
                                            (JiantRunner.jiant_task_container training_runner))))
    ∧ count_events is_optimizer_step delta
      = Z.to_nat (max_steps (global_train_config
                               (JiantRunner.jiant_task_container training_runner))).
Proof.
  apply (run_train_runs_max_steps_steps alternating_collaborators training_runner
           example_world).
  exact training_container_is_trainable.
Defined.

(** X24. [resume_train_context] continues a run.  Handed a [TrainState]
    that has a counter for every task of the train list, and advanced
    [items] times, it runs min([items], [max_steps] - [global_steps])
    steps, none when [global_steps] has reached [max_steps]; the counters
    are kept and advanced, never reset, and the log records it writes are
    numbered from [global_steps] + 1 on. *)
Theorem resume_train_context_continues_the_count
    (C : Collaborators) (self : JiantRunner.t) (items : nat) (w : World) :
  trainable C (JiantRunner.jiant_task_container self) →
  has_counters (train_task_list (task_run_config (JiantRunner.jiant_task_container self))) w →
  ∃ (w' : World) (delta : list Event),
    JiantRunner.resume_train_context C self items w = (Ok tt, w')
    ∧ trace w' = trace w ++ delta
    ∧ global_steps (train_state w')
      = global_steps (train_state w)
        + Z.of_nat (Nat.min items
                    (Z.to_nat (max_steps (global_train_config
                                           (JiantRunner.jiant_task_container self))
                              - global_steps (train_state w))))
    ∧ entry_global_step <$> logged_entries delta
      = (λ i, global_steps (train_state w) + Z.of_nat i + 1)
          <$> seq 0 (Nat.min items
                     (Z.to_nat (max_steps (global_train_config
                                            (JiantRunner.jiant_task_container self))
                               - global_steps (train_state w)))).
Proof.
  intros Htrainable Hcounted. destruct items as [|items].
  - exists w, []. rewrite app_nil_r. simpl. repeat split; lia.
  - destruct (train_dataloader_dict_run C self Htrainable w) as (d & Hd & Hlookup).
    destruct (train_loop_run C self Htrainable d) with
      (xs := take (S items)
               (JiantRunner.range_from (global_steps (train_state w))
                  (max_steps (global_train_config
                                (JiantRunner.jiant_task_container self)))))
      (w := w)
      as (w' & delta & Hloop & Ht & Hg & _ & Hl & _).
    { intros n Hn. rewrite Hlookup. by rewrite decide_True. }
    { exact Hcounted. }
    rewrite length_take in Hg, Hl. unfold JiantRunner.range_from in Hg, Hl.
    rewrite length_fmap, length_seq in Hg, Hl.
    exists w', delta. split; [| done].
    unfold JiantRunner.resume_train_context.
    erewrite bind_ok by exact Hd. erewrite bind_ok by reflexivity. exact Hloop.
Qed.

Lemma resume_train_context_continues_the_count_witness :
  ∃ (w' : World) (delta : list Event),
    JiantRunner.resume_train_context alternating_collaborators training_runner 4
      (with_train_state {| global_steps := 3;
                           task_steps := {[ "rte" := 2; "mnli" := 1 ]} |} example_world)
    = (Ok tt, w')
    ∧ trace w' = trace example_world ++ delta
    ∧ global_steps (train_state w')
      = 3 + Z.of_nat (Nat.min 4 (Z.to_nat (5 - 3)))
    ∧ entry_global_step <$> logged_entries delta
      = (λ i, 3 + Z.of_nat i + 1) <$> seq 0 (Nat.min 4 (Z.to_nat (5 - 3))).
Proof.
  apply (resume_train_context_continues_the_count alternating_collaborators
           training_runner 4
           (with_train_state {| global_steps := 3;
                                task_steps := {[ "rte" := 2; "mnli" := 1 ]} |}
              example_world)).
  - exact training_container_is_trainable.
  - intros n Hn. simpl in Hn.
    apply elem_of_cons in Hn as [->|Hn]; [by eexists|].
    apply elem_of_cons in Hn as [->|Hn]; [by eexists|].
    by apply elem_of_nil in Hn.
Defined.

(** ** The labels of a validation subset *)

(** X25. [get_val_labels_dict] reads the label cache once per element of
    the list and keeps, for every task, a prefix of its cached labels: the
    whole cache without [use_subset]; with it, the first
    [eval_subset_num] labels (all of them when there are fewer), and for a
    negative [eval_subset_num] all but the last [-eval_subset_num] labels,
    without any error. *)
Theorem val_labels_dict_keeps_a_prefix
    (self : JiantRunner.t) (task_name_list : list string) (use_subset : bool) (w : World) :
  Forall (λ n, is_Some (val_labels_for (JiantRunner.jiant_task_container self)
                          use_subset n)) task_name_list →
  ∃ (val_labels_dict : gmap string (list Label)) (w' : World),
    JiantRunner.get_val_labels_dict self task_name_list use_subset w
    = (Ok val_labels_dict, w')
    ∧ after_events w (EvCacheGetAll <$> task_name_list) w'
    ∧ ∀ task_name, task_name ∈ task_name_list →
        ∃ config caches (cache val_labels : list Label),
          task_specific_configs (JiantRunner.jiant_task_container self) !! task_name
            = Some config
          ∧ task_cache_dict (JiantRunner.jiant_task_container self) !! task_name
            = Some caches
          ∧ caches !! "val_labels" = Some cache
          ∧ val_labels_dict !! task_name = Some val_labels
          ∧ val_labels `prefix_of` cache
          ∧ length val_labels
            = (if use_subset
               then if decide (0 ≤ eval_subset_num config)%Z
                    then Nat.min (Z.to_nat (eval_subset_num config)) (length cache)
                    else length cache - Z.to_nat (- eval_subset_num config)
               else length cache)%nat.
Proof.
  intros Hall.
  destruct (labels_loop_run self use_subset task_name_list Hall ∅ w) as (w' & Hrun & Hw').
  eexists _, w'. split; [exact Hrun|]. split; [exact Hw'|].
  intros task_name Hin. rewrite lookup_foldl_insert, decide_True by done.
  destruct (proj1 (Forall_forall _ _) Hall task_name Hin) as [labels Hlabels].
  rewrite Hlabels. unfold val_labels_for in Hlabels.
  destruct (task_specific_configs _ !! task_name) as [config|] eqn:Hs; [|done].
  simpl in Hlabels.
  destruct (task_cache_dict _ !! task_name) as [caches|] eqn:Hc; [|done].
  simpl in Hlabels.
  destruct (caches !! "val_labels") as [cache|] eqn:Hl; [|done].
  simpl in Hlabels. injection Hlabels as <-.
  exists config, caches, cache, (if use_subset then slice_to cache (eval_subset_num config)
                                 else cache).
  repeat split; try done.
  - destruct use_subset; [|done]. unfold slice_to. case_decide; apply prefix_take.
  - destruct use_subset; [|done]. unfold slice_to.
    case_decide; rewrite length_take; lia.
Qed.

Lemma val_labels_dict_keeps_a_prefix_witness :
  ∃ (val_labels_dict : gmap string (list Label)) (w' : World),
    JiantRunner.get_val_labels_dict (example_runner []) ["rte"] true example_world
    = (Ok val_labels_dict, w')
    ∧ after_events example_world (EvCacheGetAll <$> ["rte"]) w'
    ∧ ∀ task_name, task_name ∈ ["rte"] →
        ∃ config caches (cache val_labels : list Label),
          task_specific_configs (JiantRunner.jiant_task_container (example_runner []))
            !! task_name = Some config
          ∧ task_cache_dict (JiantRunner.jiant_task_container (example_runner []))
              !! task_name = Some caches
          ∧ caches !! "val_labels" = Some cache
          ∧ val_labels_dict !! task_name = Some val_labels
          ∧ val_labels `prefix_of` cache
          ∧ length val_labels
            = (if true
               then if decide (0 ≤ eval_subset_num config)%Z
                    then Nat.min (Z.to_nat (eval_subset_num config)) (length cache)
                    else length cache - Z.to_nat (- eval_subset_num config)
               else length cache)%nat.
Proof.
  apply (val_labels_dict_keeps_a_prefix (example_runner []) ["rte"] true example_world).
  repeat constructor. by eexists.
Defined.
